(** * askMilo job orchestration: a shallow embedding

  The development follows the JavaScript sources of the chorus pipeline:
  the fan-out dispatchers ([stages/fanOut-direct.mjs], [stages/fanOut.mjs]),
  the expansion stage ([stages/expand.mjs], [stages/expand-direct.mjs]),
  the tool-use loop ([stages/single-call-tools-direct.mjs]), the session
  store ([lib/sessionManager.js]), the synthesis stage
  ([stages/synthesize.mjs], [stages/synthesize-direct.mjs]), the session
  commands, the resume block, the chorus pipeline and the session-save
  tail of [askMilo.js], the submission gateway ([submit-chorus-study.js])
  and the status poller ([chorus-study-status.js]).

  Conventions.
  - Whatever Node or the network decides (the clock, random draws, what
    the language-model API answers, when a child process ends) is an
    explicit argument of the function that consumes it.
  - JavaScript numbers that are not integers (US dollars, elapsed seconds)
    live in an abstract carrier [num]; no law of arithmetic is assumed of
    it, so every statement holds for IEEE doubles as well.
  - A promise that rejects, or a [throw], is a value of a sum type. *)

From stdpp Require Import gmap strings list fin_maps pretty.
From Stdlib Require Import ZArith Lia QArith.Qcanon.

Open Scope string_scope.
Open Scope Z_scope.

(** ** The JavaScript runtime *)

(** Built-ins the sources call and whose exact behaviour no statement
  depends on.  [parseInt] returns [None] for [NaN].  [pathJoin] is
  [path.join] of two arguments: it normalises the joined path, so that
  different second arguments ([x], [./x], [a/../x]) can give one path. *)
Class JsRuntime := {
num : Type;
num_of_Z : Z → num;
num_add : num → num → num;
num_mul : num → num → num;
num_div : num → num → num;
parseInt : string → option Z;
encodeURIComponent : string → string;
trim : string → string;
homedir : string;
pathJoin : string → string → string;
}.

(** [arr.join(sep)] on strings. *)
Fixpoint join (sep : string) (parts : list string) : string :=
match parts with
| [] => ""
| [p] => p
| p :: rest => p +:+ sep +:+ join sep rest
end.

(** A newline, for template literals that contain one. *)
Definition nl : string := String (Ascii.ascii_of_nat 10) EmptyString.

(** [s.slice(0, n)]. *)
Definition slice0 (n : nat) (s : string) : string := String.substring 0 n s.

(** A string is truthy when it is not empty. *)
Definition truthy (s : string) : bool := negb (String.eqb s "").

(** ** Data model *)

Module Cost.
Section WithRuntime.
Context `{JsRuntime}.
Record t := mk { inputTokens : Z; outputTokens : Z; usd : num }.
(** [{ inputTokens: 0, outputTokens: 0, usd: 0 }] *)
Definition zero : t := mk 0 0 (num_of_Z 0).
End WithRuntime.
End Cost.

Module Usage.
(** [response.usage] of the messages API. *)
Record t := mk { input_tokens : Z; output_tokens : Z }.
End Usage.

Module Instruction.
Record t := mk {
  id : Z;
  perspective : string;
  instruction : string;
  methodology : string;
}.
End Instruction.

Module PerspectiveResult.
Section WithRuntime.
Context `{JsRuntime}.
Record t := mk {
  id : Z;
  perspective : string;
  instruction : string;
  findings : string;
  model : string;
  cost : Cost.t;
  turns : Z;
}.
End WithRuntime.
End PerspectiveResult.

(** The fields of [evalConfig] that the stages read. *)
Module Config.
Record t := mk {
  mockApi : bool;
  serialFanOut : bool;
  dryRun : bool;
  summarize : bool;
  noSave : bool;
  perspectives : Z;
  agentModel : string;
  expandModel : string;
  driver : string;
  firstPromptName : string;
}.
End Config.

(** A block of [response.content]. *)
Inductive ContentBlock :=
| TextBlock (text : string)
| ThinkingBlock (thinking : string)
| ToolUseBlock (id name input : string).

Definition StopReason := string.

Module Response.
Record t := mk {
  content : list ContentBlock;
  usage : Usage.t;
  stop_reason : StopReason;
}.
End Response.

(** What one request to the messages API comes to: the stream's final
  message, or the reason the promise rejected with. *)
Inductive ApiOutcome :=
| ApiFails (reason : string)
| ApiAnswers (response : Response.t).

(** [Promise.allSettled] entries. *)
Inductive Settled (A : Type) :=
| Fulfilled (value : A)
| Rejected (reason : string).
Arguments Fulfilled {A} value.
Arguments Rejected {A} reason.

(** ** Pricing *)

Module Pricing.
Section WithRuntime.
Context `{JsRuntime}.

Record Rates := mkRates { input : num; output : num }.

Definition MODEL_PRICING (model : string) : option Rates :=
  if String.eqb model "claude-opus-4-6" then Some (mkRates (num_of_Z 5) (num_of_Z 25))
  else if String.eqb model "claude-sonnet-4-6" then Some (mkRates (num_of_Z 3) (num_of_Z 15))
  else if String.eqb model "claude-haiku-4-5" then Some (mkRates (num_of_Z 1) (num_of_Z 5))
  else None.

Definition estimateCost (model : string) (usage : Usage.t) : num :=
  let rates := default (mkRates (num_of_Z 3) (num_of_Z 15)) (MODEL_PRICING model) in
  let inputCost :=
    num_mul (num_div (num_of_Z (Usage.input_tokens usage)) (num_of_Z 1000000)) (input rates) in
  let outputCost :=
    num_mul (num_div (num_of_Z (Usage.output_tokens usage)) (num_of_Z 1000000)) (output rates) in
  num_add inputCost outputCost.
End WithRuntime.
End Pricing.

(** The text of a response: every non-empty text block, trimmed, the
  blank ones dropped. *)
Section TextParts.
Context `{JsRuntime}.

Definition blockText (b : ContentBlock) : option string :=
  match b with
  | TextBlock text => if truthy text then Some text else None
  | _ => None
  end.

Definition textParts (content : list ContentBlock) : list string :=
  filter (λ t, String.length t ≠ 0%nat) (trim <$> omap blockText content).

Definition responseText (content : list ContentBlock) : string :=
  match textParts content with
  | [] => "[NO RESPONSE]"
  | parts => join (nl +:+ nl) parts
  end.
End TextParts.

(** ** lib/mockApi.js *)

Module MockApi.
Section WithRuntime.
Context `{JsRuntime}.

(** [0.0001], [0.0002], ...: the literal is the double nearest to
    k/10000, which is what the correctly rounded division returns. *)
Definition tenThousandths (k : Z) : num := num_div (num_of_Z k) (num_of_Z 10000).

Definition mockFanOutAgent (instruction : Instruction.t) (config : Config.t)
  : PerspectiveResult.t :=
  PerspectiveResult.mk
    (Instruction.id instruction)
    (Instruction.perspective instruction)
    (Instruction.instruction instruction)
    ("[MOCK] Findings for perspective " +:+ pretty (Instruction.id instruction)
       +:+ ": " +:+ Instruction.perspective instruction +:+ "." +:+ nl
       +:+ "This is canned mock data for testing pipeline structure.")
    (Config.agentModel config)
    (Cost.mk 200 400 (tenThousandths 3))
    1.

(** [for (let i = 1; i <= N; i++)], counted down on the iterations left. *)
Fixpoint mockInstructions (originalPrompt : string) (i : Z) (left : nat)
  : list Instruction.t :=
  match left with
  | O => []
  | S left' =>
      Instruction.mk i
        ("Mock Perspective " +:+ pretty i)
        ("[MOCK] Research instruction " +:+ pretty i +:+ " for: "
           +:+ String (Ascii.ascii_of_nat 34) EmptyString
           +:+ slice0 60 originalPrompt +:+ "..."
           +:+ String (Ascii.ascii_of_nat 34) EmptyString)
        ("Mock methodology " +:+ pretty i)
      :: mockInstructions originalPrompt (i + 1) left'
  end.

Definition mockExpand (originalPrompt : string) (config : Config.t)
  : list Instruction.t * Cost.t :=
  (mockInstructions originalPrompt 1 (Z.to_nat (Config.perspectives config)),
   Cost.mk 150 300 (tenThousandths 2)).

Definition mockSingleCall (prompt systemPrompt : string) (config : Config.t)
  : string * Cost.t :=
  ("[MOCK] Response to: " +:+ String (Ascii.ascii_of_nat 34) EmptyString
     +:+ slice0 80 prompt +:+ "..." +:+ String (Ascii.ascii_of_nat 34) EmptyString
     +:+ nl +:+ "System prompt: " +:+ slice0 60 systemPrompt +:+ "..."
     +:+ nl +:+ "Model: " +:+ Config.agentModel config,
   Cost.mk 100 200 (tenThousandths 1)).
End WithRuntime.
End MockApi.

(** ** stages/fanOut-direct.mjs *)

Module FanOutDirect.
Section WithRuntime.
Context `{JsRuntime}.

(** [runOneAgent]: one request; [api] is what that request comes to. *)
Definition runOneAgent (instruction : Instruction.t) (config : Config.t)
    (api : ApiOutcome) : Settled PerspectiveResult.t :=
  if Config.mockApi config then
    Fulfilled (MockApi.mockFanOutAgent instruction config)
  else
    match api with
    | ApiFails reason => Rejected reason
    | ApiAnswers response =>
        let findings := responseText (Response.content response) in
        let cost :=
          Cost.mk (Usage.input_tokens (Response.usage response))
                  (Usage.output_tokens (Response.usage response))
                  (Pricing.estimateCost (Config.agentModel config) (Response.usage response)) in
        Fulfilled
          (PerspectiveResult.mk
             (Instruction.id instruction)
             (Instruction.perspective instruction)
             (Instruction.instruction instruction)
             findings
             (Config.agentModel config)
             cost
             1)
    end.

(** The entry pushed for [settled[idx]]; [instruction] is
    [instructions[idx]]. *)
Definition entryFor (config : Config.t)
    (outcome : Settled PerspectiveResult.t) (instruction : Instruction.t)
  : PerspectiveResult.t :=
  match outcome with
  | Fulfilled value => value
  | Rejected reason =>
      PerspectiveResult.mk
        (Instruction.id instruction)
        (Instruction.perspective instruction)
        (Instruction.instruction instruction)
        ("[AGENT FAILED: " +:+ reason +:+ "]")
        (Config.agentModel config)
        Cost.zero
        0
  end.

(** [fanOut]: [api idx] is what the request of participant [idx] comes
    to.  [settled] has one entry per instruction, so walking it with the
    index into [instructions] is walking both lists together. *)
Definition fanOut (instructions : list Instruction.t) (config : Config.t)
    (api : nat → ApiOutcome) : list PerspectiveResult.t :=
  let agentPromises :=
    imap (λ idx instruction, runOneAgent instruction config (api idx)) instructions in
  let settled := agentPromises in
  zip_with (entryFor config) settled instructions.
End WithRuntime.
End FanOutDirect.

(** *** When the requests of a fan-out run start and end

  [instructions.map(...)] runs every [runOneAgent] up to its first
  [await], which is the request itself, before [Promise.allSettled] is
  awaited.  Time is counted in ticks; [latency idx] is how long the
  request of participant [idx] takes. *)

Module Timeline.
Record Call := mk { participant : nat; issuedAt : nat; settledAt : nat }.

Definition duration (c : Call) : nat := (settledAt c - issuedAt c)%nat.

(** One at a time: a call is issued only once the one before it has
    settled. *)
Fixpoint oneAtATime (calls : list Call) : bool :=
  match calls with
  | c1 :: (c2 :: _) as rest => (settledAt c1 <=? issuedAt c2)%nat && oneAtATime rest
  | _ => true
  end.

Definition sumOfDurations (calls : list Call) : nat :=
  foldr (λ c acc, (duration c + acc)%nat) 0%nat calls.
End Timeline.

Module FanOutDirectTiming.
(** No request is made with [mockApi]: [runOneAgent] returns at once. *)
Definition fanOutCalls (instructions : list Instruction.t) (config : Config.t)
    (latency : nat → nat) (enteredAt : nat) : list Timeline.Call :=
  imap (λ idx _,
          if Config.mockApi config then Timeline.mk idx enteredAt enteredAt
          else Timeline.mk idx enteredAt (enteredAt + latency idx)%nat)
       instructions.

(** [await Promise.allSettled(agentPromises)] resumes when the last
    request has settled. *)
Definition fanOutReturnsAt (instructions : list Instruction.t) (config : Config.t)
    (latency : nat → nat) (enteredAt : nat) : nat :=
  foldr (λ c acc, Nat.max (Timeline.settledAt c) acc) enteredAt
        (fanOutCalls instructions config latency enteredAt).

Definition elapsed (instructions : list Instruction.t) (config : Config.t)
    (latency : nat → nat) (enteredAt : nat) : nat :=
  (fanOutReturnsAt instructions config latency enteredAt - enteredAt)%nat.
End FanOutDirectTiming.

(** ** Messages of the Agent SDK's [query] *)

Module ExpansionData.
(** The parsed payload; [instructions] may be missing. *)
Record t := mk { instructions : option (list Instruction.t) }.
End ExpansionData.

Module SdkMessage.
Section WithRuntime.
Context `{JsRuntime}.
Record t := mk {
  type : string;
  subtype : option string;
  result : option string;
  structured_output : option ExpansionData.t;
  usage : option Usage.t;
  total_cost_usd : option num;
  num_turns : option Z;
  errors : string;
}.

(** [(message.usage && message.usage.input_tokens) || 0] and its
    siblings. *)
Definition costOf (message : t) : Cost.t :=
  Cost.mk (default 0 (Usage.input_tokens <$> usage message))
          (default 0 (Usage.output_tokens <$> usage message))
          (default (num_of_Z 0) (total_cost_usd message)).
End WithRuntime.
End SdkMessage.

(** The async iterator returned by [query]: the messages it yields and,
  when it ends by throwing, the error. *)
Module SdkStream.
Section WithRuntime.
Context `{JsRuntime}.
Record t := mk { messages : list SdkMessage.t; failure : option string }.
End WithRuntime.
End SdkStream.

(** [x || fallback] on a possibly missing string. *)
Definition orElse (x : option string) (fallback : string) : string :=
match x with
| Some s => if truthy s then s else fallback
| None => fallback
end.

(** ** stages/fanOut.mjs (Agent SDK driver) *)

Module FanOutSdk.
Section WithRuntime.
Context `{JsRuntime}.

(** The three variables the loop assigns. *)
Record Acc := mkAcc { findings : string; cost : Cost.t; turns : Z }.

Definition onMessage (acc : Acc) (message : SdkMessage.t) : Acc :=
  if String.eqb (SdkMessage.type message) "result" then
    if bool_decide (SdkMessage.subtype message = Some "success") then
      mkAcc (default "" (SdkMessage.result message))
            (SdkMessage.costOf message)
            (default 0 (SdkMessage.num_turns message))
    else
      mkAcc (orElse (SdkMessage.result message)
               ("[AGENT ERROR: " +:+ default "undefined" (SdkMessage.subtype message) +:+ "]"))
            (SdkMessage.costOf message)
            (default 0 (SdkMessage.num_turns message))
  else acc.

Definition runOneAgent (instruction : Instruction.t) (config : Config.t)
    (stream : SdkStream.t) : Settled PerspectiveResult.t :=
  if Config.mockApi config then
    Fulfilled (MockApi.mockFanOutAgent instruction config)
  else
    let acc := foldl onMessage (mkAcc "" Cost.zero 0) (SdkStream.messages stream) in
    match SdkStream.failure stream with
    | Some reason => Rejected reason
    | None =>
        Fulfilled
          (PerspectiveResult.mk
             (Instruction.id instruction)
             (Instruction.perspective instruction)
             (Instruction.instruction instruction)
             (findings acc)
             (Config.agentModel config)
             (cost acc)
             (turns acc))
    end.

Definition entryFor (config : Config.t)
    (outcome : Settled PerspectiveResult.t) (instruction : Instruction.t)
  : PerspectiveResult.t :=
  match outcome with
  | Fulfilled value => value
  | Rejected reason =>
      PerspectiveResult.mk
        (Instruction.id instruction)
        (Instruction.perspective instruction)
        (Instruction.instruction instruction)
        ("[AGENT FAILED: " +:+ reason +:+ "]")
        (Config.agentModel config)
        Cost.zero
        0
  end.

Definition fanOut (instructions : list Instruction.t) (config : Config.t)
    (sdk : nat → SdkStream.t) : list PerspectiveResult.t :=
  let agentPromises :=
    imap (λ idx instruction, runOneAgent instruction config (sdk idx)) instructions in
  let settled := agentPromises in
  zip_with (entryFor config) settled instructions.
End WithRuntime.
End FanOutSdk.

(** ** Exceptions *)

Inductive Try (A : Type) :=
| Returns (value : A)
| Throws (message : string).
Arguments Returns {A} value.
Arguments Throws {A} message.

(** ** Persisted records *)

(** [{ switches, values, fileList }]: the parsed command line, also the
  shape of a submission's request body. *)
Module CommandLineParameters.
Record t := mk {
  switches : gmap string bool;
  values : gmap string (list string);
  fileList : list string;
}.

(** [(values[key] || [])[0]], when it is truthy. *)
Definition firstValue (key : string) (clp : t) : option string :=
  match values clp !! key with
  | Some (v :: _) => if truthy v then Some v else None
  | _ => None
  end.
End CommandLineParameters.

Module PerspectiveEntry.
Section WithRuntime.
Context `{JsRuntime}.
Record t := mk { id : Z; perspective : string; findings : string; cost : Cost.t }.
End WithRuntime.
End PerspectiveEntry.

Module Expansion.
Section WithRuntime.
Context `{JsRuntime}.
Record t := mk { instructions : list Instruction.t; cost : Cost.t }.
End WithRuntime.
End Expansion.

Module Synthesis.
Section WithRuntime.
Context `{JsRuntime}.
Record t := mk { text : string; cost : Cost.t }.
End WithRuntime.
End Synthesis.

Module Turn.
Section WithRuntime.
Context `{JsRuntime}.
Record t := mk {
  turnNumber : Z;
  turnType : option string;
  promptName : option string;
  prompt : string;
  response : option string;
  expansion : option Expansion.t;
  perspectives : option (list PerspectiveEntry.t);
  synthesis : option Synthesis.t;
  totalCost : option Cost.t;
  elapsedSeconds : num;
  timestamp : string;
}.
End WithRuntime.
End Turn.

(** A session's [totalCost] object: [createNewSession] stores a whole
  Cost, [appendTurnToSession] an object with [usd] alone. *)
Module SessionCost.
Section WithRuntime.
Context `{JsRuntime}.
Record t := mk { usd : num; inputTokens : option Z; outputTokens : option Z }.

Definition ofCost (c : Cost.t) : t :=
  mk (Cost.usd c) (Some (Cost.inputTokens c)) (Some (Cost.outputTokens c)).
End WithRuntime.
End SessionCost.

Module SavedSetup.
Record PromptConfig := mkPromptConfig {
  pc_firstPromptName : string; pc_perspectives : Z; pc_summarize : bool }.
Record SavedConfig := mkSavedConfig {
  sc_expandModel : string; sc_agentModel : string; sc_driver : string; sc_perspectives : Z }.
Record t := mk {
  promptConfig : PromptConfig;
  switches : gmap string bool;
  values : gmap string (list string);
  config : SavedConfig;
}.
End SavedSetup.

(** A parsed session file.  The gateway's crash record has [status],
  [error], [failedAt] and an empty [turns]; a saved session has the other
  fields.  A field the code guards with [||] or [?:] is optional. *)
Module Session.
Section WithRuntime.
Context `{JsRuntime}.
Record t := mk {
  sessionName : string;
  status : option string;
  error : option string;
  failedAt : option string;
  createdAt : option string;
  updatedAt : option string;
  setup : option SavedSetup.t;
  turns : option (list Turn.t);
  totalCost : option SessionCost.t;
}.
End WithRuntime.
End Session.

(** ** The sessions directory

  A file either parses to a session record or makes [JSON.parse] throw.
  [JSON.stringify] followed by [JSON.parse] gives the record back, so a
  written record is stored as such. *)

Inductive FileContent `{JsRuntime} :=
| Unparseable (raw : string)
| SessionJson (session : Session.t).

(** The directory: file path to content. *)
Abbreviation FileSystem := (gmap string FileContent).

Section Files.
Context `{JsRuntime}.

(** [path.join(os.homedir(), 'Library', 'Application Support', 'askMilo',
    'sessions')] *)
Definition SESSION_DIR : string :=
  pathJoin homedir "Library/Application Support/askMilo/sessions".

(** [path.join(SESSION_DIR, `${name}.json`)].  Two names can have one
    path; what is stated of a session's file is stated of the file at
    this path. *)
Definition sessionFilePath (name : string) : string :=
  pathJoin SESSION_DIR (name +:+ ".json").

Definition existsSync (fs : FileSystem) (filePath : string) : bool :=
  bool_decide (is_Some (fs !! filePath)).

Definition writeFileSync (fs : FileSystem) (filePath : string) (data : FileContent)
  : FileSystem := <[filePath := data]> fs.
End Files.

Arguments sessionFilePath {_} name : simpl never.

(** The clock and the random draws of one call. *)
Module Env.
Record t := mk {
  nowIso : string;              (* new Date().toISOString() *)
  nowMs : Z;                    (* Date.now() *)
  draw : nat → nat * nat;       (* the indices drawn at each attempt *)
}.
End Env.

(** ** lib/sessionManager.js *)

Module SessionManager.
Section WithRuntime.
Context `{JsRuntime}.

Definition ADJECTIVES : list string := [
  "amber"; "azure"; "bright"; "calm"; "coral"; "crystal"; "dawn"; "deep";
  "ember"; "fern"; "frost"; "gentle"; "golden"; "grand"; "green"; "harbor";
  "iron"; "ivory"; "jade"; "keen"; "lush"; "maple"; "misty"; "noble";
  "opal"; "pale"; "pearl"; "quiet"; "rapid"; "rose"; "ruby"; "sage";
  "scarlet"; "shadow"; "silver"; "slate"; "soft"; "stark"; "steel"; "stone";
  "swift"; "tidal"; "twilight"; "vast"; "velvet"; "violet"; "warm"; "wild";
  "winter"; "woven" ].

Definition NOUNS : list string := [
  "arch"; "basin"; "beacon"; "brook"; "canyon"; "cedar"; "cliff"; "crest";
  "delta"; "drift"; "dune"; "falcon"; "field"; "flame"; "forge"; "gate";
  "glade"; "grove"; "harbor"; "heath"; "hollow"; "isle"; "lake"; "ledge";
  "marsh"; "meadow"; "mesa"; "mist"; "moss"; "oak"; "pass"; "peak";
  "pine"; "plain"; "pond"; "prairie"; "range"; "reef"; "ridge"; "river";
  "shore"; "spring"; "stone"; "summit"; "tide"; "tower"; "trail"; "vale";
  "valley"; "vista" ].

Definition pairName (d : nat * nat) : string :=
  default "undefined" (ADJECTIVES !! d.1) +:+ "_" +:+ default "undefined" (NOUNS !! d.2).

(** The [for] loop of [generateSessionName]; a name is taken when its
    file is in the directory. *)
Fixpoint tryNames (fs : FileSystem) (env : Env.t) (attempt : nat) (left : nat)
  : option string :=
  match left with
  | O => None
  | S left' =>
      let name := pairName (Env.draw env attempt) in
      if existsSync fs (sessionFilePath name) then tryNames fs env (S attempt) left'
      else Some name
  end.

Definition generateSessionName (fs : FileSystem) (env : Env.t) : string :=
  match tryNames fs env 0 100 with
  | Some name => name
  | None => pairName (Env.draw env 100%nat) +:+ "_" +:+ pretty (Env.nowMs env)
  end.

Definition saveSession (fs : FileSystem) (env : Env.t) (session : Session.t)
  : FileSystem :=
  let session' :=
    Session.mk (Session.sessionName session) (Session.status session)
      (Session.error session) (Session.failedAt session) (Session.createdAt session)
      (Some (Env.nowIso env)) (Session.setup session) (Session.turns session)
      (Session.totalCost session) in
  writeFileSync fs (sessionFilePath (Session.sessionName session)) (SessionJson session').

Definition loadSession (fs : FileSystem) (name : string) : Try Session.t :=
  match fs !! sessionFilePath name with
  | None => Throws "Session not found"
  | Some (Unparseable _) => Throws "SyntaxError"
  | Some (SessionJson session) => Returns session
  end.

(** [results.reduce((s, r) => s + r.cost.usd, 0)] and its siblings. *)
Definition sumUsd (results : list PerspectiveResult.t) : num :=
  foldl (λ s r, num_add s (Cost.usd (PerspectiveResult.cost r))) (num_of_Z 0) results.
Definition sumInputTokens (results : list PerspectiveResult.t) : Z :=
  foldl (λ s r, s + Cost.inputTokens (PerspectiveResult.cost r)) 0 results.
Definition sumOutputTokens (results : list PerspectiveResult.t) : Z :=
  foldl (λ s r, s + Cost.outputTokens (PerspectiveResult.cost r)) 0 results.

Definition buildTurnFromResults (originalPrompt : string)
    (instructions : option (list Instruction.t))
    (results : option (list PerspectiveResult.t))
    (expandCost : option Cost.t) (synthesis : option string)
    (synthesisCost : option Cost.t) (elapsedSeconds : num) (turnNumber : Z)
    (env : Env.t) : Turn.t :=
  Turn.mk turnNumber None None originalPrompt None
    (Some (Expansion.mk
             ((λ i, Instruction.mk (Instruction.id i) (Instruction.perspective i)
                      (Instruction.instruction i) (Instruction.methodology i))
                <$> default [] instructions)
             (default Cost.zero expandCost)))
    (Some ((λ r, PerspectiveEntry.mk (PerspectiveResult.id r)
                   (PerspectiveResult.perspective r) (PerspectiveResult.findings r)
                   (PerspectiveResult.cost r))
             <$> default [] results))
    (match synthesis with
     | Some text =>
         if truthy text then Some (Synthesis.mk text (default Cost.zero synthesisCost))
         else None
     | None => None
     end)
    (Some (Cost.mk
             (default 0 (Cost.inputTokens <$> expandCost)
                + default 0 (sumInputTokens <$> results)
                + default 0 (Cost.inputTokens <$> synthesisCost))
             (default 0 (Cost.outputTokens <$> expandCost)
                + default 0 (sumOutputTokens <$> results)
                + default 0 (Cost.outputTokens <$> synthesisCost))
             (num_add
                (num_add (default (num_of_Z 0) (Cost.usd <$> expandCost))
                         (default (num_of_Z 0) (sumUsd <$> results)))
                (default (num_of_Z 0) (Cost.usd <$> synthesisCost)))))
    elapsedSeconds
    (Env.nowIso env).

Definition createNewSession (sessionName : string)
    (commandLineParameters : CommandLineParameters.t) (config : Config.t)
    (turn : Turn.t) (env : Env.t) : Session.t :=
  Session.mk sessionName None None None
    (Some (Env.nowIso env)) (Some (Env.nowIso env))
    (Some (SavedSetup.mk
             (SavedSetup.mkPromptConfig (Config.firstPromptName config)
                (Config.perspectives config) (Config.summarize config))
             (CommandLineParameters.switches commandLineParameters)
             (CommandLineParameters.values commandLineParameters)
             (SavedSetup.mkSavedConfig (Config.expandModel config)
                (Config.agentModel config) (Config.driver config)
                (Config.perspectives config))))
    (Some [turn])
    (SessionCost.ofCost <$> Turn.totalCost turn).

(** [session.turns.reduce((s, t) => s + (t.totalCost ? t.totalCost.usd : 0), 0)] *)
Definition sumTurnsUsd (turns : list Turn.t) : num :=
  foldl (λ s t, num_add s (default (num_of_Z 0) (Cost.usd <$> Turn.totalCost t)))
        (num_of_Z 0) turns.

(** [session.turns.push(turn)] throws when the record has no [turns]. *)
Definition appendTurnToSession (session : Session.t) (turn : Turn.t) : Try Session.t :=
  match Session.turns session with
  | None => Throws "TypeError"
  | Some turns =>
      let turns' := (turns ++ [turn])%list in
      Returns
        (Session.mk (Session.sessionName session) (Session.status session)
           (Session.error session) (Session.failedAt session)
           (Session.createdAt session) (Session.updatedAt session)
           (Session.setup session)
           (Some turns')
           (Some (SessionCost.mk (sumTurnsUsd turns') None None)))
  end.
(** [Session not found: "name". Use -listSessions to see available sessions.] *)
Definition notFoundMessage (name : string) : string :=
  "Session not found: " +:+ String (Ascii.ascii_of_nat 34) EmptyString +:+ name
    +:+ String (Ascii.ascii_of_nat 34) EmptyString
    +:+ ". Use -listSessions to see available sessions.".

(** [fs.unlinkSync] *)
Definition unlinkSync (fs : FileSystem) (filePath : string) : FileSystem :=
  delete filePath fs.

(** [deleteSession]: the directory it leaves; it throws before touching
    anything. *)
Definition deleteSession (fs : FileSystem) (name : string) : Try FileSystem :=
  let filePath := sessionFilePath name in
  if negb (existsSync fs filePath) then Throws (notFoundMessage name)
  else Returns (unlinkSync fs filePath).

(** [renameSession]: every [throw] comes before the first write. *)
Definition renameSession (fs : FileSystem) (env : Env.t) (oldName newName : string)
  : Try FileSystem :=
  let oldPath := sessionFilePath oldName in
  let newPath := sessionFilePath newName in
  if negb (existsSync fs oldPath) then Throws (notFoundMessage oldName)
  else if existsSync fs newPath then
    Throws ("A session named " +:+ String (Ascii.ascii_of_nat 34) EmptyString +:+ newName
              +:+ String (Ascii.ascii_of_nat 34) EmptyString +:+ " already exists.")
  else
    match fs !! oldPath with
    | Some (SessionJson data) =>
        let data' :=
          Session.mk newName (Session.status data) (Session.error data)
            (Session.failedAt data) (Session.createdAt data) (Some (Env.nowIso env))
            (Session.setup data) (Session.turns data) (Session.totalCost data) in
        Returns (unlinkSync (writeFileSync fs newPath (SessionJson data')) oldPath)
    | _ => Throws "SyntaxError"
    end.

(** The lines [buildSessionContext] pushes for one turn. *)
Definition turnLines (turn : Turn.t) : list string :=
  let isInterrogation := bool_decide (Turn.turnType turn = Some "interrogation") in
  let isSingleCall := bool_decide (Turn.turnType turn = Some "singleCall") in
  ([ "--- Turn " +:+ pretty (Turn.turnNumber turn) +:+ " ---";
     "PROMPT: " +:+ Turn.prompt turn;
     "" ]
   ++ (if isInterrogation || isSingleCall then
         let label :=
           match Turn.promptName turn with
           | Some promptName =>
               if isSingleCall && truthy promptName then "RESPONSE (" +:+ promptName +:+ ")"
               else if isInterrogation then "INTERROGATION RESPONSE"
               else "RESPONSE"
           | None => if isInterrogation then "INTERROGATION RESPONSE" else "RESPONSE"
           end in
         [ label +:+ ": " +:+ default "undefined" (Turn.response turn); "" ]
       else
         (match Turn.perspectives turn with
          | Some (p :: ps) =>
              ["PERSPECTIVES:"]
              ++ imap (λ idx p, pretty (Z.of_nat idx + 1) +:+ ". ["
                                  +:+ PerspectiveEntry.perspective p +:+ "]: "
                                  +:+ PerspectiveEntry.findings p) (p :: ps)
              ++ [""]
          | _ => []
          end)
         ++ (match Turn.synthesis turn with
             | Some synthesis =>
                 if truthy (Synthesis.text synthesis)
                 then [ "SYNTHESIS: " +:+ Synthesis.text synthesis; "" ]
                 else []
             | None => []
             end)))%list.

(** The array [lines] of [buildSessionContext]. *)
Definition contextLines (session : Session.t) : list string :=
  ([ "=== PRIOR RESEARCH SESSION: " +:+ Session.sessionName session +:+ " ===";
     "" ]
   ++ concat (turnLines <$> default [] (Session.turns session)))%list.

(** [buildSessionContext]: [lines.join('\n')]. *)
Definition buildSessionContext (session : Session.t) : string :=
  join nl (contextLines session).

End WithRuntime.
End SessionManager.

(** ** askMilo.js: the session commands, the resume block and the session save

  The stages themselves are run by [pipeRunner]; what they add to the
  pipeline's [args], or the error that stopped them, is an argument. *)

Module AskMilo.
Section WithRuntime.
Context `{JsRuntime}.

(** [elapsedSeconds] is the value the save ends up with:
    [result.elapsedSeconds], or the clock difference when that is 0. *)
Record StageOutputs := mkOutputs {
  responseText : option string;
  singleCallCost : option Cost.t;
  instructions : option (list Instruction.t);
  results : option (list PerspectiveResult.t);
  expandCost : option Cost.t;
  synthesis : option string;
  synthesisCost : option Cost.t;
  elapsedSeconds : num;
}.

(** [--resumeSession=NAME]: the loaded session, or none and the name
    moved to [values.sessionName] when it cannot be loaded.  What the
    source checks after the load, the prompt and [-restoreSwitches], is in
    [main] below. *)
Definition resolveResume (fs : FileSystem)
    (commandLineParameters : CommandLineParameters.t)
  : option Session.t * CommandLineParameters.t :=
  match CommandLineParameters.firstValue "resumeSession" commandLineParameters with
  | Some resumeSessionName =>
      match SessionManager.loadSession fs resumeSessionName with
      | Returns session => (Some session, commandLineParameters)
      | Throws _ =>
          (None,
           CommandLineParameters.mk
             (CommandLineParameters.switches commandLineParameters)
             (<["sessionName" := [resumeSessionName]]>
                (CommandLineParameters.values commandLineParameters))
             (CommandLineParameters.fileList commandLineParameters))
      end
  | None => (None, commandLineParameters)
  end.

(** [result.session ? result.session.turns.length + 1 : 1] *)
Definition nextTurnNumber (session : option Session.t) : Try Z :=
  match session with
  | None => Returns 1
  | Some s =>
      match Session.turns s with
      | Some turns => Returns (Z.of_nat (length turns) + 1)
      | None => Throws "TypeError"
      end
  end.

Definition thisTurn (config : Config.t) (originalPrompt : string)
    (out : StageOutputs) (turnNumber : Z) (env : Env.t) : Turn.t :=
  if Config.perspectives config =? 0 then
    Turn.mk turnNumber (Some "singleCall") (Some (Config.firstPromptName config))
      originalPrompt (responseText out) None None None (singleCallCost out)
      (elapsedSeconds out) (Env.nowIso env)
  else
    SessionManager.buildTurnFromResults originalPrompt (instructions out) (results out)
      (expandCost out) (synthesis out) (synthesisCost out) (elapsedSeconds out)
      turnNumber env.

(** The body of the [try] in the session save. *)
Definition sessionToSave (fs : FileSystem)
    (commandLineParameters : CommandLineParameters.t) (config : Config.t)
    (originalPrompt : string) (session : option Session.t) (out : StageOutputs)
    (env : Env.t) : Try Session.t :=
  match nextTurnNumber session with
  | Throws e => Throws e
  | Returns turnNumber =>
      let turn := thisTurn config originalPrompt out turnNumber env in
      match session with
      | Some s => SessionManager.appendTurnToSession s turn
      | None =>
          let sessionName :=
            default (SessionManager.generateSessionName fs env)
              (CommandLineParameters.firstValue "sessionName" commandLineParameters) in
          Returns (SessionManager.createNewSession sessionName commandLineParameters
                     config turn env)
      end
  end.

(** [if (!result.config.noSave) { try { ... saveSession(session) } catch { warn } }] *)
Definition sessionSave (fs : FileSystem)
    (commandLineParameters : CommandLineParameters.t) (config : Config.t)
    (originalPrompt : string) (session : option Session.t) (out : StageOutputs)
    (env : Env.t) : FileSystem :=
  if Config.noSave config then fs
  else
    match sessionToSave fs commandLineParameters config originalPrompt session out env with
    | Returns s => SessionManager.saveSession fs env s
    | Throws _ => fs
    end.

(** One run from the resume block on: the files it leaves and its exit
    code.  A pipeline error ends the process with code 1 before the
    save. *)
Definition run (fs : FileSystem) (commandLineParameters : CommandLineParameters.t)
    (config : Config.t) (originalPrompt : string) (pipeline : Try StageOutputs)
    (env : Env.t) : FileSystem * Z :=
  let '(resumeSession, commandLineParameters') := resolveResume fs commandLineParameters in
  match pipeline with
  | Throws _ => (fs, 1)
  | Returns out =>
      (sessionSave fs commandLineParameters' config originalPrompt resumeSession out env, 0)
  end.

(** *** The whole of [moduleFunction]

    [run] is the part of a run that starts at the pipeline.  Before it
    come the commands that end the process early, in the order of the
    source: [-help], [-listSessions], [--viewSession], [--deleteSession],
    [--renameSession]; logging under [-verbose] is left out. *)

Definition switchSet (key : string) (commandLineParameters : CommandLineParameters.t)
  : bool :=
  default false (CommandLineParameters.switches commandLineParameters !! key).

Inductive Command :=
| Help
| ListSessions
| ViewSession (name : string)
| DeleteSession (name : string)
| RenameSession (oldName : string)
| Ask.

Definition command (commandLineParameters : CommandLineParameters.t) : Command :=
  if switchSet "help" commandLineParameters then Help
  else if switchSet "listSessions" commandLineParameters then ListSessions
  else
    match CommandLineParameters.firstValue "viewSession" commandLineParameters with
    | Some name => ViewSession name
    | None =>
        match CommandLineParameters.firstValue "deleteSession" commandLineParameters with
        | Some name => DeleteSession name
        | None =>
            match CommandLineParameters.firstValue "renameSession" commandLineParameters with
            | Some oldName => RenameSession oldName
            | None => Ask
            end
        end
    end.

(** [evalConfig.restoreSwitches && resumeSession.commandLineParameters]
    reads a property of [null] when the session named by [--resumeSession]
    could not be loaded: with [-restoreSwitches] the process then dies of
    a [TypeError]. *)
Definition restoreThrows (fs : FileSystem)
    (commandLineParameters : CommandLineParameters.t) : bool :=
  match CommandLineParameters.firstValue "resumeSession" commandLineParameters with
  | Some resumeSessionName =>
      match SessionManager.loadSession fs resumeSessionName with
      | Returns _ => false
      | Throws _ => switchSet "restoreSwitches" commandLineParameters
      end
  | None => false
  end.

(** One askMilo process: the files it leaves and its exit code.
    [apiKeySet] says whether the [.ini] file holds an API key;
    [evalConfig] is what [buildConfig] returned, with what the restore
    block put in, or the error it threw; [originalPrompt] is
    [evalConfig.prompt].  A [return] ends the process with code 0, an
    exception nobody catches with code 1. *)
Definition main (fs : FileSystem) (commandLineParameters : CommandLineParameters.t)
    (apiKeySet : bool) (evalConfig : Try Config.t) (originalPrompt : string)
    (pipeline : Try StageOutputs) (env : Env.t) : FileSystem * Z :=
  match command commandLineParameters with
  | Help | ListSessions | ViewSession _ => (fs, 0)
  | DeleteSession name =>
      match SessionManager.deleteSession fs name with
      | Returns fs' => (fs', 0)
      | Throws _ => (fs, 0)
      end
  | RenameSession oldName =>
      match CommandLineParameters.firstValue "sessionName" commandLineParameters with
      | None => (fs, 0)
      | Some newName =>
          match SessionManager.renameSession fs env oldName newName with
          | Returns fs' => (fs', 0)
          | Throws _ => (fs, 0)
          end
      end
  | Ask =>
      if negb apiKeySet then (fs, 0)
      else
        match evalConfig with
        | Throws _ => (fs, 1)
        | Returns config =>
            if negb (truthy originalPrompt) then (fs, 0)
            else if restoreThrows fs commandLineParameters then (fs, 1)
            else run fs commandLineParameters config originalPrompt pipeline env
        end
  end.
End WithRuntime.
End AskMilo.

(** ** accessPoints.d/chorus-study-status.js *)

Module ChorusStudyStatus.
Section WithRuntime.
Context `{JsRuntime}.

(** The query as the endpoint hands it over; [turnNumber] is what
    [parseInt] made of the parameter. *)
Record Request := mkRequest { rq_sessionName : string; rq_turnNumber : option Z }.

Inductive StatusResult :=
| Running (sessionName : string) (expectedTurn : Z) (completedTurns : nat)
| Error (sessionName : string) (message : string)
| Complete (sessionName : string) (turnNumber : Z) (result : option Turn.t).

(** Stage 1: validate input. *)
Definition validate (requestBody : Request) : Try (string * Z) :=
  if negb (truthy (rq_sessionName requestBody)) then
    Throws "Missing required parameter: sessionName"
  else
    match rq_turnNumber requestBody with
    | None => Throws "Missing or invalid parameter: turnNumber (must be >= 1)"
    | Some turnNumber =>
        if (turnNumber =? 0) || (turnNumber <? 1) then
          Throws "Missing or invalid parameter: turnNumber (must be >= 1)"
        else Returns (rq_sessionName requestBody, turnNumber)
    end.

(** Stage 2: check the session file and build the status.  The file
    system is threaded through to show that it comes back as it went
    in. *)
Definition checkSessionFile (fs : FileSystem) (sessionName : string) (turnNumber : Z)
  : StatusResult * FileSystem :=
  let sessionFilePath := sessionFilePath sessionName in
  if negb (existsSync fs sessionFilePath) then
    (Running sessionName turnNumber 0, fs)
  else
    match fs !! sessionFilePath with
    | None | Some (Unparseable _) => (Error sessionName "corrupt session file", fs)
    | Some (SessionJson sessionData) =>
        if bool_decide (Session.status sessionData = Some "error") then
          (Error sessionName (orElse (Session.error sessionData) "unknown error"), fs)
        else
          let turns := default [] (Session.turns sessionData) in
          if Z.of_nat (length turns) >=? turnNumber then
            (Complete sessionName turnNumber (turns !! Z.to_nat (turnNumber - 1)), fs)
          else
            (Running sessionName turnNumber (length turns), fs)
    end.

Definition serviceFunction (requestBody : Request) (fs : FileSystem)
  : Try StatusResult * FileSystem :=
  match validate requestBody with
  | Throws err => (Throws err, fs)
  | Returns (sessionName, turnNumber) =>
      let '(statusResult, fs') := checkSessionFile fs sessionName turnNumber in
      (Returns statusResult, fs')
  end.
End WithRuntime.
End ChorusStudyStatus.

(** ** accessPoints.d/submit-chorus-study.js *)

Module SubmitChorusStudy.
Section WithRuntime.
Context `{JsRuntime}.

(** A spawned askMilo process whose [close] and [error] handlers have
    not run yet, with what those handlers close over.  A child leaves the
    list with the first of its two events, and a later event for the same
    [pid] finds nothing to do.  The [close] that Node emits after the
    [error] of a spawn that failed, and the crash record that [close]
    writes, are therefore not part of the model. *)
Record Child := mkChild {
  pid : nat;
  sessionName : string;
  askMiloInput : CommandLineParameters.t;
  stderrBuffer : string;
}.

(** The gateway process: the sessions directory it shares with its
    children, the module-level set, and the children it waits for. *)
Record State := mkState {
  files : FileSystem;
  inFlightSessions : gset string;
  children : list Child;
  spawned : nat;
}.

Record SubmissionAck := mkAck {
  status : string;
  ack_sessionName : string;
  turnNumber : Z;
  checkUrl : string;
  estimatedSeconds : Z;
  pollAdvice : string;
}.

(** Stage 1: validate input and determine session and turn. *)
Definition determineSessionAndTurn (requestBody : CommandLineParameters.t)
    (fs : FileSystem) (env : Env.t) : Try (string * Z) :=
  match CommandLineParameters.fileList requestBody with
  | [] => Throws "Missing prompt: fileList must contain at least one element"
  | _ =>
      match CommandLineParameters.firstValue "sessionName" requestBody with
      | Some providedSessionName =>
          if existsSync fs (sessionFilePath providedSessionName) then
            match SessionManager.loadSession fs providedSessionName with
            | Returns existing =>
                Returns (providedSessionName,
                         Z.of_nat (length (default [] (Session.turns existing))) + 1)
            | Throws _ => Returns (providedSessionName, 1)
            end
          else Returns (providedSessionName, 1)
      | None => Returns (SessionManager.generateSessionName fs env, 1)
      end
  end.

Definition quote : string := String (Ascii.ascii_of_nat 34) EmptyString.

(** Stage 2: check in-flight protection. *)
Definition checkInFlight (name : string) (st : State) : Try State :=
  if bool_decide (name ∈ inFlightSessions st) then
    Throws ("Session " +:+ quote +:+ name +:+ quote +:+ " already has a turn in progress")
  else
    Returns (mkState (files st) ({[name]} ∪ inFlightSessions st) (children st) (spawned st)).

(** [parseInt(requestBody.qtGetSurePath('values.perspectives', ['3'])[0]) || 3];
    an empty array has no first element and [parseInt(undefined)] is
    [NaN]. *)
Definition perspectivesOf (requestBody : CommandLineParameters.t) : Z :=
  let parsed :=
    match CommandLineParameters.values requestBody !! "perspectives" with
    | Some (v :: _) => parseInt v
    | Some [] => None
    | None => parseInt "3"
    end in
  match parsed with
  | Some n => if n =? 0 then 3 else n
  | None => 3
  end.

(** Stage 3: spawn askMilo detached and answer at once. *)
Definition spawnAskMilo (requestBody : CommandLineParameters.t) (name : string)
    (turn : Z) (st : State) : SubmissionAck * State :=
  let askMiloInput :=
    CommandLineParameters.mk
      (<["json" := true]> (CommandLineParameters.switches requestBody))
      (<["sessionName" := [name]]> (CommandLineParameters.values requestBody))
      (CommandLineParameters.fileList requestBody) in
  let child := mkChild (spawned st) name askMiloInput "" in
  let perspectives := perspectivesOf requestBody in
  (mkAck "accepted" name turn
     ("/api/chorusStudyStatus?sessionName=" +:+ encodeURIComponent name
        +:+ "&turnNumber=" +:+ pretty turn)
     (perspectives * 120)
     "Wait 5 minutes before first check, then every 60 seconds.",
   mkState (files st) (inFlightSessions st) (children st ++ [child])%list
     (S (spawned st))).

(** The three stages under [pipeRunner]: the first error ends the run. *)
Definition serviceFunction (requestBody : CommandLineParameters.t) (env : Env.t)
    (st : State) : Try SubmissionAck * State :=
  match determineSessionAndTurn requestBody (files st) env with
  | Throws err => (Throws err, st)
  | Returns (name, turn) =>
      match checkInFlight name st with
      | Throws err => (Throws err, st)
      | Returns st' =>
          let '(submitResult, st'') := spawnAskMilo requestBody name turn st' in
          (Returns submitResult, st'')
      end
  end.

Definition findChild (p : nat) (st : State) : option Child :=
  list_find (λ c, pid c = p) (children st) ≫= λ ic, Some ic.2.

Definition withoutChild (p : nat) (cs : list Child) : list Child :=
  filter (λ c, pid c ≠ p) cs.

(** [child.stderr.on('data', ...)] *)
Definition onStderrData (p : nat) (chunk : string) (st : State) : State :=
  mkState (files st) (inFlightSessions st)
    ((λ c, if bool_decide (pid c = p)
           then mkChild (pid c) (sessionName c) (askMiloInput c) (stderrBuffer c +:+ chunk)
           else c) <$> children st)
    (spawned st).

(** `${code}`: [null] when a signal ended the process. *)
Definition showCode (code : option Z) : string :=
  match code with Some n => pretty n | None => "null" end.

Definition errorSession (c : Child) (code : option Z) (env : Env.t) : Session.t :=
  Session.mk (sessionName c) (Some "error")
    (Some ("askMilo exited with code " +:+ showCode code +:+ ": "
             +:+ slice0 2000 (stderrBuffer c)))
    (Some (Env.nowIso env)) None None None (Some []) None.

(** [child.on('close', (code) => ...)] *)
Definition onClose (p : nat) (code : option Z) (env : Env.t) (st : State) : State :=
  match findChild p st with
  | None => st
  | Some c =>
      let inFlight' := inFlightSessions st ∖ {[sessionName c]} in
      let files' :=
        if bool_decide (code = Some 0) then files st
        else writeFileSync (files st) (sessionFilePath (sessionName c))
               (SessionJson (errorSession c code env)) in
      mkState files' inFlight' (withoutChild p (children st)) (spawned st)
  end.

(** [child.on('error', (spawnErr) => ...)] *)
Definition onError (p : nat) (st : State) : State :=
  match findChild p st with
  | None => st
  | Some c =>
      mkState (files st) (inFlightSessions st ∖ {[sessionName c]})
        (withoutChild p (children st)) (spawned st)
  end.

(** What the child process itself does to the sessions directory: one
    askMilo run on the input it was sent, taken from the point where it
    reaches the pipeline ([AskMilo.run]). *)
Definition onChildRun (p : nat) (config : Config.t) (pipeline : Try AskMilo.StageOutputs)
    (env : Env.t) (st : State) : State :=
  match findChild p st with
  | None => st
  | Some c =>
      let input := askMiloInput c in
      let originalPrompt := join " " (CommandLineParameters.fileList input) in
      mkState (AskMilo.run (files st) input config originalPrompt pipeline env).1
        (inFlightSessions st) (children st) (spawned st)
  end.

(** What can happen to a gateway process. *)
Inductive Event :=
| Submit (requestBody : CommandLineParameters.t) (env : Env.t)
| StderrData (p : nat) (chunk : string)
| ChildRun (p : nat) (config : Config.t) (pipeline : Try AskMilo.StageOutputs) (env : Env.t)
| Close (p : nat) (code : option Z) (env : Env.t)
| SpawnError (p : nat).

Definition step (st : State) (ev : Event) : State :=
  match ev with
  | Submit requestBody env => (serviceFunction requestBody env st).2
  | StderrData p chunk => onStderrData p chunk st
  | ChildRun p config pipeline env => onChildRun p config pipeline env st
  | Close p code env => onClose p code env st
  | SpawnError p => onError p st
  end.

Definition runEvents (st : State) (evs : list Event) : State := foldl step st evs.

(** A gateway process starts with an empty set and no children. *)
Definition initial (fs : FileSystem) : State := mkState fs ∅ [] 0.
End WithRuntime.
End SubmitChorusStudy.

(** ** stages/expand.mjs (Agent SDK driver) *)

Module ExpandSdk.
Section WithRuntime.
Context `{JsRuntime}.

(** [instructions] and [expandCost], the two variables of the loop. *)
Definition Acc : Type := list Instruction.t * Cost.t.

(** [message.structured_output || JSON.parse(message.result)].
    [jsonParse] is [JSON.parse] on the result text, [None] when it
    throws. *)
Definition payload (jsonParse : string → option ExpansionData.t)
    (message : SdkMessage.t) : option ExpansionData.t :=
  match SdkMessage.structured_output message with
  | Some d => Some d
  | None => SdkMessage.result message ≫= jsonParse
  end.

(** The loop body. *)
Definition onMessage (jsonParse : string → option ExpansionData.t)
    (acc : Acc) (message : SdkMessage.t) : Try Acc :=
  if String.eqb (SdkMessage.type message) "result" then
    if bool_decide (SdkMessage.subtype message = Some "success") then
      match payload jsonParse message with
      | None => Throws "SyntaxError"
      | Some d =>
          Returns (default [] (ExpansionData.instructions d), SdkMessage.costOf message)
      end
    else
      Throws ("Expansion failed: " +:+ default "undefined" (SdkMessage.subtype message)
                +:+ " - " +:+ SdkMessage.errors message)
  else Returns acc.

Fixpoint consume (jsonParse : string → option ExpansionData.t)
    (acc : Acc) (messages : list SdkMessage.t) : Try Acc :=
  match messages with
  | [] => Returns acc
  | message :: rest =>
      match onMessage jsonParse acc message with
      | Throws e => Throws e
      | Returns acc' => consume jsonParse acc' rest
      end
  end.

(** [expand].  [query k] is the stream the [k]-th call of the SDK's
    [query] returns; [calls] counts the calls made so far and comes back
    updated. *)
Definition expand (originalPrompt : string) (config : Config.t)
    (jsonParse : string → option ExpansionData.t)
    (query : nat → SdkStream.t) (calls : nat)
  : Try (list Instruction.t * Cost.t) * nat :=
  if Config.mockApi config then
    (Returns (MockApi.mockExpand originalPrompt config), calls)
  else
    let stream := query calls in
    let outcome :=
      match consume jsonParse ([], Cost.zero) (SdkStream.messages stream) with
      | Throws e => Throws e
      | Returns (instructions, expandCost) =>
          match SdkStream.failure stream with
          | Some reason => Throws reason
          | None =>
              match instructions with
              | [] => Throws "Expansion returned zero instructions"
              | _ => Returns (instructions, expandCost)
              end
          end
      end in
    (outcome, S calls).
End WithRuntime.
End ExpandSdk.

(** ** stages/expand-direct.mjs *)

Module ExpandDirect.
Section WithRuntime.
Context `{JsRuntime}.

Definition dropIfPrefix (p s : string) : string :=
  if String.prefix p s
  then String.substring (String.length p) (String.length s - String.length p) s
  else s.

Definition endsWith (p s : string) : bool :=
  (String.length p <=? String.length s)%nat
  && String.eqb (String.substring (String.length s - String.length p) (String.length p) s) p.

Definition dropIfSuffix (p s : string) : string :=
  if endsWith p s then String.substring 0 (String.length s - String.length p) s else s.

(** [.replace(/^```(?:json)?\n?/, '').replace(/\n?```$/, '')] on a text
    that starts with the fence. *)
Definition stripFence (jsonText : string) : string :=
  let opened := dropIfPrefix nl (dropIfPrefix "json" (dropIfPrefix "```" jsonText)) in
  if endsWith "```" opened then dropIfSuffix nl (dropIfSuffix "```" opened) else opened.

(** [textParts.find(t => t.startsWith('{')) || textParts[textParts.length - 1]] *)
Definition pickJsonText (parts : list string) : option string :=
  match list_find (λ t, String.prefix "{" t = true) parts with
  | Some (_, t) => Some t
  | None => last parts
  end.

Definition expand (originalPrompt : string) (config : Config.t)
    (jsonParse : string → option ExpansionData.t)
    (api : nat → ApiOutcome) (calls : nat)
  : Try (list Instruction.t * Cost.t) * nat :=
  if Config.mockApi config then
    (Returns (MockApi.mockExpand originalPrompt config), calls)
  else
    let outcome :=
      match api calls with
      | ApiFails reason => Throws reason
      | ApiAnswers response =>
          match pickJsonText (textParts (Response.content response)) with
          | None => Throws "Expansion returned no text content"
          | Some jsonText =>
              let jsonText :=
                if String.prefix "```" jsonText then stripFence jsonText else jsonText in
              match jsonParse jsonText with
              | None => Throws "Expansion JSON parse failed"
              | Some data =>
                  match default [] (ExpansionData.instructions data) with
                  | [] => Throws "Expansion returned zero instructions"
                  | instructions =>
                      Returns
                        (instructions,
                         Cost.mk (Usage.input_tokens (Response.usage response))
                           (Usage.output_tokens (Response.usage response))
                           (Pricing.estimateCost (Config.expandModel config)
                              (Response.usage response)))
                  end
              end
          end
      end in
    (outcome, S calls).
End WithRuntime.
End ExpandDirect.

(** ** stages/single-call-tools-direct.mjs *)

Module SingleCallTools.
Section WithRuntime.
Context `{JsRuntime}.

Definition accumulateCost (totalCost : Cost.t) (usage : Usage.t) (model : string)
  : Cost.t :=
  let iterationUsd := Pricing.estimateCost model usage in
  Cost.mk (Cost.inputTokens totalCost + Usage.input_tokens usage)
          (Cost.outputTokens totalCost + Usage.output_tokens usage)
          (num_add (Cost.usd totalCost) iterationUsd).

Definition MAX_TOOL_ITERATIONS : nat := 10.

(** What [toolHandler.executeToolCall] resolves to; it catches its own
    errors and reports them through [is_error]. *)
Record ToolOutput := mkToolOutput { to_content : string; to_is_error : bool }.

Record ToolResult := mkToolResult {
  tool_use_id : string;
  tr_content : string;
  is_error : bool;
}.

Inductive MessageContent :=
| Plain (text : string)
| Blocks (content : list ContentBlock)
| ToolResults (results : list ToolResult).

Record Message := mkMessage { role : string; content : MessageContent }.

(** The network as the loop sees it: what the API answers to a request
    with the given conversation, and the requests sent so far. *)
Definition Api : Type := list Message → ApiOutcome.
Definition CallLog : Type := list (list Message).

Definition toolUses (content : list ContentBlock) : list (string * string * string) :=
  omap (λ b, match b with ToolUseBlock id name input => Some (id, name, input) | _ => None end)
       content.

Definition runTools (toolHandler : string → string → ToolOutput)
    (content : list ContentBlock) : list ToolResult :=
  (λ '(id, name, input),
     let result := toolHandler name input in
     mkToolResult id (to_content result) (to_is_error result))
    <$> toolUses content.

Definition maxIterationsText : string :=
  "[MAX TOOL ITERATIONS REACHED (" +:+ pretty MAX_TOOL_ITERATIONS
    +:+ ")] The model continued requesting tool calls beyond the iteration limit.".

(** [while (iteration < MAX_TOOL_ITERATIONS)], by recursion on the
    iterations left, [MAX_TOOL_ITERATIONS - iteration]. *)
Fixpoint toolLoop (api : Api) (toolHandler : string → string → ToolOutput)
    (model : string) (messages : list Message) (totalCost : Cost.t)
    (log : CallLog) (left : nat) : Try (string * Cost.t) * CallLog :=
  match left with
  | O => (Returns (maxIterationsText, totalCost), log)
  | S left' =>
      let log := (log ++ [messages])%list in
      match api messages with
      | ApiFails reason => (Throws reason, log)
      | ApiAnswers response =>
          let totalCost := accumulateCost totalCost (Response.usage response) model in
          if negb (String.eqb (Response.stop_reason response) "tool_use") then
            (Returns (responseText (Response.content response), totalCost), log)
          else
            let toolResults := runTools toolHandler (Response.content response) in
            let messages :=
              (messages ++ [mkMessage "assistant" (Blocks (Response.content response));
                            mkMessage "user" (ToolResults toolResults)])%list in
            toolLoop api toolHandler model messages totalCost log left'
      end
  end.

Definition singleCallWithTools (prompt systemPrompt : string)
    (sessionContext : option string) (config : Config.t)
    (api : Api) (toolHandler : string → string → ToolOutput)
  : Try (string * Cost.t) * CallLog :=
  if Config.mockApi config then
    (Returns (MockApi.mockSingleCall prompt systemPrompt config), [])
  else
    let model := Config.agentModel config in
    let userMessage :=
      match sessionContext with
      | Some context =>
          if truthy context
          then context +:+ nl +:+ nl +:+ "--- NEW PROMPT ---" +:+ nl +:+ prompt
          else prompt
      | None => prompt
      end in
    toolLoop api toolHandler model [mkMessage "user" (Plain userMessage)] Cost.zero []
      MAX_TOOL_ITERATIONS.

(** The usage the API reported for each request of a log. *)
Definition usagesOf (api : Api) (log : CallLog) : list Usage.t :=
  omap (λ messages,
          match api messages with
          | ApiAnswers response => Some (Response.usage response)
          | ApiFails _ => None
          end) log.

(** Usage accumulated from zero, request by request. *)
Definition accumulated (model : string) (usages : list Usage.t) : Cost.t :=
  foldl (λ total usage, accumulateCost total usage model) Cost.zero usages.
End WithRuntime.
End SingleCallTools.

(** ** stages/synthesize-direct.mjs and stages/synthesize.mjs *)

Module Synthesize.
Section WithRuntime.
Context `{JsRuntime}.

(** [mockSynthesize] of lib/mockApi.js. *)
Definition mockSynthesize (originalPrompt : string) (results : list PerspectiveResult.t)
    (config : Config.t) : string * Cost.t :=
  ("[MOCK] Synthesis of " +:+ pretty (Z.of_nat (length results))
     +:+ " perspectives for: " +:+ String (Ascii.ascii_of_nat 34) EmptyString
     +:+ slice0 60 originalPrompt +:+ "..." +:+ String (Ascii.ascii_of_nat 34) EmptyString,
   Cost.mk 300 600 (MockApi.tenThousandths 4)).

(** [(instructions.find(i => i.id === r.id) || {}).methodology || 'N/A'] *)
Definition methodologyOf (instructions : list Instruction.t) (r : PerspectiveResult.t)
  : string :=
  match list_find (λ i, Instruction.id i = PerspectiveResult.id r) instructions with
  | Some (_, i) => if truthy (Instruction.methodology i) then Instruction.methodology i
                   else "N/A"
  | None => "N/A"
  end.

Definition perspectiveSection (instructions : list Instruction.t) (r : PerspectiveResult.t)
  : string :=
  "=== Perspective " +:+ pretty (PerspectiveResult.id r) +:+ ": "
    +:+ PerspectiveResult.perspective r +:+ " ===" +:+ nl
    +:+ "Methodology: " +:+ methodologyOf instructions r +:+ nl +:+ nl
    +:+ "Findings:" +:+ nl +:+ PerspectiveResult.findings r.

(** The user message both drivers send. *)
Definition userMessage (originalPrompt : string) (instructions : list Instruction.t)
    (results : list PerspectiveResult.t) : string :=
  "ORIGINAL RESEARCH QUESTION:" +:+ nl +:+ originalPrompt +:+ nl +:+ nl
    +:+ "FINDINGS FROM " +:+ pretty (Z.of_nat (length results))
    +:+ " INDEPENDENT ANALYSTS:" +:+ nl +:+ nl
    +:+ join (nl +:+ nl) (perspectiveSection instructions <$> results).

(** The direct driver; [api] is what the messages API answers to a
    request with the given user message. *)
Definition synthesizeDirect (originalPrompt : string) (instructions : list Instruction.t)
    (results : list PerspectiveResult.t) (config : Config.t)
    (api : string → ApiOutcome) : Try (string * Cost.t) :=
  if Config.mockApi config then Returns (mockSynthesize originalPrompt results config)
  else
    match api (userMessage originalPrompt instructions results) with
    | ApiFails reason => Throws reason
    | ApiAnswers response =>
        let synthesis :=
          match textParts (Response.content response) with
          | [] => "[NO SYNTHESIS RESPONSE]"
          | parts => join (nl +:+ nl) parts
          end in
        Returns
          (synthesis,
           Cost.mk (Usage.input_tokens (Response.usage response))
             (Usage.output_tokens (Response.usage response))
             (Pricing.estimateCost (Config.expandModel config) (Response.usage response)))
    end.

(** The body of the SDK driver's loop. *)
Definition onMessage (acc : string * Cost.t) (message : SdkMessage.t)
  : Try (string * Cost.t) :=
  if String.eqb (SdkMessage.type message) "result" then
    if bool_decide (SdkMessage.subtype message = Some "success") then
      Returns (orElse (SdkMessage.result message) "[NO SYNTHESIS RESPONSE]",
               SdkMessage.costOf message)
    else
      Throws ("Synthesis failed: " +:+ default "undefined" (SdkMessage.subtype message)
                +:+ " - " +:+ SdkMessage.errors message)
  else Returns acc.

Fixpoint consume (acc : string * Cost.t) (messages : list SdkMessage.t)
  : Try (string * Cost.t) :=
  match messages with
  | [] => Returns acc
  | message :: rest =>
      match onMessage acc message with
      | Throws e => Throws e
      | Returns acc' => consume acc' rest
      end
  end.

(** The SDK driver; [sdk] is the stream [query] returns for the given
    user message. *)
Definition synthesizeSdk (originalPrompt : string) (instructions : list Instruction.t)
    (results : list PerspectiveResult.t) (config : Config.t)
    (sdk : string → SdkStream.t) : Try (string * Cost.t) :=
  if Config.mockApi config then Returns (mockSynthesize originalPrompt results config)
  else
    let stream := sdk (userMessage originalPrompt instructions results) in
    match consume ("", Cost.zero) (SdkStream.messages stream) with
    | Throws e => Throws e
    | Returns (synthesis, synthesisCost) =>
        match SdkStream.failure stream with
        | Some reason => Throws reason
        | None =>
            if negb (truthy synthesis) then Throws "Synthesis returned empty result"
            else Returns (synthesis, synthesisCost)
        end
    end.
End WithRuntime.
End Synthesize.

(** ** askMilo.js: the chorus pipeline

    The stages [pipeRunner] runs when [perspectives] is not 0: expand,
    fan-out, synthesize when [-summarize] is set, collect.  A stage that
    passes an error to [next] ends the pipeline with that error. *)

Module ChorusPipeline.
Section WithRuntime.
Context `{JsRuntime}.

(** What the network answers in one run, to each stage of either
    driver. *)
Record Network := mkNetwork {
  jsonParse : string → option ExpansionData.t;
  expandApi : nat → ApiOutcome;
  expandQuery : nat → SdkStream.t;
  agentApi : nat → ApiOutcome;
  agentSdk : nat → SdkStream.t;
  synthesisApi : string → ApiOutcome;
  synthesisSdk : string → SdkStream.t;
}.

Definition sdkDriver (config : Config.t) : bool := String.eqb (Config.driver config) "sdk".

Definition expandStage (config : Config.t) (originalPrompt : string) (net : Network)
  : Try (list Instruction.t * Cost.t) :=
  if sdkDriver config
  then (ExpandSdk.expand originalPrompt config (jsonParse net) (expandQuery net) 0).1
  else (ExpandDirect.expand originalPrompt config (jsonParse net) (expandApi net) 0).1.

Definition fanOutStage (config : Config.t) (instructions : list Instruction.t)
    (net : Network) : list PerspectiveResult.t :=
  if sdkDriver config
  then FanOutSdk.fanOut instructions config (agentSdk net)
  else FanOutDirect.fanOut instructions config (agentApi net).

Definition synthesizeStage (config : Config.t) (originalPrompt : string)
    (instructions : list Instruction.t) (results : list PerspectiveResult.t)
    (net : Network) : Try (string * Cost.t) :=
  if sdkDriver config
  then Synthesize.synthesizeSdk originalPrompt instructions results config (synthesisSdk net)
  else Synthesize.synthesizeDirect originalPrompt instructions results config
         (synthesisApi net).

(** The pipeline's result: the [args] the save reads, or the error.
    [elapsedSeconds] is what the collect stage measured. *)
Definition stages (config : Config.t) (originalPrompt : string) (net : Network)
    (elapsedSeconds : num) : Try AskMilo.StageOutputs :=
  match expandStage config originalPrompt net with
  | Throws err => Throws err
  | Returns (instructions, expandCost) =>
      if Config.dryRun config then
        Returns (AskMilo.mkOutputs None None (Some instructions) None (Some expandCost)
                   None None elapsedSeconds)
      else
        let results := fanOutStage config instructions net in
        if Config.summarize config then
          match synthesizeStage config originalPrompt instructions results net with
          | Throws err => Throws err
          | Returns (synthesis, synthesisCost) =>
              Returns (AskMilo.mkOutputs None None (Some instructions) (Some results)
                         (Some expandCost) (Some synthesis) (Some synthesisCost)
                         elapsedSeconds)
          end
        else
          Returns (AskMilo.mkOutputs None None (Some instructions) (Some results)
                     (Some expandCost) None None elapsedSeconds)
  end.
End WithRuntime.
End ChorusPipeline.

(** ** A runtime to compute with

  Exact rationals for the numbers; decimal [parseInt]; ASCII blanks for
  [trim]; [encodeURIComponent] as the identity, which is what it is on
  letters, digits and the underscore; POSIX [path.join]. *)

Module Reference.
Definition isBlank (c : Ascii.ascii) : bool :=
  let n := Ascii.nat_of_ascii c in
  (n =? 32)%nat || ((9 <=? n)%nat && (n <=? 13)%nat).

Fixpoint trimStart (s : string) : string :=
  match s with
  | String c rest => if isBlank c then trimStart rest else s
  | EmptyString => EmptyString
  end.

Fixpoint trimEnd (s : string) : string :=
  match s with
  | String c rest =>
      match trimEnd rest with
      | EmptyString => if isBlank c then EmptyString else String c EmptyString
      | rest' => String c rest'
      end
  | EmptyString => EmptyString
  end.

Definition digit (c : Ascii.ascii) : option Z :=
  let n := Ascii.nat_of_ascii c in
  if (48 <=? n)%nat && (n <=? 57)%nat then Some (Z.of_nat n - 48) else None.

Fixpoint digits (acc : option Z) (s : string) : option Z :=
  match s with
  | String c rest =>
      match digit c with
      | Some d => digits (Some (10 * default 0 acc + d)) rest
      | None => acc
      end
  | EmptyString => acc
  end.

Definition parseDecimal (s : string) : option Z :=
  match trimStart s with
  | String c rest =>
      if (Ascii.nat_of_ascii c =? 45)%nat then Z.opp <$> digits None rest
      else if (Ascii.nat_of_ascii c =? 43)%nat then digits None rest
      else digits None (String c rest)
  | EmptyString => None
  end.

(** [path.join] on POSIX: the arguments that are not empty are joined
    with a slash and the result is normalised: empty and [.] segments are
    dropped, [..] takes the segment before it away (and is kept in front
    of a relative path that has none left). *)
Definition isSlash (c : Ascii.ascii) : bool := (Ascii.nat_of_ascii c =? 47)%nat.

Fixpoint segments (current : string) (s : string) : list string :=
  match s with
  | String c rest =>
      if isSlash c then current :: segments EmptyString rest
      else segments (current +:+ String c EmptyString) rest
  | EmptyString => [current]
  end.

(** The segments kept so far, the last one first. *)
Definition resolveSegment (allowAboveRoot : bool) (kept : list string) (segment : string)
  : list string :=
  if String.eqb segment "" || String.eqb segment "." then kept
  else if String.eqb segment ".." then
    match kept with
    | last :: before =>
        if String.eqb last ".." then (if allowAboveRoot then ".." :: kept else kept)
        else before
    | [] => if allowAboveRoot then [".."] else []
    end
  else segment :: kept.

Definition lastIsSlash (s : string) : bool :=
  match String.get (String.length s - 1) s with
  | Some c => isSlash c
  | None => false
  end.

Definition normalize (path : string) : string :=
  match path with
  | EmptyString => "."
  | String c _ =>
      let isAbsolute := isSlash c in
      let body :=
        join "/" (rev (foldl (resolveSegment (negb isAbsolute)) [] (segments EmptyString path))) in
      match body with
      | EmptyString =>
          if isAbsolute then "/" else if lastIsSlash path then "./" else "."
      | _ =>
          let body := if lastIsSlash path then body +:+ "/" else body in
          if isAbsolute then "/" +:+ body else body
      end
  end.

Definition join2 (a b : string) : string :=
  match a, b with
  | EmptyString, _ => normalize b
  | _, EmptyString => normalize a
  | _, _ => normalize (a +:+ "/" +:+ b)
  end.

Definition runtime : JsRuntime := {|
  num := Qc;
  num_of_Z := Qc_of_Z;
  num_add := Qcplus;
  num_mul := Qcmult;
  num_div := Qcdiv;
  parseInt := parseDecimal;
  encodeURIComponent := λ s, s;
  trim := λ s, trimEnd (trimStart s);
  homedir := "/Users/milo";
  pathJoin := join2;
|}.
End Reference.


(** ** Concrete inputs

    The runs the statements below are evaluated on. *)

(** The run of Scenario B: three perspectives, the serial switch on, no
    mock, requests that take 3, 5 and 4 ticks. *)
Definition scenarioB_config : Config.t :=
  Config.mk false true false false false 3
    "claude-sonnet-4-6" "claude-opus-4-6" "direct" "chorusExpander".

Definition scenarioB_instructions : list Instruction.t :=
  [ Instruction.mk 1 "Economic" "Assess the costs." "survey";
    Instruction.mk 2 "Technical" "Assess the design." "review";
    Instruction.mk 3 "Social" "Assess the adoption." "interviews" ].

Definition scenarioB_latency (idx : nat) : nat := nth idx [3; 5; 4]%nat 0%nat.

Section StatusInputs.
#[local] Existing Instance Reference.runtime.

(** A crash record whose message is the empty string. *)
Definition silentCrashRecord : Session.t :=
  Session.mk "amber_arch" (Some "error") (Some "") (Some "2026-03-01T10:00:00.000Z")
    None None None (Some []) None.

Definition silentCrashFiles : FileSystem :=
  {[ sessionFilePath "amber_arch" := SessionJson silentCrashRecord ]}.

(** A session with one single-call turn. *)
Definition oneTurn : Turn.t :=
  Turn.mk 1 (Some "singleCall") (Some "default") "What is quantum computing?"
    (Some "An answer.") None None None (Some (Cost.mk 10 20 (Qc_of_Z 0)))
    (Qc_of_Z 2) "2026-03-01T10:00:00.000Z".

Definition oneTurnSession : Session.t :=
  Session.mk "calm_brook" None None None (Some "2026-03-01T10:00:00.000Z")
    (Some "2026-03-01T10:00:00.000Z") None (Some [oneTurn])
    (Some (SessionCost.mk (Qc_of_Z 0) (Some 10) (Some 20))).

Definition oneTurnFiles : FileSystem :=
  {[ sessionFilePath "calm_brook" := SessionJson oneTurnSession ]}.

(** A follow-up turn for that session. *)
Definition secondTurn : Turn.t :=
  Turn.mk 2 (Some "singleCall") (Some "default") "And in practice?"
    (Some "Another answer.") None None None (Some (Cost.mk 1 2 (Qc_of_Z 0)))
    (Qc_of_Z 3) "2026-03-01T11:00:00.000Z".
End StatusInputs.

(** ** Notions the statements use *)

Section Notions.
Context `{JsRuntime}.

(** The completed turns a session has on file: those of its record, none
    when there is no file or it does not parse. *)
Definition storedTurnCount (fs : FileSystem) (name : string) : nat :=
  match fs !! sessionFilePath name with
  | Some (SessionJson session) => length (default [] (Session.turns session))
  | _ => 0%nat
  end.

(** A submission that carries no [resumeSession] value. *)
Definition withoutResume (requestBody : CommandLineParameters.t) : Prop :=
  CommandLineParameters.firstValue "resumeSession" requestBody = None.

(** The gateway's invariant: no two live children share a session name,
    and every live child's name is registered and not empty. *)
Definition guarded (st : SubmitChorusStudy.State) : Prop :=
  NoDup (SubmitChorusStudy.sessionName <$> SubmitChorusStudy.children st)
  ∧ ∀ c, c ∈ SubmitChorusStudy.children st →
      SubmitChorusStudy.sessionName c ∈ SubmitChorusStudy.inFlightSessions st
      ∧ SubmitChorusStudy.sessionName c ≠ "".

(** The sums the stored turns' token counts come to. *)
Definition turnsInputTokens (turns : list Turn.t) : Z :=
  foldl (λ s t, s + default 0 (Cost.inputTokens <$> Turn.totalCost t)) 0 turns.
Definition turnsOutputTokens (turns : list Turn.t) : Z :=
  foldl (λ s t, s + default 0 (Cost.outputTokens <$> Turn.totalCost t)) 0 turns.

(** A result message of the SDK that reports success. *)
Definition successResult (message : SdkMessage.t) : Prop :=
  SdkMessage.type message = "result" ∧ SdkMessage.subtype message = Some "success".
End Notions.

Section GatewayInputs.
#[local] Existing Instance Reference.runtime.

Definition quietEnv : Env.t :=
  Env.mk "2026-03-02T09:00:00.000Z" 1772442000000 (λ _, (0%nat, 0%nat)).

(** A first submission that names its session. *)
Definition namedRequest : CommandLineParameters.t :=
  CommandLineParameters.mk
    {[ "summarize" := true ]}
    {[ "sessionName" := ["calm_brook"]; "perspectives" := ["2"] ]}
    ["Compare X and Y"].

(** The child that submission spawns in a fresh gateway. *)
Definition namedChild : SubmitChorusStudy.Child :=
  SubmitChorusStudy.mkChild 0 "calm_brook"
    (CommandLineParameters.mk
       (<["json" := true]> {[ "summarize" := true ]})
       (<["sessionName" := ["calm_brook"]]>
          {[ "sessionName" := ["calm_brook"]; "perspectives" := ["2"] ]})
       ["Compare X and Y"])
    "".

Definition chorusConfig : Config.t :=
  Config.mk false true false true false 2
    "claude-sonnet-4-6" "claude-opus-4-6" "direct" "chorusExpander".

(** What a chorus run of two perspectives hands to the session save. *)
Definition chorusOutputs : AskMilo.StageOutputs :=
  AskMilo.mkOutputs None None
    (Some [ Instruction.mk 1 "Cost" "Compare the costs." "survey";
            Instruction.mk 2 "Risk" "Compare the risks." "review" ])
    (Some [ PerspectiveResult.mk 1 "Cost" "Compare the costs." "X is cheaper."
              "claude-sonnet-4-6" (Cost.mk 200 400 (Qc_of_Z 0)) 1;
            PerspectiveResult.mk 2 "Risk" "Compare the risks." "Y is safer."
              "claude-sonnet-4-6" (Cost.mk 210 390 (Qc_of_Z 0)) 1 ])
    (Some (Cost.mk 150 300 (Qc_of_Z 0)))
    None None (Qc_of_Z 240).
End GatewayInputs.

Section ExpansionInputs.
#[local] Existing Instance Reference.runtime.

(** Three perspectives asked for, no mock. *)
Definition threeWanted : Config.t :=
  Config.mk false false false false false 3
    "claude-sonnet-4-6" "claude-opus-4-6" "sdk" "chorusExpander".

Definition loneInstruction : Instruction.t :=
  Instruction.mk 7 "Economic" "Assess the costs." "survey".

(** The SDK answers with a single instruction, numbered 7. *)
Definition loneAnswer : SdkMessage.t :=
  SdkMessage.mk "result" (Some "success") None
    (Some (ExpansionData.mk (Some [loneInstruction])))
    (Some (Usage.mk 150 300)) None None "[]".

Definition loneStream : SdkStream.t := SdkStream.mk [loneAnswer] None.

(** The same three perspectives under the mock. *)
Definition threeMocked : Config.t :=
  Config.mk true false false false false 3
    "claude-sonnet-4-6" "claude-opus-4-6" "sdk" "chorusExpander".
End ExpansionInputs.

Section ToolLoopInputs.
#[local] Existing Instance Reference.runtime.

(** A tool-enabled single call under the mock. *)
Definition mockedConfig : Config.t :=
  Config.mk true false false false false 0
    "claude-sonnet-4-6" "claude-opus-4-6" "direct" "default".

(** The same call against the API. *)
Definition liveConfig : Config.t :=
  Config.mk false false false false false 0
    "claude-sonnet-4-6" "claude-opus-4-6" "direct" "default".

(** A model that asks for a search at every turn, 10 tokens in and 5 out
    each time. *)
Definition alwaysSearching : SingleCallTools.Api :=
  λ _, ApiAnswers
         (Response.mk [ToolUseBlock "toolu_1" "confluence_search" "{}"]
            (Usage.mk 10 5) "tool_use").

Definition echoTool (toolName toolInput : string) : SingleCallTools.ToolOutput :=
  SingleCallTools.mkToolOutput ("Unknown tool: " +:+ toolName) true.
End ToolLoopInputs.

(** What the API answers in Scenario B when the second participant is
    turned away. *)
Definition secondRejected (idx : nat) : ApiOutcome :=
  match idx with
  | 1%nat => ApiFails "Error: 429 rate_limit_error"
  | 0%nat => ApiAnswers (Response.mk [ThinkingBlock "hm"; TextBlock " Costs are low. "]
                           (Usage.mk 1000 2000) "end_turn")
  | _ => ApiAnswers (Response.mk [TextBlock "Adoption is slow."]
                       (Usage.mk 900 1800) "end_turn")
  end.


Section ResumeInputs.
#[local] Existing Instance Reference.runtime.

(** A follow-up that resumes the one-turn session [calm_brook]. *)
Definition resumingRequest : CommandLineParameters.t :=
  CommandLineParameters.mk ∅ {[ "resumeSession" := ["calm_brook"] ]} ["And in practice?"].



(** The same, with [-restoreSwitches]. *)
Definition strayRestore : CommandLineParameters.t :=
  CommandLineParameters.mk {[ "restoreSwitches" := true ]}
    {[ "resumeSession" := ["deep_lake"]; "sessionName" := ["amber_arch"] ]}
    ["And in practice?"].
End ResumeInputs.

Section FollowUpInputs.
#[local] Existing Instance Reference.runtime.

(** A follow-up submitted through the gateway: it names the session and
    asks askMilo to resume it. *)
Definition followUpRequest : CommandLineParameters.t :=
  CommandLineParameters.mk ∅
    {[ "sessionName" := ["calm_brook"]; "resumeSession" := ["calm_brook"] ]}
    ["And in practice?"].
End FollowUpInputs.

Section ConversationInputs.
#[local] Existing Instance Reference.runtime.

(** A model that answers the first request and asks for no tool. *)
Definition answersAtOnce : SingleCallTools.Api :=
  λ _, ApiAnswers (Response.mk [TextBlock "SIF is a standard."] (Usage.mk 12 7) "end_turn").
End ConversationInputs.

Section EntryInputs.
#[local] Existing Instance Reference.runtime.

(** The stream of an SDK participant: one assistant message, then the
    result. *)
Definition agentSpeaks : SdkMessage.t :=
  SdkMessage.mk "assistant" None None None None None None "[]".

Definition agentResult : SdkMessage.t :=
  SdkMessage.mk "result" (Some "success") (Some "Costs are low.") None
    (Some (Usage.mk 1000 2000)) (Some (Qc_of_Z 0)) (Some 3) "[]".

Definition agentStream : SdkStream.t := SdkStream.mk [agentSpeaks; agentResult] None.

(** A fenced answer to the expansion request, and a parser that
    understands its body. *)
Definition fencedBody : string := "{instructions: [7]}".

Definition fencedAnswer : ApiOutcome :=
  ApiAnswers
    (Response.mk [TextBlock ("```json" +:+ nl +:+ fencedBody +:+ nl +:+ "```")]
       (Usage.mk 150 300) "end_turn").

Definition parseFenced (text : string) : option ExpansionData.t :=
  if String.eqb text fencedBody then Some (ExpansionData.mk (Some [loneInstruction]))
  else None.
End EntryInputs.

Section PipelineInputs.
#[local] Existing Instance Reference.runtime.

(** One run's network: the expansion is answered with the fenced
    instruction, every participant's request fails, the synthesis is
    answered. *)
Definition studyNetwork : ChorusPipeline.Network :=
  ChorusPipeline.mkNetwork parseFenced
    (λ _, fencedAnswer) (λ _, loneStream)
    (λ _, ApiFails "Error: 529 overloaded") (λ _, agentStream)
    (λ _, ApiAnswers (Response.mk [TextBlock "Both agree."] (Usage.mk 50 60) "end_turn"))
    (λ _, SdkStream.mk [] None).

(** Chorus runs with the direct driver: plain, summarized, dry, and
    summarized under the mock. *)
Definition liveChorus : Config.t :=
  Config.mk false false false false false 1
    "claude-sonnet-4-6" "claude-opus-4-6" "direct" "chorusExpander".

Definition liveSummary : Config.t :=
  Config.mk false false false true false 1
    "claude-sonnet-4-6" "claude-opus-4-6" "direct" "chorusExpander".

Definition liveDryRun : Config.t :=
  Config.mk false false true false false 1
    "claude-sonnet-4-6" "claude-opus-4-6" "direct" "chorusExpander".

Definition mockedSummary : Config.t :=
  Config.mk true false false true false 2
    "claude-sonnet-4-6" "claude-opus-4-6" "direct" "chorusExpander".

Definition fourMinutes : num := Qc_of_Z 240.
End PipelineInputs.

Section FurtherNotions.
Context `{JsRuntime}.

(** What one round of tool use appends to the conversation. *)
Definition toolRound (toolHandler : string → string → SingleCallTools.ToolOutput)
    (response : Response.t) : list SingleCallTools.Message :=
  [ SingleCallTools.mkMessage "assistant" (SingleCallTools.Blocks (Response.content response));
    SingleCallTools.mkMessage "user"
      (SingleCallTools.ToolResults
         (SingleCallTools.runTools toolHandler (Response.content response))) ].
End FurtherNotions.

(** * Properties *)

(** ** Fan-out: one entry per instruction, failures kept apart *)

Section FanOutProofs.
Context `{JsRuntime}.

Lemma lookup_zip_with_imap {A B C} (f : nat → A → B) (g : B → A → C) (l : list A) (i : nat) :
  zip_with g (imap f l) l !! i = (λ x, g (f i x) x) <$> l !! i.
Proof.
  rewrite lookup_zip_with, list_lookup_imap.
  destruct (l !! i); reflexivity.
Qed.

Lemma length_zip_with_imap {A B C} (f : nat → A → B) (g : B → A → C) (l : list A) :
  length (zip_with g (imap f l) l) = length l.
Proof.
  rewrite length_zip_with_r_eq; [reflexivity | symmetry; apply length_imap].
Qed.

Lemma direct_fulfilled_names_instruction instruction config api value :
  FanOutDirect.runOneAgent instruction config api = Fulfilled value →
  PerspectiveResult.id value = Instruction.id instruction
  ∧ PerspectiveResult.perspective value = Instruction.perspective instruction
  ∧ PerspectiveResult.instruction value = Instruction.instruction instruction.
Proof.
  unfold FanOutDirect.runOneAgent.
  destruct (Config.mockApi config); [| destruct api as [reason | response]];
    intros Heq; inversion Heq; subst; auto.
Qed.

Lemma sdk_fulfilled_names_instruction instruction config stream value :
  FanOutSdk.runOneAgent instruction config stream = Fulfilled value →
  PerspectiveResult.id value = Instruction.id instruction
  ∧ PerspectiveResult.perspective value = Instruction.perspective instruction
  ∧ PerspectiveResult.instruction value = Instruction.instruction instruction.
Proof.
  unfold FanOutSdk.runOneAgent.
  destruct (Config.mockApi config); [| destruct (SdkStream.failure stream)];
    intros Heq; inversion Heq; subst; auto.
Qed.

Lemma direct_entry instructions config api idx :
  FanOutDirect.fanOut instructions config api !! idx
  = (λ instruction,
       FanOutDirect.entryFor config
         (FanOutDirect.runOneAgent instruction config (api idx)) instruction)
      <$> instructions !! idx.
Proof. unfold FanOutDirect.fanOut. apply lookup_zip_with_imap. Qed.

Lemma sdk_entry instructions config sdk idx :
  FanOutSdk.fanOut instructions config sdk !! idx
  = (λ instruction,
       FanOutSdk.entryFor config
         (FanOutSdk.runOneAgent instruction config (sdk idx)) instruction)
      <$> instructions !! idx.
Proof. unfold FanOutSdk.fanOut. apply lookup_zip_with_imap. Qed.

(** C3.  Whatever subset of the participants rejects, both dispatchers
    return one entry per instruction, at the instruction's index and under
    its id, perspective and instruction text.  The entry of a participant
    that fulfilled is its own value; the entry of one that rejected has the
    findings "[AGENT FAILED: reason]" and the cost
    [{inputTokens: 0, outputTokens: 0, usd: 0}].  The entry at an index is
    the same under any other behaviour of the remaining participants. *)
Theorem fanOut_isolates_failures
    (instructions : list Instruction.t) (config : Config.t)
    (api : nat → ApiOutcome) (sdk : nat → SdkStream.t) :
  (length (FanOutDirect.fanOut instructions config api) = length instructions
   ∧ ∀ idx instruction, instructions !! idx = Some instruction →
       ∃ r, FanOutDirect.fanOut instructions config api !! idx = Some r
         ∧ PerspectiveResult.id r = Instruction.id instruction
         ∧ PerspectiveResult.perspective r = Instruction.perspective instruction
         ∧ PerspectiveResult.instruction r = Instruction.instruction instruction
         ∧ (∀ value, FanOutDirect.runOneAgent instruction config (api idx) = Fulfilled value →
              r = value)
         ∧ (∀ reason, FanOutDirect.runOneAgent instruction config (api idx) = Rejected reason →
              PerspectiveResult.findings r = "[AGENT FAILED: " +:+ reason +:+ "]"
              ∧ PerspectiveResult.cost r = Cost.mk 0 0 (num_of_Z 0))
         ∧ (∀ api', api' idx = api idx →
              FanOutDirect.fanOut instructions config api' !! idx = Some r))
  ∧
  (length (FanOutSdk.fanOut instructions config sdk) = length instructions
   ∧ ∀ idx instruction, instructions !! idx = Some instruction →
       ∃ r, FanOutSdk.fanOut instructions config sdk !! idx = Some r
         ∧ PerspectiveResult.id r = Instruction.id instruction
         ∧ PerspectiveResult.perspective r = Instruction.perspective instruction
         ∧ PerspectiveResult.instruction r = Instruction.instruction instruction
         ∧ (∀ value, FanOutSdk.runOneAgent instruction config (sdk idx) = Fulfilled value →
              r = value)
         ∧ (∀ reason, FanOutSdk.runOneAgent instruction config (sdk idx) = Rejected reason →
              PerspectiveResult.findings r = "[AGENT FAILED: " +:+ reason +:+ "]"
              ∧ PerspectiveResult.cost r = Cost.mk 0 0 (num_of_Z 0))
         ∧ (∀ sdk', sdk' idx = sdk idx →
              FanOutSdk.fanOut instructions config sdk' !! idx = Some r)).
Proof.
  split.
  - split; [apply length_zip_with_imap |].
    intros idx instruction Hin.
    eexists. rewrite direct_entry, Hin. split; [reflexivity |].
    destruct (FanOutDirect.runOneAgent instruction config (api idx)) as [value | reason] eqn:Hrun;
      simpl.
    + destruct (direct_fulfilled_names_instruction _ _ _ _ Hrun) as (Hid & Hp & Hi).
      split_and!; auto.
      * intros value' Hv. congruence.
      * intros reason Hr. discriminate.
      * intros api' Hsame. rewrite direct_entry, Hin; simpl. rewrite Hsame, Hrun. reflexivity.
    + split_and!; auto.
      * intros value Hv. discriminate.
      * intros reason' Hr. inversion Hr; subst. split; reflexivity.
      * intros api' Hsame. rewrite direct_entry, Hin; simpl. rewrite Hsame, Hrun. reflexivity.
  - split; [apply length_zip_with_imap |].
    intros idx instruction Hin.
    eexists. rewrite sdk_entry, Hin. split; [reflexivity |].
    destruct (FanOutSdk.runOneAgent instruction config (sdk idx)) as [value | reason] eqn:Hrun;
      simpl.
    + destruct (sdk_fulfilled_names_instruction _ _ _ _ Hrun) as (Hid & Hp & Hi).
      split_and!; auto.
      * intros value' Hv. congruence.
      * intros reason Hr. discriminate.
      * intros sdk' Hsame. rewrite sdk_entry, Hin; simpl. rewrite Hsame, Hrun. reflexivity.
    + split_and!; auto.
      * intros value Hv. discriminate.
      * intros reason' Hr. inversion Hr; subst. split; reflexivity.
      * intros sdk' Hsame. rewrite sdk_entry, Hin; simpl. rewrite Hsame, Hrun. reflexivity.
Qed.

End FanOutProofs.

Section FanOutExamples.
#[local] Existing Instance Reference.runtime.

(** Scenario B with the second participant rejected: three entries, in
    instruction order, the second one marked and free. *)
Example fanOut_with_one_rejection :
  (PerspectiveResult.id <$> FanOutDirect.fanOut scenarioB_instructions scenarioB_config
                              secondRejected)
  = [1; 2; 3]
  ∧ (PerspectiveResult.findings <$> FanOutDirect.fanOut scenarioB_instructions
                                      scenarioB_config secondRejected)
    = [ "Costs are low."; "[AGENT FAILED: Error: 429 rate_limit_error]";
        "Adoption is slow." ]
  ∧ (Cost.inputTokens ∘ PerspectiveResult.cost <$> FanOutDirect.fanOut scenarioB_instructions
                                                  scenarioB_config secondRejected)
    = [1000; 0; 900].
Proof. split_and!; reflexivity. Qed.

End FanOutExamples.

(** ** Fan-out: the serial switch *)

Section SerialSwitch.
Context `{JsRuntime}.

(** [fanOut] never reads [config.serialFanOut]: the results are the same
    with the switch on and off. *)
Lemma fanOut_ignores_serialFanOut instructions api
    mockApi serial serial' dryRun summarize noSave perspectives agentModel expandModel
    driver firstPromptName :
  FanOutDirect.fanOut instructions
    (Config.mk mockApi serial dryRun summarize noSave perspectives agentModel expandModel
       driver firstPromptName) api
  = FanOutDirect.fanOut instructions
      (Config.mk mockApi serial' dryRun summarize noSave perspectives agentModel expandModel
         driver firstPromptName) api.
Proof. reflexivity. Qed.

Lemma lookup_fanOutCalls instructions config latency enteredAt idx call :
  FanOutDirectTiming.fanOutCalls instructions config latency enteredAt !! idx = Some call →
  Timeline.issuedAt call = enteredAt.
Proof.
  unfold FanOutDirectTiming.fanOutCalls. rewrite list_lookup_imap.
  destruct (instructions !! idx); simpl; [| discriminate].
  destruct (Config.mockApi config); intros Heq; inversion Heq; reflexivity.
Qed.

(** Every request of a run is issued the moment [fanOut] is entered,
    whatever the switch says. *)
Lemma fanOut_issues_all_on_entry instructions config latency enteredAt call :
  call ∈ FanOutDirectTiming.fanOutCalls instructions config latency enteredAt →
  Timeline.issuedAt call = enteredAt.
Proof.
  intros Hin. apply list_elem_of_lookup in Hin as [idx Hidx].
  eapply lookup_fanOutCalls; eassumption.
Qed.

End SerialSwitch.

(** C1, on the code.  With [serialFanOut] selected and three participants
    taking 3, 5 and 4 ticks, [fanOut] issues all three requests at tick 0,
    so the second starts before the first has finished, and returns after
    5 ticks, the longest request, not after the 12 ticks the three add up
    to. *)
Theorem serialFanOut_dispatches_concurrently :
  Config.serialFanOut scenarioB_config = true
  ∧ Config.mockApi scenarioB_config = false
  ∧ FanOutDirectTiming.fanOutCalls scenarioB_instructions scenarioB_config scenarioB_latency 0
    = [ Timeline.mk 0 0 3; Timeline.mk 1 0 5; Timeline.mk 2 0 4 ]
  ∧ Timeline.oneAtATime
      (FanOutDirectTiming.fanOutCalls scenarioB_instructions scenarioB_config scenarioB_latency 0)
    = false
  ∧ FanOutDirectTiming.elapsed scenarioB_instructions scenarioB_config scenarioB_latency 0
    = 5%nat
  ∧ Timeline.sumOfDurations
      (FanOutDirectTiming.fanOutCalls scenarioB_instructions scenarioB_config scenarioB_latency 0)
    = 12%nat.
Proof. repeat split. Qed.

(** ** Status poller *)

Section StatusProofs.
Context `{JsRuntime}.

Lemma truthy_true s : truthy s = true ↔ s ≠ "".
Proof.
  unfold truthy. rewrite negb_true_iff. split.
  - intros Hne Heq. subst. discriminate.
  - intros Hne. apply String.eqb_neq. exact Hne.
Qed.

Lemma existsSync_true fs filePath : existsSync fs filePath = true ↔ is_Some (fs !! filePath).
Proof. unfold existsSync. apply bool_decide_eq_true. Qed.

Lemma existsSync_false fs filePath : existsSync fs filePath = false ↔ fs !! filePath = None.
Proof.
  unfold existsSync. rewrite bool_decide_eq_false. rewrite <- eq_None_not_Some. reflexivity.
Qed.

Lemma validate_accepts sessionName turnNumber :
  sessionName ≠ "" → 1 ≤ turnNumber →
  ChorusStudyStatus.validate (ChorusStudyStatus.mkRequest sessionName (Some turnNumber))
  = Returns (sessionName, turnNumber).
Proof.
  intros Hname Hturn. unfold ChorusStudyStatus.validate. simpl.
  apply truthy_true in Hname. rewrite Hname. simpl.
  replace (turnNumber =? 0) with false by lia.
  replace (turnNumber <? 1) with false by lia.
  reflexivity.
Qed.

(** The poll hands the files back as it got them. *)
Lemma checkSessionFile_reads_only fs sessionName turnNumber :
  (ChorusStudyStatus.checkSessionFile fs sessionName turnNumber).2 = fs.
Proof.
  unfold ChorusStudyStatus.checkSessionFile.
  destruct (existsSync fs (sessionFilePath sessionName)); simpl; [| reflexivity].
  destruct (fs !! sessionFilePath sessionName) as [[raw | sessionData] |]; simpl;
    try reflexivity.
  destruct (bool_decide (Session.status sessionData = Some "error")); simpl; [reflexivity |].
  destruct (Z.of_nat (length (default [] (Session.turns sessionData))) >=? turnNumber);
    reflexivity.
Qed.

Lemma poll_valid (fs : FileSystem) sessionName turnNumber :
  sessionName ≠ "" → 1 ≤ turnNumber →
  ChorusStudyStatus.serviceFunction
    (ChorusStudyStatus.mkRequest sessionName (Some turnNumber)) fs
  = (Returns (ChorusStudyStatus.checkSessionFile fs sessionName turnNumber).1, fs).
Proof.
  intros Hname Hturn. unfold ChorusStudyStatus.serviceFunction.
  rewrite (validate_accepts _ _ Hname Hturn).
  pose proof (checkSessionFile_reads_only fs sessionName turnNumber) as Hro.
  destruct (ChorusStudyStatus.checkSessionFile fs sessionName turnNumber) as [r fs1].
  simpl in *. subst. reflexivity.
Qed.

(** The answer for a file that parses. *)
Lemma checkSessionFile_parsed (fs : FileSystem) sessionName turnNumber sessionData :
  fs !! sessionFilePath sessionName = Some (SessionJson sessionData) →
  (ChorusStudyStatus.checkSessionFile fs sessionName turnNumber).1
  = if bool_decide (Session.status sessionData = Some "error") then
      ChorusStudyStatus.Error sessionName (orElse (Session.error sessionData) "unknown error")
    else if Z.of_nat (length (default [] (Session.turns sessionData))) >=? turnNumber then
      ChorusStudyStatus.Complete sessionName turnNumber
        (default [] (Session.turns sessionData) !! Z.to_nat (turnNumber - 1))
    else
      ChorusStudyStatus.Running sessionName turnNumber
        (length (default [] (Session.turns sessionData))).
Proof.
  intros Hfile. unfold ChorusStudyStatus.checkSessionFile.
  assert (Hex : existsSync fs (sessionFilePath sessionName) = true)
    by (apply existsSync_true; rewrite Hfile; eauto).
  rewrite Hex, Hfile. simpl.
  destruct (bool_decide (Session.status sessionData = Some "error")); [reflexivity |].
  destruct (Z.of_nat (length (default [] (Session.turns sessionData))) >=? turnNumber);
    reflexivity.
Qed.

Lemma checkSessionFile_unparseable (fs : FileSystem) sessionName turnNumber raw :
  fs !! sessionFilePath sessionName = Some (Unparseable raw) →
  (ChorusStudyStatus.checkSessionFile fs sessionName turnNumber).1
  = ChorusStudyStatus.Error sessionName "corrupt session file".
Proof.
  intros Hfile. unfold ChorusStudyStatus.checkSessionFile.
  assert (Hex : existsSync fs (sessionFilePath sessionName) = true)
    by (apply existsSync_true; rewrite Hfile; eauto).
  rewrite Hex, Hfile. reflexivity.
Qed.

Lemma checkSessionFile_absent (fs : FileSystem) sessionName turnNumber :
  fs !! sessionFilePath sessionName = None →
  (ChorusStudyStatus.checkSessionFile fs sessionName turnNumber).1
  = ChorusStudyStatus.Running sessionName turnNumber 0.
Proof.
  intros Hfile. unfold ChorusStudyStatus.checkSessionFile.
  apply existsSync_false in Hfile. rewrite Hfile. reflexivity.
Qed.

(** C2, as the code has it.  For a query with a non-empty session name and
    a turn number of at least 1 the poller answers, hands the files back
    unchanged, and its answer is read off the one session file: running
    with 0 completed turns when there is none; error "corrupt session
    file" when it does not parse; when it carries the error marker, error
    with the stored message, or with "unknown error" when that message is
    missing or empty; complete with the turn at position [turnNumber] when
    the file has that many turns; running with the number of stored turns
    otherwise.  Files that agree on the session's file get the same
    answer. *)
Theorem status_is_read_off_the_session_file
    (fs : FileSystem) (sessionName : string) (turnNumber : Z) :
  sessionName ≠ "" → 1 ≤ turnNumber →
  ∃ statusResult,
    ChorusStudyStatus.serviceFunction
      (ChorusStudyStatus.mkRequest sessionName (Some turnNumber)) fs
    = (Returns statusResult, fs)
    ∧ match fs !! sessionFilePath sessionName with
      | None => statusResult = ChorusStudyStatus.Running sessionName turnNumber 0
      | Some (Unparseable _) =>
          statusResult = ChorusStudyStatus.Error sessionName "corrupt session file"
      | Some (SessionJson sessionData) =>
          let turns := default [] (Session.turns sessionData) in
          if bool_decide (Session.status sessionData = Some "error") then
            match Session.error sessionData with
            | Some message =>
                statusResult
                = ChorusStudyStatus.Error sessionName
                    (if bool_decide (message = "") then "unknown error" else message)
            | None => statusResult = ChorusStudyStatus.Error sessionName "unknown error"
            end
          else if bool_decide (turnNumber ≤ Z.of_nat (length turns)) then
            ∃ turn, turns !! Z.to_nat (turnNumber - 1) = Some turn
              ∧ statusResult = ChorusStudyStatus.Complete sessionName turnNumber (Some turn)
          else statusResult = ChorusStudyStatus.Running sessionName turnNumber (length turns)
      end
    ∧ ∀ fs' : FileSystem,
        fs' !! sessionFilePath sessionName = fs !! sessionFilePath sessionName →
        (ChorusStudyStatus.serviceFunction
           (ChorusStudyStatus.mkRequest sessionName (Some turnNumber)) fs').1
        = Returns statusResult.
Proof.
  intros Hname Hturn.
  exists (ChorusStudyStatus.checkSessionFile fs sessionName turnNumber).1.
  split_and!.
  - apply poll_valid; assumption.
  - destruct (fs !! sessionFilePath sessionName) as [[raw | sessionData] |] eqn:Hfile.
    + eapply checkSessionFile_unparseable. exact Hfile.
    + rewrite (checkSessionFile_parsed _ _ _ _ Hfile). simpl.
      destruct (bool_decide (Session.status sessionData = Some "error")).
      * unfold orElse. destruct (Session.error sessionData) as [message |]; [| reflexivity].
        unfold truthy. destruct (String.eqb_spec message "") as [-> | Hne]; simpl.
        -- reflexivity.
        -- rewrite bool_decide_eq_false_2 by exact Hne. reflexivity.
      * destruct (Z.geb_spec (Z.of_nat (length (default [] (Session.turns sessionData))))
                    turnNumber) as [Hge | Hlt].
        -- rewrite bool_decide_eq_true_2 by lia.
           destruct (lookup_lt_is_Some_2 (default [] (Session.turns sessionData))
                       (Z.to_nat (turnNumber - 1))) as [turn Hturn'].
           { lia. }
           exists turn. rewrite Hturn'. split; reflexivity.
        -- rewrite bool_decide_eq_false_2 by lia. reflexivity.
    + apply checkSessionFile_absent. exact Hfile.
  - intros fs' Hsame. rewrite poll_valid by assumption. simpl. f_equal.
    destruct (fs !! sessionFilePath sessionName) as [[raw | sessionData] |] eqn:Hfile.
    + rewrite (checkSessionFile_unparseable _ _ _ _ Hsame).
      rewrite (checkSessionFile_unparseable _ _ _ _ Hfile). reflexivity.
    + rewrite (checkSessionFile_parsed _ _ _ _ Hsame).
      rewrite (checkSessionFile_parsed _ _ _ _ Hfile). reflexivity.
    + rewrite (checkSessionFile_absent _ _ _ Hsame).
      rewrite (checkSessionFile_absent _ _ _ Hfile). reflexivity.
Qed.

End StatusProofs.

Section StatusExamples.
#[local] Existing Instance Reference.runtime.

(** C2 as stated fails on a crash record with an empty message: the poll
    reports "unknown error", not the stored (empty) message.  A query with
    an empty session name is refused before any file is looked at. *)
Lemma status_replaces_an_empty_stored_message :
  Session.status silentCrashRecord = Some "error"
  ∧ Session.error silentCrashRecord = Some ""
  ∧ (ChorusStudyStatus.serviceFunction
       (ChorusStudyStatus.mkRequest "amber_arch" (Some 1)) silentCrashFiles).1
    = Returns (ChorusStudyStatus.Error "amber_arch" "unknown error")
  ∧ (ChorusStudyStatus.serviceFunction
       (ChorusStudyStatus.mkRequest "amber_arch" (Some 1)) silentCrashFiles).1
    ≠ Returns (ChorusStudyStatus.Error "amber_arch" "")
  ∧ (ChorusStudyStatus.serviceFunction (ChorusStudyStatus.mkRequest "" (Some 1)) ∅).1
    = Throws "Missing required parameter: sessionName".
Proof.
  assert (Hpoll : (ChorusStudyStatus.serviceFunction
                     (ChorusStudyStatus.mkRequest "amber_arch" (Some 1)) silentCrashFiles).1
                  = Returns (ChorusStudyStatus.Error "amber_arch" "unknown error")).
  { rewrite poll_valid by (first [discriminate | lia]).
    unfold silentCrashFiles.
    rewrite (checkSessionFile_parsed _ _ _ silentCrashRecord) by apply lookup_singleton_eq.
    reflexivity. }
  split_and!; [reflexivity | reflexivity | exact Hpoll | | reflexivity].
  rewrite Hpoll. intros Heq. inversion Heq.
Qed.

(** The one-turn session [calm_brook], polled for turn 1. *)
Lemma status_is_read_off_the_session_file_witness :
  "calm_brook" ≠ "" ∧ 1 ≤ 1
  ∧ ∃ statusResult,
      ChorusStudyStatus.serviceFunction
        (ChorusStudyStatus.mkRequest "calm_brook" (Some 1)) oneTurnFiles
      = (Returns statusResult, oneTurnFiles)
      ∧ statusResult = ChorusStudyStatus.Complete "calm_brook" 1 (Some oneTurn).
Proof.
  split; [discriminate |]. split; [lia |].
  destruct (status_is_read_off_the_session_file oneTurnFiles "calm_brook" 1)
    as (statusResult & Hrun & Hshape & _).
  - discriminate.
  - lia.
  - exists statusResult. split; [exact Hrun |].
    unfold oneTurnFiles in Hshape. rewrite lookup_singleton_eq in Hshape.
    destruct Hshape as (turn & Hturn & ->).
    inversion Hturn. reflexivity.
Defined.

End StatusExamples.

(** ** Submission gateway: the in-flight set *)

Section GatewayProofs.
Context `{JsRuntime}.

Import SubmitChorusStudy.

Lemma firstValue_truthy key clp v :
  CommandLineParameters.firstValue key clp = Some v → v ≠ "".
Proof.
  unfold CommandLineParameters.firstValue.
  destruct (CommandLineParameters.values clp !! key) as [[| v0 rest] |]; try discriminate.
  destruct (truthy v0) eqn:Ht; [| discriminate].
  intros Heq. inversion Heq; subst. apply truthy_true. exact Ht.
Qed.

Lemma pairName_nonempty d : SessionManager.pairName d ≠ "".
Proof.
  unfold SessionManager.pairName.
  destruct (default "undefined" (SessionManager.ADJECTIVES !! d.1)); simpl; discriminate.
Qed.

Lemma tryNames_nonempty fs env attempt left name :
  SessionManager.tryNames fs env attempt left = Some name → name ≠ "".
Proof.
  revert attempt. induction left as [| left IH]; intros attempt; simpl; [discriminate |].
  destruct (existsSync fs (sessionFilePath (SessionManager.pairName (Env.draw env attempt)))).
  - apply IH.
  - intros Heq. inversion Heq. apply pairName_nonempty.
Qed.

(** A name the loop settles on has no file. *)
Lemma tryNames_fresh fs env attempt left name :
  SessionManager.tryNames fs env attempt left = Some name →
  fs !! sessionFilePath name = None.
Proof.
  revert attempt. induction left as [| left IH]; intros attempt; simpl; [discriminate |].
  destruct (existsSync fs (sessionFilePath (SessionManager.pairName (Env.draw env attempt))))
    eqn:Hex.
  - apply IH.
  - intros Heq. inversion Heq; subst. apply existsSync_false. exact Hex.
Qed.

Lemma generateSessionName_nonempty fs env : SessionManager.generateSessionName fs env ≠ "".
Proof.
  unfold SessionManager.generateSessionName.
  destruct (SessionManager.tryNames fs env 0 100) as [name |] eqn:Htry.
  - eapply tryNames_nonempty. exact Htry.
  - destruct (SessionManager.pairName (Env.draw env 100%nat)) eqn:Hp; simpl; [| discriminate].
    exfalso. eapply pairName_nonempty. exact Hp.
Qed.

Lemma determined_name_nonempty requestBody fs env name turn :
  determineSessionAndTurn requestBody fs env = Returns (name, turn) → name ≠ "".
Proof.
  unfold determineSessionAndTurn.
  destruct (CommandLineParameters.fileList requestBody); [discriminate |].
  destruct (CommandLineParameters.firstValue "sessionName" requestBody) as [provided |] eqn:Hp.
  - apply firstValue_truthy in Hp.
    destruct (existsSync fs (sessionFilePath provided));
      [destruct (SessionManager.loadSession fs provided) |];
      intros Heq; inversion Heq; subst; exact Hp.
  - intros Heq. inversion Heq; subst. apply generateSessionName_nonempty.
Qed.

(** What an accepted submission does, stage by stage. *)
Lemma serviceFunction_accepted requestBody env st ack st' :
  serviceFunction requestBody env st = (Returns ack, st') →
  ∃ turn,
    determineSessionAndTurn requestBody (files st) env = Returns (ack_sessionName ack, turn)
    ∧ turnNumber ack = turn
    ∧ (ack_sessionName ack ∉ inFlightSessions st)
    ∧ checkInFlight (ack_sessionName ack) st
      = Returns (mkState (files st) ({[ack_sessionName ack]} ∪ inFlightSessions st)
                   (children st) (spawned st))
    ∧ (ack, st')
      = spawnAskMilo requestBody (ack_sessionName ack) turn
          (mkState (files st) ({[ack_sessionName ack]} ∪ inFlightSessions st)
             (children st) (spawned st)).
Proof.
  unfold serviceFunction.
  destruct (determineSessionAndTurn requestBody (files st) env) as [[name turn] | err] eqn:Hdet;
    [| discriminate].
  unfold checkInFlight.
  destruct (bool_decide (name ∈ inFlightSessions st)) eqn:Hin; [discriminate |].
  apply bool_decide_eq_false in Hin.
  simpl. intros Heq. inversion Heq; subst; simpl.
  exists turn. split_and!; try reflexivity; [exact Hin |].
  rewrite bool_decide_eq_false_2 by exact Hin. reflexivity.
Qed.

Lemma spawned_input requestBody name turn st ack st' :
  (ack, st') = spawnAskMilo requestBody name turn st →
  name ≠ "" →
  ∃ child,
    children st' = (children st ++ [child])%list
    ∧ files st' = files st
    ∧ sessionName child = name
    ∧ CommandLineParameters.firstValue "sessionName" (askMiloInput child) = Some name
    ∧ CommandLineParameters.firstValue "resumeSession" (askMiloInput child)
      = CommandLineParameters.firstValue "resumeSession" requestBody
    ∧ CommandLineParameters.fileList (askMiloInput child)
      = CommandLineParameters.fileList requestBody
    ∧ inFlightSessions st' = inFlightSessions st.
Proof.
  unfold spawnAskMilo. intros Heq Hname. inversion Heq; subst; clear Heq.
  eexists. split; [reflexivity |]. simpl.
  unfold CommandLineParameters.firstValue. simpl.
  rewrite lookup_insert_eq. rewrite lookup_insert_ne by discriminate.
  apply truthy_true in Hname. rewrite Hname. split_and!; reflexivity.
Qed.

Lemma findChild_Some p st c :
  findChild p st = Some c → c ∈ children st ∧ pid c = p.
Proof.
  unfold findChild.
  destruct (list_find (λ c0, pid c0 = p) (children st)) as [[i x] |] eqn:Hfind;
    simpl; [| discriminate].
  intros Heq. inversion Heq; subst.
  apply list_find_Some in Hfind as (Hlook & Hpid & _).
  split; [eapply list_elem_of_lookup_2; exact Hlook | exact Hpid].
Qed.

Lemma NoDup_names_filter (P : Child → Prop) `{∀ c, Decision (P c)} (cs : list Child) :
  NoDup (sessionName <$> cs) → NoDup (sessionName <$> filter P cs).
Proof.
  induction cs as [| c cs IH]; simpl; [intros; constructor |].
  rewrite NoDup_cons. intros [Hnotin Hnd].
  rewrite filter_cons. destruct (decide (P c)); [| apply IH; exact Hnd].
  simpl. rewrite NoDup_cons. split; [| apply IH; exact Hnd].
  intros Hin. apply Hnotin.
  apply list_elem_of_fmap in Hin as (c' & Hname & Hin').
  apply list_elem_of_filter in Hin' as [_ Hin'].
  rewrite Hname. apply list_elem_of_fmap_2. exact Hin'.
Qed.

(** Two children of a list without repeated names that carry the same
    name are one child. *)
Lemma same_name_same_child (cs : list Child) c1 c2 :
  NoDup (sessionName <$> cs) → c1 ∈ cs → c2 ∈ cs →
  sessionName c1 = sessionName c2 → c1 = c2.
Proof.
  intros Hnd H1 H2 Hname.
  apply list_elem_of_lookup in H1 as [i Hi].
  apply list_elem_of_lookup in H2 as [j Hj].
  assert (i = j) as ->.
  { eapply NoDup_lookup; [exact Hnd | |].
    - rewrite list_lookup_fmap, Hi. reflexivity.
    - rewrite list_lookup_fmap, Hj. simpl. rewrite Hname. reflexivity. }
  congruence.
Qed.

Lemma guarded_initial fs : guarded (initial fs).
Proof.
  split; simpl; [constructor |]. intros c Hc. inversion Hc.
Qed.

Lemma guarded_submit requestBody env st :
  guarded st → guarded (serviceFunction requestBody env st).2.
Proof.
  intros [Hnd Hreg].
  destruct (serviceFunction requestBody env st) as [[ack | err] st'] eqn:Hrun.
  - apply serviceFunction_accepted in Hrun as (turn & Hdet & _ & Hfree & _ & Hspawn).
    unfold spawnAskMilo in Hspawn. inversion Hspawn; subst; clear Hspawn. simpl.
    split; simpl.
    + rewrite fmap_app. apply NoDup_app. split_and!; [exact Hnd | | apply NoDup_singleton].
      intros name Hin Hnew. simpl in Hnew. apply list_elem_of_singleton in Hnew. subst.
      apply list_elem_of_fmap in Hin as (c & Hname & Hc).
      apply Hfree. rewrite Hname. apply Hreg. exact Hc.
    + intros c Hc. apply elem_of_app in Hc as [Hc | Hc].
      * destruct (Hreg c Hc) as [Hin Hne].
        split; [apply elem_of_union; right; exact Hin | exact Hne].
      * apply list_elem_of_singleton in Hc. subst. simpl.
        split; [apply elem_of_union; left; apply elem_of_singleton; reflexivity |].
        eapply determined_name_nonempty. exact Hdet.
  - unfold serviceFunction in Hrun.
    destruct (determineSessionAndTurn requestBody (files st) env) as [[name turn] | e];
      [| inversion Hrun; subst; split; assumption].
    destruct (checkInFlight name st) as [st1 | e] eqn:Hcheck;
      [| inversion Hrun; subst; split; assumption].
    destruct (spawnAskMilo requestBody name turn st1). discriminate.
Qed.

Lemma guarded_stderr p chunk st : guarded st → guarded (onStderrData p chunk st).
Proof.
  intros [Hnd Hreg]. unfold onStderrData. split; simpl.
  - rewrite <- list_fmap_compose.
    erewrite list_fmap_ext; [exact Hnd |].
    intros i c _. simpl. destruct (bool_decide (pid c = p)); reflexivity.
  - intros c Hc. apply list_elem_of_fmap in Hc as (c0 & -> & Hc0).
    destruct (bool_decide (pid c0 = p)); simpl; apply Hreg; exact Hc0.
Qed.

Lemma guarded_childRun p config pipeline env st :
  guarded st → guarded (onChildRun p config pipeline env st).
Proof.
  intros Hg. unfold onChildRun. destruct (findChild p st); [| exact Hg].
  destruct Hg as [Hnd Hreg]. split; simpl; assumption.
Qed.

Lemma guarded_without p (st : State) files' c :
  guarded st → findChild p st = Some c →
  guarded (mkState files' (inFlightSessions st ∖ {[sessionName c]})
             (withoutChild p (children st)) (spawned st)).
Proof.
  intros [Hnd Hreg] Hfind. apply findChild_Some in Hfind as [Hc Hpid].
  split; simpl.
  - apply NoDup_names_filter. exact Hnd.
  - intros c' Hc'. apply list_elem_of_filter in Hc' as [Hother Hc'].
    destruct (Hreg c' Hc') as [Hin Hne]. split; [| exact Hne].
    apply elem_of_difference. split; [exact Hin |].
    intros Hsame. apply elem_of_singleton in Hsame.
    apply Hother. rewrite <- Hpid. f_equal.
    eapply same_name_same_child; eauto.
Qed.

Lemma guarded_close p code env st : guarded st → guarded (onClose p code env st).
Proof.
  intros Hg. unfold onClose. destruct (findChild p st) as [c |] eqn:Hfind; [| exact Hg].
  eapply guarded_without; eassumption.
Qed.

Lemma guarded_error p st : guarded st → guarded (onError p st).
Proof.
  intros Hg. unfold onError. destruct (findChild p st) as [c |] eqn:Hfind; [| exact Hg].
  eapply guarded_without; eassumption.
Qed.

Lemma guarded_step st ev : guarded st → guarded (step st ev).
Proof.
  destruct ev; simpl.
  - apply guarded_submit.
  - apply guarded_stderr.
  - apply guarded_childRun.
  - apply guarded_close.
  - apply guarded_error.
Qed.

Lemma guarded_runEvents st events : guarded st → guarded (runEvents st events).
Proof.
  revert st. induction events as [| ev events IH]; intros st Hg; simpl; [exact Hg |].
  apply IH. apply guarded_step. exact Hg.
Qed.

End GatewayProofs.

Section GatewayClaims.
Context `{JsRuntime}.

Import SubmitChorusStudy.

(** C5.  In every state a gateway process can reach: no two live children
    carry the same session name and every live child's name is in the
    in-flight set; a submission for a name in the set is answered with the
    duplicate-in-flight error and leaves the state (set, children, files)
    as it was; an accepted submission registers the name in stage 2 and
    only then spawns the child in stage 3; and the close and the error
    handler take the name out of the set and the child off the list. *)
Theorem at_most_one_turn_in_flight (fs : FileSystem) (events : list Event) :
  let st := runEvents (initial fs) events in
  (NoDup (sessionName <$> children st)
   ∧ ∀ c, c ∈ children st → sessionName c ∈ inFlightSessions st)
  ∧ (∀ requestBody env name turn,
       determineSessionAndTurn requestBody (files st) env = Returns (name, turn) →
       name ∈ inFlightSessions st →
       serviceFunction requestBody env st
       = (Throws ("Session " +:+ quote +:+ name +:+ quote +:+ " already has a turn in progress"),
          st))
  ∧ (∀ requestBody env ack st',
       serviceFunction requestBody env st = (Returns ack, st') →
       ∃ registered child,
         checkInFlight (ack_sessionName ack) st = Returns registered
         ∧ ack_sessionName ack ∈ inFlightSessions registered
         ∧ children registered = children st
         ∧ (ack, st') = spawnAskMilo requestBody (ack_sessionName ack) (turnNumber ack) registered
         ∧ children st' = (children st ++ [child])%list
         ∧ sessionName child = ack_sessionName ack
         ∧ inFlightSessions st' = inFlightSessions registered)
  ∧ (∀ p c code env,
       findChild p st = Some c →
       (sessionName c ∉ inFlightSessions (onClose p code env st))
       ∧ (c ∉ children (onClose p code env st))
       ∧ (sessionName c ∉ inFlightSessions (onError p st))
       ∧ (c ∉ children (onError p st))).
Proof.
  intros st.
  assert (Hg : guarded st) by (apply guarded_runEvents, guarded_initial).
  split_and!.
  - apply Hg.
  - intros c Hc. apply Hg. exact Hc.
  - intros requestBody env name turn Hdet Hin.
    unfold serviceFunction, checkInFlight. rewrite Hdet.
    rewrite bool_decide_eq_true_2 by exact Hin. reflexivity.
  - intros requestBody env ack st' Hrun.
    apply serviceFunction_accepted in Hrun as (turn & Hdet & Hturn & Hfree & Hcheck & Hspawn).
    subst turn.
    destruct (spawned_input _ _ _ _ _ _ Hspawn (determined_name_nonempty _ _ _ _ _ Hdet))
      as (child & Hchildren & _ & Hname & _ & _ & _ & Hinflight).
    eexists. exists child. split; [exact Hcheck |].
    split_and!; simpl;
      [ apply elem_of_union; left; apply elem_of_singleton; reflexivity
      | reflexivity | exact Hspawn | exact Hchildren | exact Hname | exact Hinflight ].
  - intros p c code env Hfind.
    unfold onClose, onError. rewrite Hfind. simpl.
    apply findChild_Some in Hfind as [Hc Hpid].
    assert (Hgone : c ∉ withoutChild p (children st)).
    { unfold withoutChild. rewrite list_elem_of_filter. intros [Hne _]. apply Hne. exact Hpid. }
    assert (Hout : sessionName c ∉ inFlightSessions st ∖ {[sessionName c]}).
    { intros Hin. apply elem_of_difference in Hin as [_ Hnot].
      apply Hnot, elem_of_singleton. reflexivity. }
    split_and!; [exact Hout | exact Hgone | exact Hout | exact Hgone].
Qed.


(** C8.  An accepted submission that names a session is acknowledged
    under that name with the number of turns the session has on file plus
    1; one that names none is acknowledged under the generated name with
    turn number 1; and whenever the acknowledged session has no file yet
    the turn number is 1. *)
Theorem acknowledged_turn_is_stored_count_plus_one
    (requestBody : CommandLineParameters.t) (env : Env.t) (st st' : State)
    (ack : SubmissionAck) :
  serviceFunction requestBody env st = (Returns ack, st') →
  status ack = "accepted"
  ∧ (∀ provided,
       CommandLineParameters.firstValue "sessionName" requestBody = Some provided →
       ack_sessionName ack = provided
       ∧ turnNumber ack = Z.of_nat (storedTurnCount (files st) provided) + 1)
  ∧ (CommandLineParameters.firstValue "sessionName" requestBody = None →
       ack_sessionName ack = SessionManager.generateSessionName (files st) env
       ∧ turnNumber ack = 1)
  ∧ (files st !! sessionFilePath (ack_sessionName ack) = None → turnNumber ack = 1).
Proof.
  intros Hrun.
  apply serviceFunction_accepted in Hrun as (turn & Hdet & Hturn & _ & _ & Hspawn).
  assert (Hstatus : status ack = "accepted").
  { unfold spawnAskMilo in Hspawn. inversion Hspawn. reflexivity. }
  subst turn. unfold determineSessionAndTurn in Hdet.
  destruct (CommandLineParameters.fileList requestBody); [discriminate |].
  destruct (CommandLineParameters.firstValue "sessionName" requestBody) as [provided |].
  - assert (Hres : ack_sessionName ack = provided
                   ∧ turnNumber ack = Z.of_nat (storedTurnCount (files st) provided) + 1).
    { unfold storedTurnCount. unfold SessionManager.loadSession in Hdet.
      destruct (existsSync (files st) (sessionFilePath provided)) eqn:Hex.
      - apply existsSync_true in Hex as [content Hcontent].
        rewrite Hcontent in Hdet. rewrite Hcontent.
        destruct content as [raw | existing]; inversion Hdet; split; reflexivity.
      - apply existsSync_false in Hex. rewrite Hex.
        inversion Hdet; split; reflexivity. }
    destruct Hres as [Hname Hnum].
    split_and!.
    + exact Hstatus.
    + intros provided' Hp. inversion Hp; subst provided'. split; assumption.
    + discriminate.
    + intros Hnone. rewrite Hnum. unfold storedTurnCount.
      rewrite Hname in Hnone. rewrite Hnone. reflexivity.
  - inversion Hdet as [[Hname Hnum]].
    split_and!; [exact Hstatus | discriminate | intros _; split; reflexivity | reflexivity].
Qed.

End GatewayClaims.

Section GatewayExamples.
#[local] Existing Instance Reference.runtime.

Import SubmitChorusStudy.

Lemma namedRequest_sessionName :
  CommandLineParameters.firstValue "sessionName" namedRequest = Some "calm_brook".
Proof. vm_compute. reflexivity. Qed.


(** The same submission again, while the first child is alive. *)
Example duplicate_submission_is_refused :
  serviceFunction namedRequest quietEnv
    (mkState ∅ ({["calm_brook"]} ∪ ∅) [namedChild] 1)
  = (Throws ("Session " +:+ quote +:+ "calm_brook" +:+ quote
               +:+ " already has a turn in progress"),
     mkState ∅ ({["calm_brook"]} ∪ ∅) [namedChild] 1).
Proof.
  unfold serviceFunction, determineSessionAndTurn.
  rewrite namedRequest_sessionName.
  change (CommandLineParameters.fileList namedRequest) with ["Compare X and Y"].
  assert (Hnone : existsSync (files (mkState ∅ ({["calm_brook"]} ∪ ∅) [namedChild] 1))
                    (sessionFilePath "calm_brook") = false)
    by (apply existsSync_false, lookup_empty).
  rewrite Hnone.
  unfold checkInFlight.
  rewrite bool_decide_eq_true_2; [reflexivity |].
  cbn [inFlightSessions].
  apply (proj2 (elem_of_union _ _ _)). left. apply elem_of_singleton. reflexivity.
Qed.


(** A submission naming the one-turn session [calm_brook] is acknowledged
    with turn number 2. *)
Lemma second_submission :
  serviceFunction namedRequest quietEnv (initial oneTurnFiles)
  = (Returns
       (mkAck "accepted" "calm_brook" 2
          ("/api/chorusStudyStatus?sessionName=" +:+ encodeURIComponent "calm_brook"
             +:+ "&turnNumber=" +:+ pretty 2)
          (perspectivesOf namedRequest * 120)
          "Wait 5 minutes before first check, then every 60 seconds."),
     mkState oneTurnFiles ({["calm_brook"]} ∪ ∅) [namedChild] 1).
Proof.
  unfold serviceFunction, determineSessionAndTurn.
  rewrite namedRequest_sessionName.
  change (CommandLineParameters.fileList namedRequest) with ["Compare X and Y"].
  assert (Hfile : oneTurnFiles !! sessionFilePath "calm_brook"
                  = Some (SessionJson oneTurnSession)) by apply lookup_singleton_eq.
  assert (Hsome : existsSync (files (initial oneTurnFiles)) (sessionFilePath "calm_brook")
                  = true) by (apply existsSync_true; simpl; rewrite Hfile; eauto).
  rewrite Hsome.
  unfold SessionManager.loadSession. simpl files. rewrite Hfile.
  unfold checkInFlight.
  rewrite bool_decide_eq_false_2 by apply not_elem_of_empty.
  reflexivity.
Qed.

Lemma acknowledged_turn_is_stored_count_plus_one_witness :
  ∃ ack st',
    serviceFunction namedRequest quietEnv (initial oneTurnFiles) = (Returns ack, st')
    ∧ ack_sessionName ack = "calm_brook"
    ∧ turnNumber ack
      = Z.of_nat (storedTurnCount (files (initial oneTurnFiles)) "calm_brook") + 1.
Proof.
  eexists. eexists. split; [exact second_submission |].
  destruct (acknowledged_turn_is_stored_count_plus_one _ _ _ _ _ second_submission)
    as (_ & Hnamed & _ & _).
  apply Hnamed. exact namedRequest_sessionName.
Defined.

End GatewayExamples.

(** ** A submission that names an existing session *)

Section OverwriteProofs.
Context `{JsRuntime}.

Import SubmitChorusStudy.

Lemma resolveResume_none fs clp :
  withoutResume clp → AskMilo.resolveResume fs clp = (None, clp).
Proof. unfold withoutResume, AskMilo.resolveResume. intros ->. reflexivity. Qed.

Lemma thisTurn_number config originalPrompt out turnNumber env :
  Turn.turnNumber (AskMilo.thisTurn config originalPrompt out turnNumber env) = turnNumber.
Proof.
  unfold AskMilo.thisTurn. destruct (Config.perspectives config =? 0); reflexivity.
Qed.









End OverwriteProofs.

Section OverwriteExamples.
#[local] Existing Instance Reference.runtime.

Import SubmitChorusStudy.

Lemma namedRequest_withoutResume : withoutResume namedRequest.
Proof. unfold withoutResume. vm_compute. reflexivity. Qed.


End OverwriteExamples.

(** ** Session store: the session's total cost *)

Section TotalCostProofs.
Context `{JsRuntime}.

(** A new session carries its one turn's cost, in all three fields. *)
Lemma createNewSession_totalCost sessionName commandLineParameters config turn env cost :
  Turn.totalCost turn = Some cost →
  let session :=
    SessionManager.createNewSession sessionName commandLineParameters config turn env in
  Session.turns session = Some [turn]
  ∧ Session.totalCost session
    = Some (SessionCost.mk (Cost.usd cost) (Some (Cost.inputTokens cost))
              (Some (Cost.outputTokens cost)))
  ∧ turnsInputTokens [turn] = Cost.inputTokens cost
  ∧ turnsOutputTokens [turn] = Cost.outputTokens cost.
Proof.
  intros Hcost. unfold SessionManager.createNewSession, turnsInputTokens, turnsOutputTokens.
  simpl. rewrite Hcost. simpl. split_and!; reflexivity.
Qed.

(** After an append the session's [totalCost] has the dollars of all its
    turns, summed as the code sums them, and no token field. *)
Lemma appendTurnToSession_totalCost session turn turns :
  Session.turns session = Some turns →
  ∃ session',
    SessionManager.appendTurnToSession session turn = Returns session'
    ∧ Session.turns session' = Some (turns ++ [turn])%list
    ∧ Session.totalCost session'
      = Some (SessionCost.mk (SessionManager.sumTurnsUsd (turns ++ [turn])%list) None None).
Proof.
  intros Hturns. unfold SessionManager.appendTurnToSession. rewrite Hturns.
  eexists. split_and!; reflexivity.
Qed.

End TotalCostProofs.

Section TotalCostExamples.
#[local] Existing Instance Reference.runtime.

(** C7, on the code.  Appending a turn of cost 1/2 tokens to the session
    whose one turn cost 10/20 tokens leaves a [totalCost] with neither
    [inputTokens] nor [outputTokens], where the two turns add up to 11 and
    22. *)
Theorem appendTurnToSession_drops_the_token_totals :
  ∃ session',
    SessionManager.appendTurnToSession oneTurnSession secondTurn = Returns session'
    ∧ Session.turns session' = Some [oneTurn; secondTurn]
    ∧ (SessionCost.inputTokens <$> Session.totalCost session') = Some None
    ∧ (SessionCost.outputTokens <$> Session.totalCost session') = Some None
    ∧ turnsInputTokens [oneTurn; secondTurn] = 11
    ∧ turnsOutputTokens [oneTurn; secondTurn] = 22.
Proof.
  destruct (appendTurnToSession_totalCost oneTurnSession secondTurn [oneTurn] eq_refl)
    as (session' & Happend & Hturns & Htotal).
  exists session'. rewrite Htotal.
  split_and!; [exact Happend | exact Hturns | reflexivity | reflexivity | reflexivity
              | reflexivity].
Qed.

End TotalCostExamples.

(** ** Expansion *)

Section ExpansionProofs.
Context `{JsRuntime}.

Lemma mockInstructions_length originalPrompt i left :
  length (MockApi.mockInstructions originalPrompt i left) = left.
Proof.
  revert i. induction left as [| left IH]; intros i; simpl; [reflexivity |].
  rewrite IH. reflexivity.
Qed.

Lemma mockInstructions_ids originalPrompt i left idx instruction :
  MockApi.mockInstructions originalPrompt i left !! idx = Some instruction →
  Instruction.id instruction = i + Z.of_nat idx.
Proof.
  revert i idx. induction left as [| left IH]; intros i idx; simpl; [discriminate |].
  destruct idx as [| idx]; simpl.
  - intros Heq. inversion Heq. simpl. lia.
  - intros Hlook. rewrite (IH _ _ Hlook). lia.
Qed.

Lemma onMessage_success jsonParse acc message :
  successResult message →
  ExpandSdk.onMessage jsonParse acc message
  = match ExpandSdk.payload jsonParse message with
    | None => Throws "SyntaxError"
    | Some d => Returns (default [] (ExpansionData.instructions d), SdkMessage.costOf message)
    end.
Proof.
  intros [Htype Hsub]. unfold ExpandSdk.onMessage. rewrite Htype. simpl.
  rewrite bool_decide_eq_true_2 by exact Hsub. reflexivity.
Qed.

(** What the loop returns is what it started with or what one success
    result of the stream carried. *)
Lemma consume_returns jsonParse messages acc instructions cost :
  ExpandSdk.consume jsonParse acc messages = Returns (instructions, cost) →
  (instructions, cost) = acc
  ∨ ∃ message data,
      message ∈ messages ∧ successResult message
      ∧ ExpandSdk.payload jsonParse message = Some data
      ∧ instructions = default [] (ExpansionData.instructions data)
      ∧ cost = SdkMessage.costOf message.
Proof.
  revert acc. induction messages as [| message rest IH]; intros acc; simpl.
  - intros Heq. inversion Heq. left. reflexivity.
  - destruct (ExpandSdk.onMessage jsonParse acc message) as [acc' | e] eqn:Hstep;
      [| discriminate].
    intros Hrest. destruct (IH _ Hrest) as [Hsame | (m & d & Hin & Hm & Hp & Hi & Hc)].
    + unfold ExpandSdk.onMessage in Hstep.
      destruct (String.eqb_spec (SdkMessage.type message) "result") as [Htype | Htype].
      * destruct (bool_decide (SdkMessage.subtype message = Some "success")) eqn:Hsub;
          [| discriminate].
        apply bool_decide_eq_true in Hsub.
        destruct (ExpandSdk.payload jsonParse message) as [d |] eqn:Hp; [| discriminate].
        injection Hstep as Hacc. rewrite <- Hacc in Hsame. injection Hsame as Hi Hc.
        right. exists message, d. split_and!.
        -- apply list_elem_of_here.
        -- split; assumption.
        -- exact Hp.
        -- exact Hi.
        -- exact Hc.
      * injection Hstep as Hacc. left. rewrite Hacc. exact Hsame.
    + right. exists m, d. split_and!; try assumption. apply list_elem_of_further. exact Hin.
Qed.

(** A success result whose payload does not parse stops the loop. *)
Lemma consume_throws_on_unparseable jsonParse messages acc message :
  message ∈ messages → successResult message →
  ExpandSdk.payload jsonParse message = None →
  ∃ e, ExpandSdk.consume jsonParse acc messages = Throws e.
Proof.
  intros Hin Hm Hp. revert acc.
  induction Hin as [message rest | message other rest Hin IH]; intros acc; simpl.
  - rewrite (onMessage_success _ _ _ Hm), Hp. eexists. reflexivity.
  - destruct (ExpandSdk.onMessage jsonParse acc other) as [acc' | e];
      [apply IH; assumption | eexists; reflexivity].
Qed.

Lemma consume_app jsonParse l1 l2 acc :
  ExpandSdk.consume jsonParse acc (l1 ++ l2)
  = match ExpandSdk.consume jsonParse acc l1 with
    | Throws e => Throws e
    | Returns acc' => ExpandSdk.consume jsonParse acc' l2
    end.
Proof.
  revert acc. induction l1 as [| message l1 IH]; intros acc; simpl; [reflexivity |].
  destruct (ExpandSdk.onMessage jsonParse acc message); [apply IH | reflexivity].
Qed.

(** C9, as the code has it.  Under the mock, expansion returns exactly N
    instructions with ids 1..N and calls nothing.  Otherwise it calls the
    SDK's [query] once, whatever the outcome, and what it returns is the
    instruction list carried by a success result of that one stream, which
    is not empty; nothing compares that list with N.  A success result
    whose payload does not parse makes it throw, and so does a stream that
    ends on a success result carrying no instructions. *)
Theorem expand_returns_the_instructions_of_the_payload
    (originalPrompt : string) (config : Config.t)
    (jsonParse : string → option ExpansionData.t)
    (query : nat → SdkStream.t) (calls : nat) :
  (Config.mockApi config = true →
     ∃ instructions cost,
       ExpandSdk.expand originalPrompt config jsonParse query calls
       = (Returns (instructions, cost), calls)
       ∧ length instructions = Z.to_nat (Config.perspectives config)
       ∧ ∀ idx instruction, instructions !! idx = Some instruction →
           Instruction.id instruction = Z.of_nat idx + 1)
  ∧ (Config.mockApi config = false →
     let outcome := (ExpandSdk.expand originalPrompt config jsonParse query calls).1 in
     let messages := SdkStream.messages (query calls) in
     (ExpandSdk.expand originalPrompt config jsonParse query calls).2 = S calls
     ∧ (∀ instructions cost, outcome = Returns (instructions, cost) →
          instructions ≠ []
          ∧ ∃ message data,
              message ∈ messages ∧ successResult message
              ∧ ExpandSdk.payload jsonParse message = Some data
              ∧ instructions = default [] (ExpansionData.instructions data)
              ∧ cost = SdkMessage.costOf message)
     ∧ (∀ message, message ∈ messages → successResult message →
          ExpandSdk.payload jsonParse message = None →
          ∃ e, outcome = Throws e)
     ∧ (∀ earlier message data, messages = (earlier ++ [message])%list →
          successResult message →
          ExpandSdk.payload jsonParse message = Some data →
          default [] (ExpansionData.instructions data) = [] →
          ∃ e, outcome = Throws e)).
Proof.
  split.
  - intros Hmock. unfold ExpandSdk.expand. rewrite Hmock.
    eexists. eexists. split; [reflexivity |]. split.
    + apply mockInstructions_length.
    + intros idx instruction Hlook.
      rewrite (mockInstructions_ids _ _ _ _ _ Hlook). lia.
  - intros Hmock. unfold ExpandSdk.expand. rewrite Hmock. simpl.
    split; [reflexivity |]. split_and!.
    + intros instructions cost.
      destruct (ExpandSdk.consume jsonParse ([], Cost.zero) (SdkStream.messages (query calls)))
        as [[instructions' cost'] | e] eqn:Hloop; [| discriminate].
      destruct (SdkStream.failure (query calls)); [discriminate |].
      destruct instructions' as [| first rest]; [discriminate |].
      intros Heq. inversion Heq; subst. split; [discriminate |].
      destruct (consume_returns _ _ _ _ _ Hloop) as [Hsame | Hfrom]; [discriminate | exact Hfrom].
    + intros message Hin Hm Hp.
      destruct (consume_throws_on_unparseable jsonParse _ ([], Cost.zero) _ Hin Hm Hp)
        as [e He].
      rewrite He. eexists. reflexivity.
    + intros earlier message data Hmessages Hm Hp Hzero.
      rewrite Hmessages, consume_app.
      destruct (ExpandSdk.consume jsonParse ([], Cost.zero) earlier) as [acc' | e];
        [| eexists; reflexivity].
      simpl. rewrite (onMessage_success _ _ _ Hm), Hp, Hzero.
      destruct (SdkStream.failure (query calls)); eexists; reflexivity.
Qed.

(** The direct driver behaves alike: one request, and a returned list is
    never empty. *)
Lemma expandDirect_returns_nonempty originalPrompt config jsonParse api calls :
  Config.mockApi config = false →
  (ExpandDirect.expand originalPrompt config jsonParse api calls).2 = S calls
  ∧ ∀ instructions cost,
      (ExpandDirect.expand originalPrompt config jsonParse api calls).1
      = Returns (instructions, cost) →
      instructions ≠ [].
Proof.
  intros Hmock. unfold ExpandDirect.expand. rewrite Hmock. simpl.
  split; [reflexivity |]. intros instructions cost.
  destruct (api calls) as [reason | response]; [discriminate |].
  destruct (ExpandDirect.pickJsonText (textParts (Response.content response)));
    [| discriminate].
  match goal with |- context [jsonParse ?t] => destruct (jsonParse t) as [data |] end;
    [| discriminate].
  destruct (default [] (ExpansionData.instructions data)) as [| first rest];
    [discriminate |].
  intros Heq. inversion Heq. discriminate.
Qed.

End ExpansionProofs.

Section ExpansionExamples.
#[local] Existing Instance Reference.runtime.

(** C9 as stated fails when the model answers with one instruction,
    numbered 7, where three were asked for: expansion returns that one
    instruction. *)
Lemma expand_returns_fewer_than_asked :
  Config.perspectives threeWanted = 3
  ∧ (ExpandSdk.expand "Compare X and Y" threeWanted (λ _, None) (λ _, loneStream) 0).1
    = Returns ([loneInstruction], SdkMessage.costOf loneAnswer)
  ∧ length [loneInstruction] ≠ 3%nat
  ∧ Instruction.id loneInstruction = 7.
Proof.
  split_and!; [reflexivity | | discriminate | reflexivity].
  unfold ExpandSdk.expand. cbn [Config.mockApi threeWanted]. cbn [fst].
  unfold loneStream at 1. cbn [SdkStream.messages ExpandSdk.consume].
  rewrite (onMessage_success (λ _, None) ([], Cost.zero) loneAnswer) by (split; reflexivity).
  reflexivity.
Qed.

End ExpansionExamples.

(** ** The tool-use loop *)

Section ToolLoopProofs.
Context `{JsRuntime}.

Import SingleCallTools.

Lemma usagesOf_app api (log1 log2 : CallLog) :
  usagesOf api (log1 ++ log2)%list = (usagesOf api log1 ++ usagesOf api log2)%list.
Proof. unfold usagesOf. apply omap_app. Qed.

Lemma usagesOf_answered api messages response :
  api messages = ApiAnswers response →
  usagesOf api [messages] = [Response.usage response].
Proof. intros Hanswer. unfold usagesOf. simpl. rewrite Hanswer. reflexivity. Qed.

(** The loop, from any point of a run: it sends at most as many requests
    as it has iterations left, and the cost it returns is the one it started
    with plus the usage of every request it sent. *)
Lemma toolLoop_accounts api toolHandler model left :
  ∀ messages totalCost log,
    ∃ sent,
      (toolLoop api toolHandler model messages totalCost log left).2 = (log ++ sent)%list
      ∧ (length sent ≤ left)%nat
      ∧ (∀ text cost,
           (toolLoop api toolHandler model messages totalCost log left).1
           = Returns (text, cost) →
           cost = foldl (λ total usage, accumulateCost total usage model) totalCost
                    (usagesOf api sent))
      ∧ ((∀ conversation, ∃ response,
            api conversation = ApiAnswers response
            ∧ Response.stop_reason response = "tool_use") →
         length sent = left
         ∧ ∃ cost,
             (toolLoop api toolHandler model messages totalCost log left).1
             = Returns (maxIterationsText, cost)).
Proof.
  induction left as [| left IH]; intros messages totalCost log.
  - exists []. simpl. rewrite app_nil_r. split_and!; [reflexivity | lia | |].
    + intros text cost Heq. inversion Heq. reflexivity.
    + intros _. split; [reflexivity |]. eexists. reflexivity.
  - simpl. destruct (api messages) as [reason | response] eqn:Hanswer.
    + exists [messages]. simpl. split_and!; [reflexivity | lia | discriminate |].
      intros Hall. destruct (Hall messages) as (response & Hanswer' & _). congruence.
    + destruct (String.eqb_spec (Response.stop_reason response) "tool_use") as [Hstop | Hstop];
        simpl.
      * match goal with
        | |- context [toolLoop api toolHandler model ?m ?c ?l left] =>
            destruct (IH m c l) as (sent & Hlog & Hlen & Hcost & Hcap)
        end.
        exists (messages :: sent). split_and!.
        -- rewrite Hlog, <- app_assoc. reflexivity.
        -- simpl. lia.
        -- intros text cost Heq. rewrite (Hcost _ _ Heq).
           change (messages :: sent) with ([messages] ++ sent)%list.
           rewrite usagesOf_app, (usagesOf_answered _ _ _ Hanswer). reflexivity.
        -- intros Hall. destruct (Hcap Hall) as [Hfull Hmax].
           split; [simpl; rewrite Hfull; reflexivity | exact Hmax].
      * exists [messages]. simpl. split_and!; [reflexivity | lia | |].
        -- intros text cost Heq. inversion Heq. rewrite Hanswer. reflexivity.
        -- intros Hall. destruct (Hall messages) as (response' & Hanswer' & Hstop').
           rewrite Hanswer in Hanswer'. inversion Hanswer'; subst. contradiction.
Qed.

(** C10, as the code has it.  A tool-enabled single call that is not
    mocked always returns or rejects after at most 10 requests to the API.
    When it returns, its cost is the usage of every request it sent,
    accumulated from zero.  When the model asks for tools at every turn, it
    sends exactly 10 requests and returns the text
    "[MAX TOOL ITERATIONS REACHED (10)] ...".  Under the mock no request is
    sent and the canned answer and cost of [mockSingleCall] come back. *)
Theorem singleCallWithTools_is_bounded_and_accounts
    (prompt systemPrompt : string) (sessionContext : option string)
    (config : Config.t) (api : Api) (toolHandler : string → string → ToolOutput) :
  let run := singleCallWithTools prompt systemPrompt sessionContext config api toolHandler in
  (Config.mockApi config = false →
     (length run.2 ≤ MAX_TOOL_ITERATIONS)%nat
     ∧ MAX_TOOL_ITERATIONS = 10%nat
     ∧ (∀ text cost, run.1 = Returns (text, cost) →
          cost = accumulated (Config.agentModel config) (usagesOf api run.2))
     ∧ ((∀ conversation, ∃ response,
           api conversation = ApiAnswers response
           ∧ Response.stop_reason response = "tool_use") →
        length run.2 = 10%nat
        ∧ ∃ cost, run.1 = Returns (maxIterationsText, cost)))
  ∧ (Config.mockApi config = true →
     run = (Returns (MockApi.mockSingleCall prompt systemPrompt config), [])).
Proof.
  intros run. subst run. unfold singleCallWithTools. split.
  - intros Hmock. rewrite Hmock.
    match goal with
    | |- context [toolLoop api toolHandler ?model ?m ?c ?l MAX_TOOL_ITERATIONS] =>
        destruct (toolLoop_accounts api toolHandler model MAX_TOOL_ITERATIONS m c l)
          as (sent & Hlog & Hlen & Hcost & Hcap)
    end.
    rewrite Hlog. simpl app. split_and!.
    + exact Hlen.
    + reflexivity.
    + intros text cost Heq. apply (Hcost _ _ Heq).
    + intros Hall. destruct (Hcap Hall) as [Hfull Hmax]. split; assumption.
  - intros Hmock. rewrite Hmock. reflexivity.
Qed.

End ToolLoopProofs.

Section ToolLoopExamples.
#[local] Existing Instance Reference.runtime.

Import SingleCallTools.

(** C10 as stated fails under the mock: no iteration is performed, no
    request is sent, and the returned cost is 100 input and 200 output
    tokens, not the zero that no usage accumulates to. *)
Lemma mocked_call_returns_a_canned_cost :
  ∃ text cost,
    singleCallWithTools "What is SIF?" "You are helpful." None mockedConfig alwaysSearching
      echoTool
    = (Returns (text, cost), [])
    ∧ Cost.inputTokens cost = 100
    ∧ Cost.outputTokens cost = 200
    ∧ Cost.inputTokens (accumulated (Config.agentModel mockedConfig)
                          (usagesOf alwaysSearching []))
      = 0
    ∧ cost ≠ accumulated (Config.agentModel mockedConfig) (usagesOf alwaysSearching []).
Proof.
  eexists. eexists. split; [reflexivity |].
  split_and!; [reflexivity | reflexivity | reflexivity |].
  intros Heq. apply (f_equal Cost.inputTokens) in Heq. discriminate Heq.
Qed.

(** A model that asks for a search at every turn is cut off after ten
    requests, 100 input and 50 output tokens in all. *)
Lemma singleCallWithTools_is_bounded_and_accounts_witness :
  Config.mockApi liveConfig = false
  ∧ ∃ cost,
      (singleCallWithTools "What is SIF?" "You are helpful." None liveConfig alwaysSearching
         echoTool).1
      = Returns (maxIterationsText, cost)
      ∧ length (singleCallWithTools "What is SIF?" "You are helpful." None liveConfig
                  alwaysSearching echoTool).2
        = 10%nat.
Proof.
  split; [reflexivity |].
  destruct (singleCallWithTools_is_bounded_and_accounts "What is SIF?" "You are helpful."
              None liveConfig alwaysSearching echoTool) as [Hlive _].
  destruct (Hlive eq_refl) as (_ & _ & _ & Hcap).
  destruct Hcap as [Hfull [cost Hmax]].
  - intros conversation. eexists. split; reflexivity.
  - exists cost. split; [exact Hmax | exact Hfull].
Defined.

End ToolLoopExamples.


(** * Further properties of the code *)

(** ** Paths

    [path.join] normalises: a name written with [./] or through [..]
    has the file of the plain name. *)

Section PathExamples.
#[local] Existing Instance Reference.runtime.

Example sessionFilePath_of_a_plain_name :
  sessionFilePath "calm_brook"
  = "/Users/milo/Library/Application Support/askMilo/sessions/calm_brook.json".
Proof. vm_compute. reflexivity. Qed.

Example names_with_one_file :
  sessionFilePath "./calm_brook" = sessionFilePath "calm_brook"
  ∧ sessionFilePath "a/../calm_brook" = sessionFilePath "calm_brook".
Proof. split; vm_compute; reflexivity. Qed.

Lemma calm_brook_is_not_deep_lake :
  sessionFilePath "calm_brook" ≠ sessionFilePath "deep_lake".
Proof. intros Heq. vm_compute in Heq. discriminate Heq. Qed.

End PathExamples.

(** ** Session store: save, load, delete, rename *)

Section StoreProofs.
Context `{JsRuntime}.


(** Deleting a session whose path has no file throws and names the
    session; deleting one whose path has a file removes the file at that
    path and no other, after which a second delete throws, under that name
    and under every name with the same path. *)
Theorem deleteSession_removes_one_file (fs : FileSystem) (name : string) :
  (fs !! sessionFilePath name = None →
     SessionManager.deleteSession fs name = Throws (SessionManager.notFoundMessage name))
  ∧ (is_Some (fs !! sessionFilePath name) →
     ∃ fs' : FileSystem,
       SessionManager.deleteSession fs name = Returns fs'
       ∧ fs' !! sessionFilePath name = None
       ∧ (∀ alias, sessionFilePath alias = sessionFilePath name →
            SessionManager.deleteSession fs' alias
            = Throws (SessionManager.notFoundMessage alias))
       ∧ ∀ filePath, filePath ≠ sessionFilePath name → fs' !! filePath = fs !! filePath).
Proof.
  unfold SessionManager.deleteSession, SessionManager.unlinkSync. split.
  - intros Hnone. apply existsSync_false in Hnone. rewrite Hnone. reflexivity.
  - intros Hsome. apply existsSync_true in Hsome. rewrite Hsome. simpl.
    eexists. split; [reflexivity |]. split_and!.
    + apply lookup_delete_eq.
    + intros alias Hsame.
      assert (Hgone : existsSync (delete (sessionFilePath name) fs) (sessionFilePath alias)
                      = false)
        by (apply existsSync_false; rewrite Hsame; apply lookup_delete_eq).
      rewrite Hgone. reflexivity.
    + intros filePath Hne. apply lookup_delete_ne. congruence.
Qed.

(** A rename is refused when the old name has no file, when the new name
    already has one (renaming a session to its own name included), and
    when the old file does not parse. *)
Theorem renameSession_refusals (fs : FileSystem) (env : Env.t) (oldName newName : string) :
  (fs !! sessionFilePath oldName = None →
     SessionManager.renameSession fs env oldName newName
     = Throws (SessionManager.notFoundMessage oldName))
  ∧ (is_Some (fs !! sessionFilePath oldName) → is_Some (fs !! sessionFilePath newName) →
     ∃ message, SessionManager.renameSession fs env oldName newName = Throws message)
  ∧ (is_Some (fs !! sessionFilePath oldName) →
     ∃ message, SessionManager.renameSession fs env oldName oldName = Throws message)
  ∧ (∀ raw, fs !! sessionFilePath oldName = Some (Unparseable raw) →
     ∃ message, SessionManager.renameSession fs env oldName newName = Throws message).
Proof.
  unfold SessionManager.renameSession. split_and!.
  - intros Hnone. apply existsSync_false in Hnone. rewrite Hnone. reflexivity.
  - intros Hold Hnew. apply existsSync_true in Hold, Hnew. rewrite Hold, Hnew. simpl.
    eexists. reflexivity.
  - intros Hold. apply existsSync_true in Hold. rewrite Hold. simpl.
    eexists. reflexivity.
  - intros raw Hraw.
    assert (Hold : existsSync fs (sessionFilePath oldName) = true)
      by (apply existsSync_true; rewrite Hraw; eauto).
    rewrite Hold. simpl.
    destruct (existsSync fs (sessionFilePath newName)); [eexists; reflexivity |].
    rewrite Hraw. eexists. reflexivity.
Qed.


Lemma tryNames_exhausted (fs : FileSystem) env attempt left :
  SessionManager.tryNames fs env attempt left = None →
  ∀ k, (k < left)%nat →
    is_Some (fs !! sessionFilePath (SessionManager.pairName (Env.draw env (attempt + k)%nat))).
Proof.
  revert attempt. induction left as [| left IH]; intros attempt; simpl; [intros _ k Hk; lia |].
  destruct (existsSync fs (sessionFilePath (SessionManager.pairName (Env.draw env attempt))))
    eqn:Hex; [| discriminate].
  intros Hrest [| k] Hk.
  - rewrite Nat.add_0_r. apply existsSync_true. exact Hex.
  - replace (attempt + S k)%nat with (S attempt + k)%nat by lia.
    apply IH; [exact Hrest | lia].
Qed.

(** A generated name is not empty and belongs to no existing session,
    unless each of the 100 names drawn was taken; only then does the
    unchecked timestamp fallback come back. *)
Theorem generated_name_is_unused (fs : FileSystem) (env : Env.t) :
  SessionManager.generateSessionName fs env ≠ ""
  ∧ (fs !! sessionFilePath (SessionManager.generateSessionName fs env) = None
     ∨ ((∀ attempt, (attempt < 100)%nat →
           is_Some (fs !! sessionFilePath (SessionManager.pairName (Env.draw env attempt))))
        ∧ SessionManager.generateSessionName fs env
          = SessionManager.pairName (Env.draw env 100%nat) +:+ "_" +:+ pretty (Env.nowMs env))).
Proof.
  split; [apply generateSessionName_nonempty |].
  unfold SessionManager.generateSessionName.
  destruct (SessionManager.tryNames fs env 0 100) as [name |] eqn:Htry.
  - left. eapply tryNames_fresh. exact Htry.
  - right. split; [| reflexivity].
    intros attempt Hlt. apply (tryNames_exhausted fs env 0%nat 100 Htry attempt Hlt).
Qed.

End StoreProofs.

Section StoreExamples.
#[local] Existing Instance Reference.runtime.


(** [./calm_brook] is the session [calm_brook]: it loads its record, a
    rename of one to the other is refused because the new name is taken,
    and deleting the one leaves nothing to load under the other. *)
Example an_alias_is_the_same_session :
  SessionManager.loadSession oneTurnFiles "./calm_brook" = Returns oneTurnSession
  ∧ (∃ message,
       SessionManager.renameSession oneTurnFiles quietEnv "calm_brook" "./calm_brook"
       = Throws message)
  ∧ ∃ fs' : FileSystem,
      SessionManager.deleteSession oneTurnFiles "./calm_brook" = Returns fs'
      ∧ ∃ message, SessionManager.loadSession fs' "calm_brook" = Throws message.
Proof.
  destruct names_with_one_file as [Halias _].
  assert (Hfile : oneTurnFiles !! sessionFilePath "calm_brook"
                  = Some (SessionJson oneTurnSession)) by apply lookup_singleton_eq.
  assert (Hex : existsSync oneTurnFiles (sessionFilePath "calm_brook") = true)
    by (apply existsSync_true; rewrite Hfile; eauto).
  split_and!.
  - unfold SessionManager.loadSession. rewrite Halias, Hfile. reflexivity.
  - unfold SessionManager.renameSession. rewrite Halias, Hex. simpl. eexists. reflexivity.
  - unfold SessionManager.deleteSession, SessionManager.unlinkSync.
    rewrite Halias, Hex. simpl. eexists. split; [reflexivity |].
    unfold SessionManager.loadSession. rewrite lookup_delete_eq. eexists. reflexivity.
Qed.

End StoreExamples.

(** ** Session store: turns and context *)

Section TurnProofs.
Context `{JsRuntime}.

Lemma foldl_add_from {A} (f : A → Z) (l : list A) (a : Z) :
  foldl (λ s x, s + f x) a l = a + foldr Z.add 0 (f <$> l).
Proof.
  revert a. induction l as [| x l IH]; intros a; [simpl; lia |].
  rewrite fmap_cons. cbn [foldl foldr]. rewrite IH. lia.
Qed.

(** A chorus turn built from the stage outputs has one perspective entry
    per result, in the order and under the ids, perspectives and findings
    of the results; its token totals are the expansion's plus the sum over
    all results plus the synthesis's, a missing part counting 0; and it has
    a synthesis field exactly when a non-empty synthesis text was
    produced. *)
Theorem buildTurnFromResults_shape_and_totals
    (originalPrompt : string) (instructions : option (list Instruction.t))
    (results : option (list PerspectiveResult.t)) (expandCost : option Cost.t)
    (synthesis : option string) (synthesisCost : option Cost.t)
    (elapsedSeconds : num) (turnNumber : Z) (env : Env.t) :
  let turn :=
    SessionManager.buildTurnFromResults originalPrompt instructions results expandCost
      synthesis synthesisCost elapsedSeconds turnNumber env in
  Turn.turnNumber turn = turnNumber
  ∧ Turn.prompt turn = originalPrompt
  ∧ (∃ entries,
       Turn.perspectives turn = Some entries
       ∧ length entries = length (default [] results)
       ∧ PerspectiveEntry.id <$> entries = PerspectiveResult.id <$> default [] results
       ∧ PerspectiveEntry.perspective <$> entries
         = PerspectiveResult.perspective <$> default [] results
       ∧ PerspectiveEntry.findings <$> entries
         = PerspectiveResult.findings <$> default [] results)
  ∧ (∃ total,
       Turn.totalCost turn = Some total
       ∧ Cost.inputTokens total
         = default 0 (Cost.inputTokens <$> expandCost)
           + foldr Z.add 0 ((λ r, Cost.inputTokens (PerspectiveResult.cost r))
                              <$> default [] results)
           + default 0 (Cost.inputTokens <$> synthesisCost)
       ∧ Cost.outputTokens total
         = default 0 (Cost.outputTokens <$> expandCost)
           + foldr Z.add 0 ((λ r, Cost.outputTokens (PerspectiveResult.cost r))
                              <$> default [] results)
           + default 0 (Cost.outputTokens <$> synthesisCost))
  ∧ (Turn.synthesis turn = None ↔ synthesis = None ∨ synthesis = Some "").
Proof.
  intros turn. subst turn. unfold SessionManager.buildTurnFromResults. simpl.
  split_and!; try reflexivity.
  - eexists. split; [reflexivity |].
    rewrite length_fmap, <- !list_fmap_compose. split_and!; reflexivity.
  - eexists. split; [reflexivity |]. simpl.
    unfold SessionManager.sumInputTokens, SessionManager.sumOutputTokens.
    destruct results as [results |]; simpl; [| split; reflexivity].
    rewrite !foldl_add_from. split; lia.
  - destruct synthesis as [text |]; [| split; [left; reflexivity | reflexivity]].
    unfold truthy. destruct (String.eqb_spec text "") as [-> | Hne]; simpl.
    + split; [intros _; right; reflexivity | reflexivity].
    + split; [discriminate |]. intros [Hnone | Hempty]; [discriminate |]. congruence.
Qed.

Lemma join_starts_nonempty (sep first : string) (rest : list string) :
  first ≠ "" → join sep (first :: rest) ≠ "".
Proof.
  intros Hne. destruct first as [| c first]; [congruence |].
  destruct rest; simpl; discriminate.
Qed.

(** The context handed to a resumed run is never empty, so it is always
    injected; and appending a turn to a session extends the lines of its
    context by the lines of that turn, leaving the earlier lines as they
    were. *)
Theorem buildSessionContext_grows_by_turn (session : Session.t) (turn : Turn.t) :
  truthy (SessionManager.buildSessionContext session) = true
  ∧ ∀ session',
      SessionManager.appendTurnToSession session turn = Returns session' →
      SessionManager.contextLines session'
      = (SessionManager.contextLines session ++ SessionManager.turnLines turn)%list.
Proof.
  split.
  - apply truthy_true. unfold SessionManager.buildSessionContext, SessionManager.contextLines.
    apply join_starts_nonempty. discriminate.
  - intros session'. unfold SessionManager.appendTurnToSession.
    destruct (Session.turns session) as [turns |] eqn:Hturns; [| discriminate].
    intros Heq. inversion Heq; subst; clear Heq.
    unfold SessionManager.contextLines. simpl. rewrite Hturns. simpl.
    rewrite fmap_app, concat_app. simpl. rewrite app_nil_r. reflexivity.
Qed.

End TurnProofs.

(** ** askMilo: resumed runs and what a run writes *)

Section ResumeProofs.
Context `{JsRuntime}.

Lemma resolveResume_found (fs : FileSystem) clp name stored :
  CommandLineParameters.firstValue "resumeSession" clp = Some name →
  fs !! sessionFilePath name = Some (SessionJson stored) →
  AskMilo.resolveResume fs clp = (Some stored, clp).
Proof.
  intros Hname Hfile. unfold AskMilo.resolveResume, SessionManager.loadSession.
  rewrite Hname, Hfile. reflexivity.
Qed.

(** What a resumed run saves. *)
Lemma resumed_run_saves (fs : FileSystem) clp config originalPrompt out env name stored turns :
  CommandLineParameters.firstValue "resumeSession" clp = Some name →
  fs !! sessionFilePath name = Some (SessionJson stored) →
  Session.turns stored = Some turns →
  Config.noSave config = false →
  ∃ saved turn,
    AskMilo.run fs clp config originalPrompt (Returns out) env
    = (<[sessionFilePath (Session.sessionName stored) := SessionJson saved]> fs, 0)
    ∧ Session.sessionName saved = Session.sessionName stored
    ∧ Session.turns saved = Some (turns ++ [turn])%list
    ∧ Turn.turnNumber turn = Z.of_nat (length turns) + 1
    ∧ Session.status saved = Session.status stored
    ∧ Session.error saved = Session.error stored.
Proof.
  intros Hname Hfile Hturns Hsave. unfold AskMilo.run.
  rewrite (resolveResume_found _ _ _ _ Hname Hfile).
  unfold AskMilo.sessionSave, AskMilo.sessionToSave, AskMilo.nextTurnNumber.
  rewrite Hsave, Hturns. unfold SessionManager.appendTurnToSession. rewrite Hturns.
  unfold SessionManager.saveSession, writeFileSync. simpl.
  eexists. eexists. split; [reflexivity |]. simpl.
  split_and!; try reflexivity. apply thisTurn_number.
Qed.

(** A run that resumes a stored session of k turns and succeeds saves
    k + 1 turns under the record's own name: the k stored turns, in order
    and unchanged, then the new one, numbered k + 1.  If the stored turns
    were numbered 1..k, the saved ones are numbered 1..k+1. *)
Theorem resumed_run_appends_the_next_turn
    (fs : FileSystem) (commandLineParameters : CommandLineParameters.t) (config : Config.t)
    (originalPrompt : string) (out : AskMilo.StageOutputs) (env : Env.t)
    (name : string) (stored : Session.t) (turns : list Turn.t) :
  CommandLineParameters.firstValue "resumeSession" commandLineParameters = Some name →
  fs !! sessionFilePath name = Some (SessionJson stored) →
  Session.turns stored = Some turns →
  Config.noSave config = false →
  ∃ saved turn,
    AskMilo.run fs commandLineParameters config originalPrompt (Returns out) env
    = (<[sessionFilePath (Session.sessionName stored) := SessionJson saved]> fs, 0)
    ∧ Session.turns saved = Some (turns ++ [turn])%list
    ∧ Turn.turnNumber turn = Z.of_nat (length turns) + 1
    ∧ ((∀ i t, turns !! i = Some t → Turn.turnNumber t = Z.of_nat i + 1) →
       ∀ i t, (turns ++ [turn])%list !! i = Some t → Turn.turnNumber t = Z.of_nat i + 1).
Proof.
  intros Hname Hfile Hturns Hsave.
  destruct (resumed_run_saves fs commandLineParameters config originalPrompt out env name
              stored turns Hname Hfile Hturns Hsave)
    as (saved & turn & Hrun & _ & Hsaved & Hnumber & _ & _).
  exists saved, turn. split_and!; [exact Hrun | exact Hsaved | exact Hnumber |].
  intros Hcontiguous i t Hlook.
  apply lookup_app_Some in Hlook as [Hold | [Hlen Hnew]].
  - apply Hcontiguous. exact Hold.
  - destruct (i - length turns)%nat as [| j] eqn:Hj; simpl in Hnew; [| discriminate].
    inversion Hnew; subst t. rewrite Hnumber. lia.
Qed.

(** The poll of the turn a resumed run appended, when the record carried
    no error marker. *)
Lemma resumed_run_polls_complete (fs : FileSystem) clp config originalPrompt out env name
    stored turns :
  CommandLineParameters.firstValue "resumeSession" clp = Some name →
  fs !! sessionFilePath name = Some (SessionJson stored) →
  Session.turns stored = Some turns →
  Config.noSave config = false →
  Session.sessionName stored ≠ "" →
  Session.status stored ≠ Some "error" →
  ∃ turn, Turn.turnNumber turn = Z.of_nat (length turns) + 1
    ∧ (ChorusStudyStatus.serviceFunction
         (ChorusStudyStatus.mkRequest (Session.sessionName stored)
            (Some (Z.of_nat (length turns) + 1)))
         (AskMilo.run fs clp config originalPrompt (Returns out) env).1).1
      = Returns (ChorusStudyStatus.Complete (Session.sessionName stored)
                   (Z.of_nat (length turns) + 1) (Some turn)).
Proof.
  intros Hname Hfile Hturns Hsave Hnonempty Hok.
  destruct (resumed_run_saves fs clp config originalPrompt out env name
              stored turns Hname Hfile Hturns Hsave)
    as (saved & turn & Hrun & _ & Hsaved & Hnumber & Hstatus & Herror).
  rewrite Hrun. rewrite poll_valid by (assumption || lia). simpl.
  rewrite (checkSessionFile_parsed _ _ _ saved) by apply lookup_insert_eq.
  rewrite Hstatus, Hsaved. rewrite bool_decide_eq_false_2 by exact Hok.
  exists turn. split; [exact Hnumber |]. simpl.
  rewrite length_app. simpl.
  destruct (Z.geb_spec (Z.of_nat (length turns + 1)) (Z.of_nat (length turns) + 1))
    as [_ | Hlt]; [| lia].
  replace (Z.to_nat (Z.of_nat (length turns) + 1 - 1)) with (length turns + 0)%nat by lia.
  rewrite lookup_app_r by lia.
  replace (length turns + 0 - length turns)%nat with 0%nat by lia. reflexivity.
Qed.

(** After such a run the poll of turn k + 1 answers complete with the
    new turn, unless the resumed record carried the error marker: the
    marker is saved back with the record, and the poll keeps answering
    error although the turn was appended. *)
Theorem poll_after_a_resumed_run
    (fs : FileSystem) (commandLineParameters : CommandLineParameters.t) (config : Config.t)
    (originalPrompt : string) (out : AskMilo.StageOutputs) (env : Env.t)
    (name : string) (stored : Session.t) (turns : list Turn.t) :
  CommandLineParameters.firstValue "resumeSession" commandLineParameters = Some name →
  fs !! sessionFilePath name = Some (SessionJson stored) →
  Session.turns stored = Some turns →
  Config.noSave config = false →
  Session.sessionName stored ≠ "" →
  let afterRun :=
    (AskMilo.run fs commandLineParameters config originalPrompt (Returns out) env).1 in
  let next := Z.of_nat (length turns) + 1 in
  let answer :=
    (ChorusStudyStatus.serviceFunction
       (ChorusStudyStatus.mkRequest (Session.sessionName stored) (Some next)) afterRun).1 in
  (Session.status stored ≠ Some "error" →
     ∃ turn, Turn.turnNumber turn = next
       ∧ answer
         = Returns (ChorusStudyStatus.Complete (Session.sessionName stored) next (Some turn)))
  ∧ (Session.status stored = Some "error" →
     answer
     = Returns (ChorusStudyStatus.Error (Session.sessionName stored)
                  (orElse (Session.error stored) "unknown error"))).
Proof.
  intros Hname Hfile Hturns Hsave Hnonempty afterRun next answer. split.
  - intros Hok. unfold answer, afterRun, next.
    eapply resumed_run_polls_complete; eassumption.
  - intros Hmarked.
    destruct (resumed_run_saves fs commandLineParameters config originalPrompt out env name
                stored turns Hname Hfile Hturns Hsave)
      as (saved & turn & Hrun & _ & Hsaved & Hnumber & Hstatus & Herror).
    unfold answer, afterRun. rewrite Hrun.
    rewrite poll_valid by (assumption || (unfold next; lia)). simpl.
    rewrite (checkSessionFile_parsed _ _ _ saved) by apply lookup_insert_eq.
    rewrite Hstatus, Herror. rewrite bool_decide_eq_true_2 by exact Hmarked. reflexivity.
Qed.


Lemma restoreThrows_unknown (fs : FileSystem) clp name :
  CommandLineParameters.firstValue "resumeSession" clp = Some name →
  (∀ stored, fs !! sessionFilePath name ≠ Some (SessionJson stored)) →
  AskMilo.restoreThrows fs clp = AskMilo.switchSet "restoreSwitches" clp.
Proof.
  intros Hname Hnofile. unfold AskMilo.restoreThrows, SessionManager.loadSession.
  rewrite Hname.
  destruct (fs !! sessionFilePath name) as [[raw | stored] |] eqn:Hfile;
    [reflexivity | exfalso; eapply Hnofile; reflexivity | reflexivity].
Qed.





End ResumeProofs.

Section ResumeExamples.
#[local] Existing Instance Reference.runtime.

Lemma resumingRequest_resumes :
  CommandLineParameters.firstValue "resumeSession" resumingRequest = Some "calm_brook".
Proof. vm_compute. reflexivity. Qed.


(** The one-turn session [calm_brook] is resumed: the run saves the stored
    turn and a second one, numbered 2. *)
Lemma resumed_run_appends_the_next_turn_witness :
  ∃ saved turn,
    AskMilo.run oneTurnFiles resumingRequest chorusConfig "And in practice?"
      (Returns chorusOutputs) quietEnv
    = (<[sessionFilePath "calm_brook" := SessionJson saved]> oneTurnFiles, 0)
    ∧ Session.turns saved = Some [oneTurn; turn]
    ∧ Turn.turnNumber turn = 2.
Proof.
  destruct (resumed_run_appends_the_next_turn oneTurnFiles resumingRequest chorusConfig
              "And in practice?" chorusOutputs quietEnv "calm_brook" oneTurnSession [oneTurn])
    as (saved & turn & Hrun & Hturns & Hnumber & _).
  - exact resumingRequest_resumes.
  - apply lookup_singleton_eq.
  - reflexivity.
  - reflexivity.
  - exists saved, turn. split_and!; [exact Hrun | exact Hturns | exact Hnumber].
Defined.

(** The poll of turn 2 of [calm_brook] after that run answers complete. *)
Lemma poll_after_a_resumed_run_witness :
  ∃ turn, Turn.turnNumber turn = 2
    ∧ (ChorusStudyStatus.serviceFunction
         (ChorusStudyStatus.mkRequest "calm_brook" (Some 2))
         (AskMilo.run oneTurnFiles resumingRequest chorusConfig "And in practice?"
            (Returns chorusOutputs) quietEnv).1).1
      = Returns (ChorusStudyStatus.Complete "calm_brook" 2 (Some turn)).
Proof.
  destruct (poll_after_a_resumed_run oneTurnFiles resumingRequest chorusConfig
              "And in practice?" chorusOutputs quietEnv "calm_brook" oneTurnSession [oneTurn])
    as [Hcomplete _].
  - exact resumingRequest_resumes.
  - apply lookup_singleton_eq.
  - reflexivity.
  - reflexivity.
  - discriminate.
  - apply Hcomplete. discriminate.
Defined.



(** The same request with [-restoreSwitches]: exit code 1, nothing
    written. *)
Example restoring_an_unknown_name_dies :
  AskMilo.main oneTurnFiles strayRestore true (Returns chorusConfig) "And in practice?"
    (Returns chorusOutputs) quietEnv
  = (oneTurnFiles, 1).
Proof.
  unfold AskMilo.main.
  change (AskMilo.command strayRestore) with AskMilo.Ask.
  assert (Hthrows : AskMilo.restoreThrows oneTurnFiles strayRestore = true).
  { rewrite (restoreThrows_unknown oneTurnFiles strayRestore "deep_lake").
    - vm_compute. reflexivity.
    - vm_compute. reflexivity.
    - intros stored. unfold oneTurnFiles.
      rewrite lookup_singleton_ne by exact calm_brook_is_not_deep_lake. discriminate. }
  rewrite Hthrows. reflexivity.
Qed.


End ResumeExamples.

(** ** Status poller: what it refuses, and how answers for one session relate *)

Section PollProofs.
Context `{JsRuntime}.

Import ChorusStudyStatus.

(** The poller refuses a request without a session name, and one whose
    turn number is missing, not a number, zero or negative; it reads no
    file and changes none in doing so. *)
Theorem poll_refuses_bad_requests (fs : FileSystem) (name : string) (turn : option Z) :
  serviceFunction (mkRequest "" turn) fs
  = (Throws "Missing required parameter: sessionName", fs)
  ∧ (name ≠ "" →
     serviceFunction (mkRequest name None) fs
     = (Throws "Missing or invalid parameter: turnNumber (must be >= 1)", fs)
     ∧ ∀ n, n < 1 →
         serviceFunction (mkRequest name (Some n)) fs
         = (Throws "Missing or invalid parameter: turnNumber (must be >= 1)", fs)).
Proof.
  split; [reflexivity |]. intros Hname. apply truthy_true in Hname.
  unfold serviceFunction, validate. simpl. rewrite Hname. simpl. split; [reflexivity |].
  intros n Hn. replace (n <? 1) with true by lia. rewrite orb_true_r. reflexivity.
Qed.

Lemma poll_returns_validated (fs : FileSystem) name t answer :
  (serviceFunction (mkRequest name (Some t)) fs).1 = Returns answer →
  name ≠ "" ∧ 1 ≤ t ∧ answer = (checkSessionFile fs name t).1.
Proof.
  unfold serviceFunction, validate. simpl.
  destruct (truthy name) eqn:Hname; simpl; [| discriminate].
  destruct ((t =? 0) || (t <? 1)) eqn:Ht; simpl; [discriminate |].
  apply orb_false_iff in Ht as [_ Ht].
  destruct (checkSessionFile fs name t) as [result fs'] eqn:Hcheck. simpl.
  intros Heq. inversion Heq; subst. split_and!; [apply truthy_true; exact Hname | lia |].
  reflexivity.
Qed.

(** When the poll of turn t of a session answers complete, the poll of
    every earlier turn of that session answers complete too, and each of
    these answers carries a turn. *)
Theorem complete_covers_the_earlier_turns
    (fs : FileSystem) (name : string) (t : Z) (answeredName : string) (answeredTurn : Z)
    (turn : option Turn.t) :
  (serviceFunction (mkRequest name (Some t)) fs).1
  = Returns (Complete answeredName answeredTurn turn) →
  ∀ earlier, 1 ≤ earlier ≤ t →
    ∃ stored, (serviceFunction (mkRequest name (Some earlier)) fs).1
              = Returns (Complete name earlier (Some stored)).
Proof.
  intros Hpoll earlier Hearlier.
  apply poll_returns_validated in Hpoll as (Hname & Ht & Hanswer).
  rewrite poll_valid by (assumption || lia). simpl.
  destruct (fs !! sessionFilePath name) as [[raw | sessionData] |] eqn:Hfile.
  - rewrite (checkSessionFile_unparseable _ _ _ _ Hfile) in Hanswer. discriminate.
  - rewrite (checkSessionFile_parsed _ _ _ _ Hfile) in Hanswer.
    rewrite (checkSessionFile_parsed _ _ _ _ Hfile).
    destruct (bool_decide (Session.status sessionData = Some "error")); [discriminate |].
    destruct (Z.geb_spec (Z.of_nat (length (default [] (Session.turns sessionData)))) t)
      as [Hlen | Hlen]; [| discriminate].
    destruct (Z.geb_spec (Z.of_nat (length (default [] (Session.turns sessionData)))) earlier)
      as [_ | Hshort]; [| lia].
    destruct (lookup_lt_is_Some_2 (default [] (Session.turns sessionData))
                (Z.to_nat (earlier - 1))) as [stored Hstored]; [lia |].
    exists stored. rewrite Hstored. reflexivity.
  - rewrite (checkSessionFile_absent _ _ _ Hfile) in Hanswer. discriminate.
Qed.

(** An answer of running reports fewer completed turns than the turn
    asked for, and that number is the number of turns on file. *)
Theorem running_reports_the_turns_on_file
    (fs : FileSystem) (name : string) (t : Z) (answeredName : string) (answeredTurn : Z)
    (turnsCompleted : nat) :
  (serviceFunction (mkRequest name (Some t)) fs).1
  = Returns (Running answeredName answeredTurn turnsCompleted) →
  turnsCompleted = storedTurnCount fs name ∧ Z.of_nat turnsCompleted < t
  ∧ answeredName = name ∧ answeredTurn = t.
Proof.
  intros Hpoll. apply poll_returns_validated in Hpoll as (Hname & Ht & Hanswer).
  unfold storedTurnCount.
  destruct (fs !! sessionFilePath name) as [[raw | sessionData] |] eqn:Hfile.
  - rewrite (checkSessionFile_unparseable _ _ _ _ Hfile) in Hanswer. discriminate.
  - rewrite (checkSessionFile_parsed _ _ _ _ Hfile) in Hanswer.
    destruct (bool_decide (Session.status sessionData = Some "error")); [discriminate |].
    destruct (Z.geb_spec (Z.of_nat (length (default [] (Session.turns sessionData)))) t)
      as [Hlen | Hlen]; [discriminate |].
    inversion Hanswer; subst. split_and!; try reflexivity. lia.
  - rewrite (checkSessionFile_absent _ _ _ Hfile) in Hanswer.
    inversion Hanswer; subst. split_and!; try reflexivity. simpl. lia.
Qed.

End PollProofs.

Section PollExamples.
#[local] Existing Instance Reference.runtime.

Import ChorusStudyStatus.

Lemma poll_of_the_stored_turn :
  (serviceFunction (mkRequest "calm_brook" (Some 1)) oneTurnFiles).1
  = Returns (Complete "calm_brook" 1 (Some oneTurn)).
Proof.
  rewrite poll_valid by (discriminate || lia). simpl.
  rewrite (checkSessionFile_parsed oneTurnFiles "calm_brook" 1 oneTurnSession)
    by apply lookup_singleton_eq.
  reflexivity.
Qed.

Lemma poll_of_the_missing_turn :
  (serviceFunction (mkRequest "calm_brook" (Some 2)) oneTurnFiles).1
  = Returns (Running "calm_brook" 2 1).
Proof.
  rewrite poll_valid by (discriminate || lia). simpl.
  rewrite (checkSessionFile_parsed oneTurnFiles "calm_brook" 2 oneTurnSession)
    by apply lookup_singleton_eq.
  reflexivity.
Qed.

(** Turn 1 of the one-turn session [calm_brook] is complete. *)
Lemma complete_covers_the_earlier_turns_witness :
  ∃ stored, (serviceFunction (mkRequest "calm_brook" (Some 1)) oneTurnFiles).1
            = Returns (Complete "calm_brook" 1 (Some stored)).
Proof.
  apply (complete_covers_the_earlier_turns oneTurnFiles "calm_brook" 1 "calm_brook" 1
           (Some oneTurn) poll_of_the_stored_turn 1).
  lia.
Defined.

(** Turn 2 of [calm_brook] is polled while one turn is stored. *)
Lemma running_reports_the_turns_on_file_witness :
  1%nat = storedTurnCount oneTurnFiles "calm_brook" ∧ Z.of_nat 1 < 2
  ∧ "calm_brook" = "calm_brook" ∧ 2 = 2.
Proof.
  apply (running_reports_the_turns_on_file oneTurnFiles "calm_brook" 2 "calm_brook" 2 1%nat
           poll_of_the_missing_turn).
Defined.

End PollExamples.

(** ** Gateway: what a submission comes to, and what the handlers leave alone *)

Section SubmissionProofs.
Context `{JsRuntime}.

Import SubmitChorusStudy.

(** A submission with a prompt that names a session not in flight is
    accepted. *)
Lemma named_submission_is_accepted requestBody env st name :
  CommandLineParameters.fileList requestBody ≠ [] →
  CommandLineParameters.firstValue "sessionName" requestBody = Some name →
  name ∉ inFlightSessions st →
  ∃ ack st' child,
    serviceFunction requestBody env st = (Returns ack, st')
    ∧ ack_sessionName ack = name
    ∧ turnNumber ack = Z.of_nat (storedTurnCount (files st) name) + 1
    ∧ files st' = files st
    ∧ children st' = (children st ++ [child])%list
    ∧ sessionName child = name
    ∧ CommandLineParameters.firstValue "resumeSession" (askMiloInput child)
      = CommandLineParameters.firstValue "resumeSession" requestBody
    ∧ CommandLineParameters.fileList (askMiloInput child)
      = CommandLineParameters.fileList requestBody
    ∧ pid child = spawned st.
Proof.
  intros Hprompt Hname Hfree.
  assert (Hdet : determineSessionAndTurn requestBody (files st) env
                 = Returns (name, Z.of_nat (storedTurnCount (files st) name) + 1)).
  { unfold determineSessionAndTurn, storedTurnCount, SessionManager.loadSession.
    destruct (CommandLineParameters.fileList requestBody); [contradiction |].
    rewrite Hname.
    destruct (files st !! sessionFilePath name) as [[raw | session] |] eqn:Hfile.
    - rewrite (proj2 (existsSync_true _ _)) by (rewrite Hfile; eauto). reflexivity.
    - rewrite (proj2 (existsSync_true _ _)) by (rewrite Hfile; eauto). reflexivity.
    - rewrite (proj2 (existsSync_false _ _) Hfile). reflexivity. }
  unfold serviceFunction, checkInFlight. rewrite Hdet.
  rewrite bool_decide_eq_false_2 by exact Hfree.
  unfold spawnAskMilo.
  eexists. eexists. eexists. split; [reflexivity |]. simpl.
  do 3 (split; [reflexivity |]). split; [reflexivity |]. simpl.
  unfold CommandLineParameters.firstValue. simpl.
  rewrite lookup_insert_ne by discriminate.
  split_and!; reflexivity.
Qed.

(** A submission is refused for two reasons only: it carries no prompt,
    whatever else it says and whatever is in flight, or its session is in
    flight.  A refused submission leaves the gateway as it was: nothing is
    registered, spawned or written. *)
Theorem submission_is_refused_for_two_reasons_only
    (requestBody : CommandLineParameters.t) (env : Env.t) (st : State) :
  (CommandLineParameters.fileList requestBody = [] →
     serviceFunction requestBody env st
     = (Throws "Missing prompt: fileList must contain at least one element", st))
  ∧ ∀ err st', serviceFunction requestBody env st = (Throws err, st') →
      st' = st
      ∧ ((CommandLineParameters.fileList requestBody = []
          ∧ err = "Missing prompt: fileList must contain at least one element")
         ∨ ∃ name turn,
             determineSessionAndTurn requestBody (files st) env = Returns (name, turn)
             ∧ name ∈ inFlightSessions st
             ∧ err = "Session " +:+ quote +:+ name +:+ quote
                       +:+ " already has a turn in progress").
Proof.
  split.
  - intros Hempty. unfold serviceFunction, determineSessionAndTurn. rewrite Hempty.
    reflexivity.
  - intros err st'. unfold serviceFunction.
    destruct (determineSessionAndTurn requestBody (files st) env) as [[name turn] | e] eqn:Hdet.
    + unfold checkInFlight.
      destruct (bool_decide (name ∈ inFlightSessions st)) eqn:Hin; [| discriminate].
      apply bool_decide_eq_true in Hin.
      intros Heq. inversion Heq; subst. split; [reflexivity |].
      right. exists name, turn. split_and!; [reflexivity | exact Hin | reflexivity].
    + intros Heq. inversion Heq; subst. split; [reflexivity |]. left.
      unfold determineSessionAndTurn in Hdet.
      destruct (CommandLineParameters.fileList requestBody);
        [inversion Hdet; split; reflexivity |].
      destruct (CommandLineParameters.firstValue "sessionName" requestBody) as [provided |];
        [| discriminate].
      destruct (existsSync (files st') (sessionFilePath provided)); [| discriminate].
      destruct (SessionManager.loadSession (files st') provided); discriminate.
Qed.

(** The close and the error handler of one child leave every other child
    on the list, every other registered name in the set and every other
    file as it is; a close with code 0 and the error handler write no
    file at all. *)
Theorem handlers_touch_their_own_child_only
    (p : nat) (code : option Z) (env : Env.t) (st : State) :
  (∀ other, other ∈ children st → pid other ≠ p →
     other ∈ children (onClose p code env st) ∧ other ∈ children (onError p st))
  ∧ (∀ name, name ∈ inFlightSessions st →
       (∀ c, findChild p st = Some c → name ≠ sessionName c) →
       name ∈ inFlightSessions (onClose p code env st)
       ∧ name ∈ inFlightSessions (onError p st))
  ∧ (∀ c filePath, findChild p st = Some c →
       filePath ≠ sessionFilePath (sessionName c) →
       files (onClose p code env st) !! filePath = files st !! filePath)
  ∧ (code = Some 0 → files (onClose p code env st) = files st)
  ∧ files (onError p st) = files st.
Proof.
  unfold onClose, onError.
  destruct (findChild p st) as [c |] eqn:Hfind; simpl.
  - split_and!.
    + intros other Hin Hpid. unfold withoutChild.
      split; apply list_elem_of_filter; split; assumption.
    + intros name Hin Hother.
      split; apply elem_of_difference; (split; [exact Hin |]);
        intros Hsame; apply elem_of_singleton in Hsame; apply (Hother c eq_refl); exact Hsame.
    + intros c' filePath Hc' Hne. inversion Hc'; subst c'.
      destruct (bool_decide (code = Some 0)); [reflexivity |].
      unfold writeFileSync. apply lookup_insert_ne. congruence.
    + intros ->. reflexivity.
    + reflexivity.
  - split_and!; try reflexivity.
    + intros other Hin _. split; exact Hin.
    + intros name Hin _. split; exact Hin.
Qed.

(** Once a child has closed or failed to spawn, a submission that names
    its session and carries a prompt is accepted again.  After a close
    with a code other than 0 it is acknowledged with turn number 1,
    however many turns the session had on file: the crash record holds
    none. *)
Theorem a_closed_session_accepts_again
    (requestBody : CommandLineParameters.t) (env env' : Env.t) (st : State)
    (p : nat) (c : Child) (code : option Z) :
  findChild p st = Some c →
  CommandLineParameters.fileList requestBody ≠ [] →
  CommandLineParameters.firstValue "sessionName" requestBody = Some (sessionName c) →
  (∃ ack st', serviceFunction requestBody env' (onClose p code env st) = (Returns ack, st')
     ∧ ack_sessionName ack = sessionName c
     ∧ (code ≠ Some 0 → turnNumber ack = 1))
  ∧ (∃ ack st', serviceFunction requestBody env' (onError p st) = (Returns ack, st')
       ∧ ack_sessionName ack = sessionName c).
Proof.
  intros Hfind Hprompt Hname.
  assert (Hout : sessionName c ∉ inFlightSessions st ∖ {[sessionName c]}).
  { intros Hin. apply elem_of_difference in Hin as [_ Hnot].
    apply Hnot, elem_of_singleton. reflexivity. }
  split.
  - destruct (named_submission_is_accepted requestBody env' (onClose p code env st)
                (sessionName c) Hprompt Hname)
      as (ack & st' & child & Hrun & Hack & Hturn & _).
    { unfold onClose. rewrite Hfind. exact Hout. }
    exists ack, st'. split_and!; [exact Hrun | exact Hack |].
    intros Hcode. rewrite Hturn. unfold storedTurnCount, onClose. rewrite Hfind. simpl.
    rewrite bool_decide_eq_false_2 by exact Hcode.
    unfold writeFileSync. rewrite lookup_insert_eq. reflexivity.
  - destruct (named_submission_is_accepted requestBody env' (onError p st)
                (sessionName c) Hprompt Hname)
      as (ack & st' & child & Hrun & Hack & _).
    { unfold onError. rewrite Hfind. exact Hout. }
    exists ack, st'. split; assumption.
Qed.

(** A follow-up through the gateway, end to end: a submission that names
    a stored session of k turns and asks to resume it is acknowledged
    with turn number k + 1, and once its child has run to success the poll
    of the acknowledged turn answers complete with a turn of that
    number. *)
Theorem a_resumed_submission_completes_its_turn
    (requestBody : CommandLineParameters.t) (env childEnv : Env.t) (st : State)
    (name : string) (stored : Session.t) (turns : list Turn.t)
    (config : Config.t) (out : AskMilo.StageOutputs) :
  CommandLineParameters.fileList requestBody ≠ [] →
  CommandLineParameters.firstValue "sessionName" requestBody = Some name →
  CommandLineParameters.firstValue "resumeSession" requestBody = Some name →
  name ∉ inFlightSessions st →
  files st !! sessionFilePath name = Some (SessionJson stored) →
  Session.sessionName stored = name →
  Session.turns stored = Some turns →
  Session.status stored ≠ Some "error" →
  Config.noSave config = false →
  ∃ ack st' child turn,
    serviceFunction requestBody env st = (Returns ack, st')
    ∧ children st' = (children st ++ [child])%list
    ∧ turnNumber ack = Z.of_nat (length turns) + 1
    ∧ Turn.turnNumber turn = turnNumber ack
    ∧ (ChorusStudyStatus.serviceFunction
         (ChorusStudyStatus.mkRequest (ack_sessionName ack) (Some (turnNumber ack)))
         (AskMilo.run (files st') (askMiloInput child) config
            (join " " (CommandLineParameters.fileList (askMiloInput child)))
            (Returns out) childEnv).1).1
      = Returns (ChorusStudyStatus.Complete name (turnNumber ack) (Some turn)).
Proof.
  intros Hprompt Hname Hresume Hfree Hfile Hown Hturns Hok Hsave.
  destruct (named_submission_is_accepted requestBody env st name Hprompt Hname Hfree)
    as (ack & st' & child & Hrun & Hack & Hturn & Hfiles & Hchildren & _ & Hinput & _).
  assert (Hnumber : turnNumber ack = Z.of_nat (length turns) + 1).
  { rewrite Hturn. unfold storedTurnCount. rewrite Hfile, Hturns. reflexivity. }
  rewrite Hresume in Hinput. rewrite <- Hfiles in Hfile.
  assert (Hnonempty : Session.sessionName stored ≠ "")
    by (rewrite Hown; eapply firstValue_truthy; exact Hname).
  destruct (resumed_run_polls_complete (files st') (askMiloInput child) config
              (join " " (CommandLineParameters.fileList (askMiloInput child)))
              out childEnv name stored turns Hinput Hfile Hturns Hsave Hnonempty Hok)
    as (turn & Hturnnumber & Hpoll).
  exists ack, st', child, turn.
  rewrite Hack, Hnumber. rewrite Hown in Hpoll.
  split_and!; [exact Hrun | exact Hchildren | reflexivity | exact Hturnnumber | exact Hpoll].
Qed.





End SubmissionProofs.

Section SubmissionExamples.
#[local] Existing Instance Reference.runtime.

Import SubmitChorusStudy.

Lemma followUpRequest_names :
  CommandLineParameters.firstValue "sessionName" followUpRequest = Some "calm_brook"
  ∧ CommandLineParameters.firstValue "resumeSession" followUpRequest = Some "calm_brook".
Proof. split; vm_compute; reflexivity. Qed.

(** The child of a submission to the one-turn session [calm_brook] exits
    with code 1; the same submission is then accepted again, and
    acknowledged with turn number 1. *)
Lemma a_closed_session_accepts_again_witness :
  ∃ ack st',
    serviceFunction namedRequest quietEnv
      (onClose 0 (Some 1) quietEnv
         (mkState oneTurnFiles ({["calm_brook"]} ∪ ∅) [namedChild] 1))
    = (Returns ack, st')
    ∧ ack_sessionName ack = "calm_brook"
    ∧ turnNumber ack = 1.
Proof.
  destruct (a_closed_session_accepts_again namedRequest quietEnv quietEnv
              (mkState oneTurnFiles ({["calm_brook"]} ∪ ∅) [namedChild] 1)
              0 namedChild (Some 1))
    as [(ack & st' & Hrun & Hack & Hturn) _].
  - reflexivity.
  - discriminate.
  - exact namedRequest_sessionName.
  - exists ack, st'. split_and!; [exact Hrun | exact Hack | apply Hturn; discriminate].
Defined.

(** A follow-up to the one-turn session [calm_brook] is acknowledged with
    turn number 2, and the poll of that turn answers complete once the
    child has run. *)
Lemma a_resumed_submission_completes_its_turn_witness :
  ∃ ack st' child turn,
    serviceFunction followUpRequest quietEnv (initial oneTurnFiles) = (Returns ack, st')
    ∧ turnNumber ack = 2
    ∧ Turn.turnNumber turn = turnNumber ack
    ∧ (ChorusStudyStatus.serviceFunction
         (ChorusStudyStatus.mkRequest (ack_sessionName ack) (Some (turnNumber ack)))
         (AskMilo.run (files st') (askMiloInput child) chorusConfig
            (join " " (CommandLineParameters.fileList (askMiloInput child)))
            (Returns chorusOutputs) quietEnv).1).1
      = Returns (ChorusStudyStatus.Complete "calm_brook" (turnNumber ack) (Some turn)).
Proof.
  destruct (a_resumed_submission_completes_its_turn followUpRequest quietEnv quietEnv
              (initial oneTurnFiles) "calm_brook" oneTurnSession [oneTurn]
              chorusConfig chorusOutputs)
    as (ack & st' & child & turn & Hrun & _ & Hack & Hturn & Hpoll).
  - discriminate.
  - exact (proj1 followUpRequest_names).
  - exact (proj2 followUpRequest_names).
  - apply not_elem_of_empty.
  - apply lookup_singleton_eq.
  - reflexivity.
  - reflexivity.
  - discriminate.
  - reflexivity.
  - exists ack, st', child, turn.
    split_and!; [exact Hrun | exact Hack | exact Hturn | exact Hpoll].
Defined.

End SubmissionExamples.

(** ** A resubmitted turn that does get written *)

Section ResubmissionExamples.
#[local] Existing Instance Reference.runtime.

Import SubmitChorusStudy.



End ResubmissionExamples.

(** ** Tool loop: the conversation it holds and how it ends *)

Section ConversationProofs.
Context `{JsRuntime}.

Import SingleCallTools.

(** The loop, from any point of a run: the requests it sends, how each
    follows from the one before, and how the last one decides the
    outcome. *)
Lemma toolLoop_protocol api toolHandler model left :
  ∀ messages totalCost log,
    ∃ sent,
      (toolLoop api toolHandler model messages totalCost log left).2 = (log ++ sent)%list
      ∧ (length sent ≤ left)%nat
      ∧ (left ≠ 0%nat → sent !! 0%nat = Some messages)
      ∧ (∀ i request next,
           sent !! i = Some request → sent !! S i = Some next →
           ∃ response,
             api request = ApiAnswers response
             ∧ Response.stop_reason response = "tool_use"
             ∧ next = (request ++ toolRound toolHandler response)%list)
      ∧ (∀ reason,
           (toolLoop api toolHandler model messages totalCost log left).1 = Throws reason →
           ∃ request, last sent = Some request ∧ api request = ApiFails reason)
      ∧ (∀ text cost,
           (toolLoop api toolHandler model messages totalCost log left).1
           = Returns (text, cost) →
           (∃ request response,
              last sent = Some request
              ∧ api request = ApiAnswers response
              ∧ Response.stop_reason response ≠ "tool_use"
              ∧ text = responseText (Response.content response))
           ∨ (length sent = left ∧ text = maxIterationsText))
      ∧ (∀ request reason,
           request ∈ sent → api request = ApiFails reason →
           (toolLoop api toolHandler model messages totalCost log left).1 = Throws reason).
Proof.
  induction left as [| left IH]; intros messages totalCost log.
  - exists []. simpl. rewrite app_nil_r.
    split_and!; [reflexivity | lia | congruence | | discriminate | |].
    + intros i request next Hi. rewrite lookup_nil in Hi. discriminate.
    + intros text cost Heq. inversion Heq. right. split; reflexivity.
    + intros request reason Hin. inversion Hin.
  - simpl. destruct (api messages) as [reason | response] eqn:Hanswer.
    + exists [messages]. simpl.
      split_and!; [reflexivity | lia | reflexivity | | | discriminate |].
      * intros i request next _ Hnext. rewrite lookup_nil in Hnext. discriminate.
      * intros reason' Heq. inversion Heq; subst. exists messages. split; [reflexivity | exact Hanswer].
      * intros request reason' Hin Hfails. apply list_elem_of_singleton in Hin. subst.
        rewrite Hanswer in Hfails. inversion Hfails. reflexivity.
    + destruct (String.eqb_spec (Response.stop_reason response) "tool_use") as [Hstop | Hstop];
        simpl.
      * match goal with
        | |- context [toolLoop api toolHandler model ?m ?c ?l left] =>
            destruct (IH m c l) as (sent & Hlog & Hlen & Hfirst & Hnext & Hthrows & Hreturns & Hfail)
        end.
        exists (messages :: sent). split_and!.
        -- rewrite Hlog, <- app_assoc. reflexivity.
        -- simpl. lia.
        -- reflexivity.
        -- intros i request next Hi Hsi. destruct i as [| i].
           ++ simpl in Hi. inversion Hi; subst request. simpl in Hsi.
              destruct left as [| left'].
              ** destruct sent; [discriminate | simpl in Hlen; lia].
              ** rewrite Hfirst in Hsi by congruence. inversion Hsi; subst next.
                 exists response. split_and!; [exact Hanswer | exact Hstop | reflexivity].
           ++ simpl in Hi, Hsi. eapply Hnext; eassumption.
        -- intros reason Heq. destruct (Hthrows _ Heq) as (request & Hlast & Hfails).
           exists request. split; [| exact Hfails].
           destruct sent; [discriminate |]. exact Hlast.
        -- intros text cost Heq. destruct (Hreturns _ _ Heq) as [Hdone | [Hfull Hmax]].
           ++ left. destruct Hdone as (request & response' & Hlast & Hrest).
              exists request, response'. split; [| exact Hrest].
              destruct sent; [discriminate |]. exact Hlast.
           ++ right. split; [simpl; rewrite Hfull; reflexivity | exact Hmax].
        -- intros request reason Hin Hfails. apply elem_of_cons in Hin as [-> | Hin].
           ++ rewrite Hanswer in Hfails. discriminate.
           ++ eapply Hfail; eassumption.
      * exists [messages]. simpl.
        split_and!; [reflexivity | lia | reflexivity | | discriminate | |].
        -- intros i request next _ Hsi. rewrite lookup_nil in Hsi. discriminate.
        -- intros text cost Heq. inversion Heq. left. exists messages, response.
           split_and!; [reflexivity | exact Hanswer | exact Hstop | reflexivity].
        -- intros request reason Hin Hfails. apply list_elem_of_singleton in Hin. subst.
           rewrite Hanswer in Hfails. discriminate.
Qed.

Lemma runTools_ids toolHandler content :
  tool_use_id <$> runTools toolHandler content = (λ use, use.1.1) <$> toolUses content.
Proof.
  unfold runTools. rewrite <- list_fmap_compose. apply list_fmap_ext.
  intros i [[id name] input] _. reflexivity.
Qed.

(** A tool-enabled single call that is not mocked opens with one user
    message.  Every further request repeats the one before it and adds
    two messages: the assistant's answer, which asked for tools, and one
    user message with a result for each tool use of that answer, in order
    and under its id.  So request number i holds 2i + 1 messages. *)
Theorem tool_conversation_grows_by_rounds
    (prompt systemPrompt : string) (sessionContext : option string)
    (config : Config.t) (api : Api) (toolHandler : string → string → ToolOutput) :
  Config.mockApi config = false →
  let run := singleCallWithTools prompt systemPrompt sessionContext config api toolHandler in
  (∃ text, run.2 !! 0%nat = Some [mkMessage "user" (Plain text)])
  ∧ (∀ i request next,
       run.2 !! i = Some request → run.2 !! S i = Some next →
       ∃ response,
         api request = ApiAnswers response
         ∧ Response.stop_reason response = "tool_use"
         ∧ next = (request
                   ++ [ mkMessage "assistant" (Blocks (Response.content response));
                        mkMessage "user"
                          (ToolResults (runTools toolHandler (Response.content response))) ])%list
         ∧ tool_use_id <$> runTools toolHandler (Response.content response)
           = (λ use, use.1.1) <$> toolUses (Response.content response))
  ∧ (∀ i request, run.2 !! i = Some request → length request = (2 * i + 1)%nat).
Proof.
  intros Hmock run. subst run. unfold singleCallWithTools. rewrite Hmock.
  match goal with
  | |- context [toolLoop api toolHandler ?model ?m ?c ?l MAX_TOOL_ITERATIONS] =>
      destruct (toolLoop_protocol api toolHandler model MAX_TOOL_ITERATIONS m c l)
        as (sent & Hlog & _ & Hfirst & Hnext & _);
      remember m as opening eqn:Hopening
  end.
  rewrite Hlog. simpl app. unfold CallLog in *.
  assert (Hstart : sent !! 0%nat = Some opening) by (apply Hfirst; discriminate).
  split_and!.
  - rewrite Hopening in Hstart. eexists. exact Hstart.
  - intros i request next Hi Hsi.
    destruct (Hnext i request next Hi Hsi) as (response & Hanswer & Hstop & Heq).
    exists response. split_and!; [exact Hanswer | exact Hstop | exact Heq | apply runTools_ids].
  - intros i. induction i as [| i IHi]; intros request Hi.
    + rewrite Hstart in Hi. inversion Hi; subst request. rewrite Hopening. reflexivity.
    + destruct (lookup_lt_is_Some_2 sent i) as [previous Hprevious].
      { apply lookup_lt_Some in Hi. lia. }
      destruct (Hnext i previous request Hprevious Hi) as (response & _ & _ & Heq).
      rewrite Heq, length_app, (IHi previous Hprevious). simpl. lia.
Qed.

(** How such a call ends.  It rejects exactly when a request failed, with
    that request's reason, and the failed request is the last one sent:
    nothing is retried.  When it returns, either its last request was
    answered without a demand for tools and the text is that answer's, or
    it has sent all 10 requests and the text is the iteration-limit
    notice. *)
Theorem tool_call_ends_on_its_last_request
    (prompt systemPrompt : string) (sessionContext : option string)
    (config : Config.t) (api : Api) (toolHandler : string → string → ToolOutput) :
  Config.mockApi config = false →
  let run := singleCallWithTools prompt systemPrompt sessionContext config api toolHandler in
  (∀ reason, run.1 = Throws reason →
     ∃ request, last run.2 = Some request ∧ api request = ApiFails reason)
  ∧ (∀ request reason, request ∈ run.2 → api request = ApiFails reason →
       run.1 = Throws reason)
  ∧ (∀ text cost, run.1 = Returns (text, cost) →
       (∃ request response,
          last run.2 = Some request
          ∧ api request = ApiAnswers response
          ∧ Response.stop_reason response ≠ "tool_use"
          ∧ text = responseText (Response.content response))
       ∨ (length run.2 = 10%nat ∧ text = maxIterationsText)).
Proof.
  intros Hmock run. subst run. unfold singleCallWithTools. rewrite Hmock.
  match goal with
  | |- context [toolLoop api toolHandler ?model ?m ?c ?l MAX_TOOL_ITERATIONS] =>
      destruct (toolLoop_protocol api toolHandler model MAX_TOOL_ITERATIONS m c l)
        as (sent & Hlog & _ & _ & _ & Hthrows & Hreturns & Hfail)
  end.
  rewrite Hlog. simpl app. split_and!; assumption.
Qed.

End ConversationProofs.

Section ConversationExamples.
#[local] Existing Instance Reference.runtime.

Import SingleCallTools.

Lemma answered_at_once :
  ∃ text cost,
    (singleCallWithTools "What is SIF?" "You are helpful." None liveConfig answersAtOnce
       echoTool).1
    = Returns (text, cost).
Proof. eexists. eexists. reflexivity. Qed.

(** The call that is cut off after ten requests opens with one user
    message. *)
Lemma tool_conversation_grows_by_rounds_witness :
  ∃ text,
    (singleCallWithTools "What is SIF?" "You are helpful." None liveConfig alwaysSearching
       echoTool).2 !! 0%nat
    = Some [mkMessage "user" (Plain text)].
Proof.
  destruct (tool_conversation_grows_by_rounds "What is SIF?" "You are helpful." None
              liveConfig alwaysSearching echoTool eq_refl) as [Hopens _].
  exact Hopens.
Defined.

(** A call that is answered at once returns the text of that answer. *)
Lemma tool_call_ends_on_its_last_request_witness :
  ∃ text cost,
    (singleCallWithTools "What is SIF?" "You are helpful." None liveConfig answersAtOnce
       echoTool).1
    = Returns (text, cost)
    ∧ ((∃ request response,
          last (singleCallWithTools "What is SIF?" "You are helpful." None liveConfig
                  answersAtOnce echoTool).2
          = Some request
          ∧ answersAtOnce request = ApiAnswers response
          ∧ Response.stop_reason response ≠ "tool_use"
          ∧ text = responseText (Response.content response))
       ∨ (length (singleCallWithTools "What is SIF?" "You are helpful." None liveConfig
                    answersAtOnce echoTool).2
          = 10%nat
          ∧ text = maxIterationsText)).
Proof.
  destruct answered_at_once as (text & cost & Hrun).
  exists text, cost. split; [exact Hrun |].
  destruct (tool_call_ends_on_its_last_request "What is SIF?" "You are helpful." None
              liveConfig answersAtOnce echoTool eq_refl) as (_ & _ & Hreturns).
  exact (Hreturns text cost Hrun).
Defined.

End ConversationExamples.

(** ** Fan-out: what an entry holds *)

Section EntryProofs.
Context `{JsRuntime}.

Lemma responseText_nonempty content : responseText content ≠ "".
Proof.
  unfold responseText. destruct (textParts content) as [| first rest] eqn:Hparts;
    [discriminate |].
  apply join_starts_nonempty.
  assert (Hin : first ∈ textParts content) by (rewrite Hparts; apply list_elem_of_here).
  unfold textParts in Hin. apply list_elem_of_filter in Hin as [Hlen _].
  intros ->. apply Hlen. reflexivity.
Qed.

(** Every entry the direct dispatcher returns has findings that are not
    the empty string: the mock's text, the answer's text or the marker
    "[NO RESPONSE]" when the answer holds no text, or the failure marker;
    and an entry has no turns exactly when it is marked failed at no
    cost. *)
Theorem direct_findings_are_never_empty
    (instructions : list Instruction.t) (config : Config.t) (api : nat → ApiOutcome)
    (r : PerspectiveResult.t) :
  r ∈ FanOutDirect.fanOut instructions config api →
  PerspectiveResult.findings r ≠ ""
  ∧ (PerspectiveResult.turns r = 0 ∨ PerspectiveResult.turns r = 1)
  ∧ (PerspectiveResult.turns r = 0 →
     PerspectiveResult.cost r = Cost.zero
     ∧ ∃ reason, PerspectiveResult.findings r = "[AGENT FAILED: " +:+ reason +:+ "]").
Proof.
  intros Hin. apply list_elem_of_lookup in Hin as [idx Hidx].
  rewrite direct_entry in Hidx.
  destruct (instructions !! idx) as [instruction |]; simpl in Hidx; [| discriminate].
  inversion Hidx; subst r; clear Hidx.
  unfold FanOutDirect.runOneAgent.
  destruct (Config.mockApi config); [| destruct (api idx) as [reason | response]]; simpl.
  - split_and!; [discriminate | right; reflexivity | discriminate].
  - split_and!; [discriminate | left; reflexivity |].
    intros _. split; [reflexivity | exists reason; reflexivity].
  - split_and!; [apply responseText_nonempty | right; reflexivity | discriminate].
Qed.

Lemma foldl_onMessage_others acc messages :
  (∀ message, message ∈ messages → SdkMessage.type message ≠ "result") →
  foldl FanOutSdk.onMessage acc messages = acc.
Proof.
  revert acc. induction messages as [| message messages IH]; intros acc Hothers;
    [reflexivity |].
  simpl. unfold FanOutSdk.onMessage at 2.
  rewrite (proj2 (String.eqb_neq _ _)) by (apply Hothers; apply list_elem_of_here).
  apply IH. intros message' Hin. apply Hothers. apply list_elem_of_further. exact Hin.
Qed.

(** An SDK participant whose stream ends without throwing reports the
    last result message of the stream and nothing of what came before:
    its cost and turns are that message's; its findings are the message's
    result on success, and otherwise the partial result, or
    "[AGENT ERROR: subtype]" when there is none.  An error result is
    thus fulfilled at its reported cost, not rejected.  A stream without
    any result message is fulfilled with empty findings at no cost. *)
Theorem sdk_agent_reports_its_last_result
    (instruction : Instruction.t) (config : Config.t) (stream : SdkStream.t)
    (before after : list SdkMessage.t) (last : SdkMessage.t) :
  Config.mockApi config = false →
  SdkStream.failure stream = None →
  (SdkStream.messages stream = (before ++ last :: after)%list
   ∧ SdkMessage.type last = "result"
   ∧ (∀ message, message ∈ after → SdkMessage.type message ≠ "result") →
   ∃ r, FanOutSdk.runOneAgent instruction config stream = Fulfilled r
     ∧ PerspectiveResult.cost r = SdkMessage.costOf last
     ∧ PerspectiveResult.turns r = default 0 (SdkMessage.num_turns last)
     ∧ (∀ text, SdkMessage.subtype last = Some "success" →
          SdkMessage.result last = Some text → PerspectiveResult.findings r = text)
     ∧ (SdkMessage.subtype last ≠ Some "success" →
        PerspectiveResult.findings r
        = orElse (SdkMessage.result last)
            ("[AGENT ERROR: " +:+ default "undefined" (SdkMessage.subtype last) +:+ "]")))
  ∧ ((∀ message, message ∈ SdkStream.messages stream → SdkMessage.type message ≠ "result") →
     ∃ r, FanOutSdk.runOneAgent instruction config stream = Fulfilled r
       ∧ PerspectiveResult.findings r = ""
       ∧ PerspectiveResult.cost r = Cost.zero
       ∧ PerspectiveResult.turns r = 0).
Proof.
  intros Hmock Hends. unfold FanOutSdk.runOneAgent. rewrite Hmock, Hends. split.
  - intros (Hmessages & Hresult & Hafter). rewrite Hmessages.
    rewrite foldl_app. simpl. rewrite (foldl_onMessage_others _ _ Hafter).
    eexists. split; [reflexivity |]. simpl.
    unfold FanOutSdk.onMessage. rewrite Hresult. simpl.
    destruct (bool_decide (SdkMessage.subtype last = Some "success")) eqn:Hsub; simpl.
    + apply bool_decide_eq_true in Hsub.
      split_and!; [reflexivity | reflexivity | | contradiction].
      intros text _ ->. reflexivity.
    + apply bool_decide_eq_false in Hsub.
      split_and!; [reflexivity | reflexivity | | reflexivity].
      intros text Hsuccess. contradiction.
  - intros Hnone. rewrite (foldl_onMessage_others _ _ Hnone).
    eexists. split; [reflexivity |]. simpl. split_and!; reflexivity.
Qed.

Lemma fanOut_mocked_entries {A} (run : Instruction.t → Config.t → A → Settled PerspectiveResult.t)
    (entry : Config.t → Settled PerspectiveResult.t → Instruction.t → PerspectiveResult.t)
    (instructions : list Instruction.t) (config : Config.t) (oracle : nat → A) :
  (∀ instruction a, run instruction config a
                    = Fulfilled (MockApi.mockFanOutAgent instruction config)) →
  (∀ value instruction, entry config (Fulfilled value) instruction = value) →
  zip_with (entry config)
    (imap (λ idx instruction, run instruction config (oracle idx)) instructions) instructions
  = (λ instruction, MockApi.mockFanOutAgent instruction config) <$> instructions.
Proof.
  intros Hrun Hentry. apply list_eq. intros idx.
  rewrite lookup_zip_with_imap, list_lookup_fmap.
  destruct (instructions !! idx) as [instruction |]; simpl; [| reflexivity].
  rewrite Hrun, Hentry. reflexivity.
Qed.

Lemma mocked_fanOut_entries_both instructions config (api : nat → ApiOutcome)
    (sdk : nat → SdkStream.t) :
  Config.mockApi config = true →
  FanOutDirect.fanOut instructions config api
  = (λ instruction, MockApi.mockFanOutAgent instruction config) <$> instructions
  ∧ FanOutSdk.fanOut instructions config sdk
    = (λ instruction, MockApi.mockFanOutAgent instruction config) <$> instructions.
Proof.
  intros Hmock. split.
  - unfold FanOutDirect.fanOut. apply fanOut_mocked_entries.
    + intros instruction a. unfold FanOutDirect.runOneAgent. rewrite Hmock. reflexivity.
    + reflexivity.
  - unfold FanOutSdk.fanOut. apply fanOut_mocked_entries.
    + intros instruction a. unfold FanOutSdk.runOneAgent. rewrite Hmock. reflexivity.
    + reflexivity.
Qed.

(** Under the mock both dispatchers return the canned entry of every
    instruction, 200 input and 400 output tokens and one turn each,
    whatever the API or the SDK would have answered: none of it is
    read. *)
Theorem mocked_fanOut_reads_no_answer
    (instructions : list Instruction.t) (config : Config.t)
    (api : nat → ApiOutcome) (sdk : nat → SdkStream.t) :
  Config.mockApi config = true →
  FanOutDirect.fanOut instructions config api
  = (λ instruction, MockApi.mockFanOutAgent instruction config) <$> instructions
  ∧ FanOutSdk.fanOut instructions config sdk
    = (λ instruction, MockApi.mockFanOutAgent instruction config) <$> instructions
  ∧ ∀ r, r ∈ FanOutDirect.fanOut instructions config api →
      Cost.inputTokens (PerspectiveResult.cost r) = 200
      ∧ Cost.outputTokens (PerspectiveResult.cost r) = 400
      ∧ PerspectiveResult.turns r = 1.
Proof.
  intros Hmock.
  assert (Hdirect : FanOutDirect.fanOut instructions config api
                    = (λ instruction, MockApi.mockFanOutAgent instruction config)
                        <$> instructions).
  { unfold FanOutDirect.fanOut. apply fanOut_mocked_entries.
    - intros instruction a. unfold FanOutDirect.runOneAgent. rewrite Hmock. reflexivity.
    - reflexivity. }
  split_and!; [exact Hdirect | |].
  - unfold FanOutSdk.fanOut. apply fanOut_mocked_entries.
    + intros instruction a. unfold FanOutSdk.runOneAgent. rewrite Hmock. reflexivity.
    + reflexivity.
  - intros r Hin. rewrite Hdirect in Hin.
    apply list_elem_of_fmap in Hin as (instruction & -> & _). split_and!; reflexivity.
Qed.

End EntryProofs.

(** ** Direct expansion: fenced JSON *)

Section FenceProofs.
Context `{JsRuntime}.

Lemma length_append (s t : string) :
  String.length (s +:+ t) = (String.length s + String.length t)%nat.
Proof. induction s as [| c s IH]; simpl; [reflexivity | rewrite IH; reflexivity]. Qed.

Lemma append_assoc (s t u : string) : (s +:+ t) +:+ u = s +:+ (t +:+ u).
Proof.
  induction s as [| c s IH]; [reflexivity |].
  change (String c ((s +:+ t) +:+ u) = String c (s +:+ (t +:+ u))). rewrite IH. reflexivity.
Qed.

Lemma prefix_append (p s : string) : String.prefix p (p +:+ s) = true.
Proof.
  induction p as [| c p IH]; simpl; [destruct s; reflexivity |].
  destruct (Ascii.ascii_dec c c); [exact IH | congruence].
Qed.

Lemma substring_skip (p s : string) (n : nat) :
  String.substring (String.length p) n (p +:+ s) = String.substring 0 n s.
Proof. induction p as [| c p IH]; simpl; [reflexivity | exact IH]. Qed.

Lemma substring_all (s : string) : String.substring 0 (String.length s) s = s.
Proof. induction s as [| c s IH]; simpl; [reflexivity | rewrite IH; reflexivity]. Qed.

Lemma substring_head (s t : string) : String.substring 0 (String.length s) (s +:+ t) = s.
Proof.
  induction s as [| c s IH]; simpl; [destruct t; reflexivity | rewrite IH; reflexivity].
Qed.

Lemma dropIfPrefix_append (p s : string) : ExpandDirect.dropIfPrefix p (p +:+ s) = s.
Proof.
  unfold ExpandDirect.dropIfPrefix. rewrite prefix_append, length_append.
  replace (String.length p + String.length s - String.length p)%nat
    with (String.length s) by lia.
  rewrite substring_skip. apply substring_all.
Qed.

Lemma endsWith_append (p s : string) : ExpandDirect.endsWith p (s +:+ p) = true.
Proof.
  unfold ExpandDirect.endsWith. rewrite length_append.
  replace (String.length s + String.length p - String.length p)%nat
    with (String.length s) by lia.
  rewrite substring_skip, substring_all, String.eqb_refl.
  rewrite andb_true_r. apply Nat.leb_le. lia.
Qed.

Lemma dropIfSuffix_append (p s : string) : ExpandDirect.dropIfSuffix p (s +:+ p) = s.
Proof.
  unfold ExpandDirect.dropIfSuffix. rewrite endsWith_append, length_append.
  replace (String.length s + String.length p - String.length p)%nat
    with (String.length s) by lia.
  apply substring_head.
Qed.

(** Take the opening fence off, then the closing one. *)
Ltac strip_fence :=
  unfold ExpandDirect.stripFence;
  rewrite !dropIfPrefix_append;
  rewrite <- append_assoc;
  rewrite endsWith_append, !dropIfSuffix_append;
  reflexivity.

(** The fence of a fenced answer is taken off whole: a text made of the
    line "```json" or "```", a body, and a closing line "```" is reduced
    to the body, whatever the body holds. *)
Theorem stripFence_returns_the_body (body : string) :
  ExpandDirect.stripFence ("```json" +:+ nl +:+ body +:+ nl +:+ "```") = body
  ∧ ExpandDirect.stripFence ("```" +:+ nl +:+ body +:+ nl +:+ "```") = body.
Proof.
  split.
  - change ("```json" +:+ nl +:+ body +:+ nl +:+ "```")
      with ("```" +:+ ("json" +:+ (nl +:+ (body +:+ nl +:+ "```")))).
    strip_fence.
  - unfold ExpandDirect.stripFence. rewrite dropIfPrefix_append.
    change (ExpandDirect.dropIfPrefix "json" (nl +:+ body +:+ nl +:+ "```"))
      with (nl +:+ body +:+ nl +:+ "```").
    rewrite dropIfPrefix_append, <- append_assoc.
    rewrite endsWith_append, !dropIfSuffix_append. reflexivity.
Qed.

(** When the one text of the model's answer is a fenced JSON document,
    direct expansion parses the body of the fence and returns its
    instructions, at the token counts the API reported. *)
Theorem fenced_expansion_is_parsed
    (originalPrompt : string) (config : Config.t)
    (jsonParse : string → option ExpansionData.t) (api : nat → ApiOutcome) (calls : nat)
    (response : Response.t) (body : string) (data : ExpansionData.t)
    (first : Instruction.t) (rest : list Instruction.t) :
  Config.mockApi config = false →
  api calls = ApiAnswers response →
  textParts (Response.content response) = ["```json" +:+ nl +:+ body +:+ nl +:+ "```"] →
  jsonParse body = Some data →
  ExpansionData.instructions data = Some (first :: rest) →
  ∃ cost,
    ExpandDirect.expand originalPrompt config jsonParse api calls
    = (Returns (first :: rest, cost), S calls)
    ∧ Cost.inputTokens cost = Usage.input_tokens (Response.usage response)
    ∧ Cost.outputTokens cost = Usage.output_tokens (Response.usage response).
Proof.
  intros Hmock Hanswer Hparts Hparse Hinstructions.
  unfold ExpandDirect.expand. rewrite Hmock, Hanswer, Hparts.
  change (ExpandDirect.pickJsonText ["```json" +:+ nl +:+ body +:+ nl +:+ "```"])
    with (Some ("```json" +:+ nl +:+ body +:+ nl +:+ "```")).
  cbv beta iota.
  change (String.prefix "```" ("```json" +:+ nl +:+ body +:+ nl +:+ "```")) with true.
  cbv beta iota.
  assert (Hbody : ExpandDirect.stripFence ("```json" +:+ nl +:+ body +:+ nl +:+ "```") = body).
  { change ("```json" +:+ nl +:+ body +:+ nl +:+ "```")
      with ("```" +:+ ("json" +:+ (nl +:+ (body +:+ nl +:+ "```")))).
    strip_fence. }
  rewrite Hbody, Hparse, Hinstructions. simpl.
  eexists. split; [reflexivity |]. split; reflexivity.
Qed.

End FenceProofs.

Section EntryExamples.
#[local] Existing Instance Reference.runtime.

(** The rejected participant of Scenario B has findings all the same. *)
Lemma direct_findings_are_never_empty_witness :
  ∃ r,
    FanOutDirect.fanOut scenarioB_instructions scenarioB_config secondRejected !! 1%nat
    = Some r
    ∧ PerspectiveResult.findings r ≠ "".
Proof.
  eexists. split; [reflexivity |].
  refine (proj1 (direct_findings_are_never_empty scenarioB_instructions scenarioB_config
                   secondRejected _ _)).
  apply (list_elem_of_lookup_2 _ 1%nat). reflexivity.
Defined.

(** An SDK participant that finished after three turns. *)
Lemma sdk_agent_reports_its_last_result_witness :
  ∃ r,
    FanOutSdk.runOneAgent loneInstruction threeWanted agentStream = Fulfilled r
    ∧ PerspectiveResult.findings r = "Costs are low."
    ∧ PerspectiveResult.turns r = 3.
Proof.
  destruct (sdk_agent_reports_its_last_result loneInstruction threeWanted agentStream
              [agentSpeaks] [] agentResult eq_refl eq_refl) as [Hlast _].
  destruct Hlast as (r & Hrun & _ & Hturns & Hsuccess & _).
  - split_and!; [reflexivity | reflexivity |]. intros message Hin. inversion Hin.
  - exists r. split_and!; [exact Hrun | apply Hsuccess; reflexivity | exact Hturns].
Defined.

(** Scenario B under the mock: the rejection never happens. *)
Lemma mocked_fanOut_reads_no_answer_witness :
  FanOutDirect.fanOut scenarioB_instructions threeMocked secondRejected
  = (λ instruction, MockApi.mockFanOutAgent instruction threeMocked)
      <$> scenarioB_instructions.
Proof.
  exact (proj1 (mocked_fanOut_reads_no_answer scenarioB_instructions threeMocked
                  secondRejected (λ _, loneStream) eq_refl)).
Defined.

(** A fenced answer of one instruction. *)
Lemma fenced_expansion_is_parsed_witness :
  ∃ cost,
    ExpandDirect.expand "Compare X and Y" threeWanted parseFenced (λ _, fencedAnswer) 0
    = (Returns ([loneInstruction], cost), 1%nat)
    ∧ Cost.inputTokens cost = 150
    ∧ Cost.outputTokens cost = 300.
Proof.
  apply (fenced_expansion_is_parsed "Compare X and Y" threeWanted parseFenced
           (λ _, fencedAnswer) 0
           (Response.mk [TextBlock ("```json" +:+ nl +:+ fencedBody +:+ nl +:+ "```")]
              (Usage.mk 150 300) "end_turn")
           fencedBody (ExpansionData.mk (Some [loneInstruction])) loneInstruction []);
    reflexivity.
Defined.

End EntryExamples.

(** ** The chorus pipeline, from expansion to the saved turn *)

Section PipelineProofs.
Context `{JsRuntime}.

Import ChorusPipeline.

(** A run that resumes nothing and is given a name saves a new session
    under that name, holding the turn built from what the stages
    produced. *)
Lemma run_saves_this_turn fs clp config originalPrompt out env name :
  withoutResume clp →
  CommandLineParameters.firstValue "sessionName" clp = Some name →
  Config.noSave config = false →
  ∃ saved,
    AskMilo.run fs clp config originalPrompt (Returns out) env
    = (<[sessionFilePath name := SessionJson saved]> fs, 0)
    ∧ Session.turns saved = Some [AskMilo.thisTurn config originalPrompt out 1 env].
Proof.
  intros Hfree Hname Hsave. unfold AskMilo.run. rewrite (resolveResume_none _ _ Hfree).
  unfold AskMilo.sessionSave, AskMilo.sessionToSave, AskMilo.nextTurnNumber.
  rewrite Hsave, Hname. cbn [default].
  unfold SessionManager.saveSession, SessionManager.createNewSession, writeFileSync.
  cbn [Session.sessionName Session.turns].
  eexists. split; reflexivity.
Qed.

Lemma thisTurn_chorus config originalPrompt out turnNumber env :
  Config.perspectives config ≠ 0 →
  AskMilo.thisTurn config originalPrompt out turnNumber env
  = SessionManager.buildTurnFromResults originalPrompt (AskMilo.instructions out)
      (AskMilo.results out) (AskMilo.expandCost out) (AskMilo.synthesis out)
      (AskMilo.synthesisCost out) (AskMilo.elapsedSeconds out) turnNumber env.
Proof.
  intros Hchorus. unfold AskMilo.thisTurn.
  destruct (Z.eqb_spec (Config.perspectives config) 0); [contradiction | reflexivity].
Qed.

Lemma fanOutStage_ids config instructions net :
  PerspectiveResult.id <$> fanOutStage config instructions net
  = Instruction.id <$> instructions.
Proof.
  apply list_eq. intros idx. rewrite !list_lookup_fmap. unfold fanOutStage.
  destruct (sdkDriver config).
  - rewrite sdk_entry. destruct (instructions !! idx) as [instruction |]; [| reflexivity].
    simpl. f_equal.
    destruct (FanOutSdk.runOneAgent instruction config (agentSdk net idx)) as [value | reason]
      eqn:Hrun; [| reflexivity].
    apply (sdk_fulfilled_names_instruction _ _ _ _ Hrun).
  - rewrite direct_entry. destruct (instructions !! idx) as [instruction |]; [| reflexivity].
    simpl. f_equal.
    destruct (FanOutDirect.runOneAgent instruction config (agentApi net idx))
      as [value | reason] eqn:Hrun; [| reflexivity].
    apply (direct_fulfilled_names_instruction _ _ _ _ Hrun).
Qed.

(** Once expansion has returned, a chorus run without synthesis cannot
    fail: whatever the participants' requests come to, the run exits with
    code 0 and saves a turn with one perspective entry per instruction,
    under the instructions' ids and in their order.  With the direct
    driver, the entry of a participant whose request failed holds the
    failure marker with the reason, at no cost. *)
Theorem chorus_turn_survives_participant_failures
    (fs : FileSystem) (commandLineParameters : CommandLineParameters.t) (config : Config.t)
    (originalPrompt : string) (net : Network) (elapsedSeconds : num) (env : Env.t)
    (name : string) (instructions : list Instruction.t) (expandCost : Cost.t) :
  Config.perspectives config ≠ 0 →
  Config.dryRun config = false →
  Config.summarize config = false →
  Config.noSave config = false →
  withoutResume commandLineParameters →
  CommandLineParameters.firstValue "sessionName" commandLineParameters = Some name →
  expandStage config originalPrompt net = Returns (instructions, expandCost) →
  ∃ saved turn entries,
    AskMilo.run fs commandLineParameters config originalPrompt
      (stages config originalPrompt net elapsedSeconds) env
    = (<[sessionFilePath name := SessionJson saved]> fs, 0)
    ∧ Session.turns saved = Some [turn]
    ∧ Turn.perspectives turn = Some entries
    ∧ PerspectiveEntry.id <$> entries = Instruction.id <$> instructions
    ∧ ∀ idx reason,
        sdkDriver config = false → Config.mockApi config = false →
        (idx < length instructions)%nat →
        agentApi net idx = ApiFails reason →
        ∃ entry, entries !! idx = Some entry
          ∧ PerspectiveEntry.findings entry = "[AGENT FAILED: " +:+ reason +:+ "]"
          ∧ PerspectiveEntry.cost entry = Cost.zero.
Proof.
  intros Hchorus Hdry Hsum Hsave Hfree Hname Hexpand.
  unfold stages. rewrite Hexpand, Hdry, Hsum.
  destruct (run_saves_this_turn fs commandLineParameters config originalPrompt
              (AskMilo.mkOutputs None None (Some instructions)
                 (Some (fanOutStage config instructions net)) (Some expandCost) None None
                 elapsedSeconds)
              env name Hfree Hname Hsave) as (saved & Hrun & Hturns).
  rewrite (thisTurn_chorus _ _ _ _ _ Hchorus) in Hturns.
  eexists. eexists. eexists. split; [exact Hrun |]. split; [exact Hturns |].
  unfold SessionManager.buildTurnFromResults.
  cbn [Turn.perspectives AskMilo.results from_option]. unfold id.
  split; [reflexivity |]. split.
  - rewrite <- list_fmap_compose. apply fanOutStage_ids.
  - intros idx reason Hdirect Hlive Hidx Hfails.
    destruct (lookup_lt_is_Some_2 instructions idx Hidx) as [instruction Hinstruction].
    rewrite list_lookup_fmap. unfold fanOutStage. rewrite Hdirect, direct_entry, Hinstruction.
    unfold FanOutDirect.runOneAgent. rewrite Hlive, Hfails. simpl.
    eexists. split; [reflexivity |]. split; reflexivity.
Qed.

(** A chorus run whose expansion fails, or whose synthesis fails after
    every participant has answered, exits with code 1 and saves nothing:
    the participants' findings are not written anywhere. *)
Theorem a_failed_stage_loses_the_turn
    (fs : FileSystem) (commandLineParameters : CommandLineParameters.t) (config : Config.t)
    (originalPrompt : string) (net : Network) (elapsedSeconds : num) (env : Env.t) :
  (∀ err, expandStage config originalPrompt net = Throws err →
     stages config originalPrompt net elapsedSeconds = Throws err
     ∧ AskMilo.run fs commandLineParameters config originalPrompt
         (stages config originalPrompt net elapsedSeconds) env
       = (fs, 1))
  ∧ (∀ instructions expandCost err,
       expandStage config originalPrompt net = Returns (instructions, expandCost) →
       Config.dryRun config = false →
       Config.summarize config = true →
       synthesizeStage config originalPrompt instructions
         (fanOutStage config instructions net) net
       = Throws err →
       stages config originalPrompt net elapsedSeconds = Throws err
       ∧ AskMilo.run fs commandLineParameters config originalPrompt
           (stages config originalPrompt net elapsedSeconds) env
         = (fs, 1)).
Proof.
  split.
  - intros err Hexpand. unfold stages. rewrite Hexpand. split; [reflexivity |].
    unfold AskMilo.run.
    destruct (AskMilo.resolveResume fs commandLineParameters). reflexivity.
  - intros instructions expandCost err Hexpand Hdry Hsum Hsynth.
    unfold stages. rewrite Hexpand, Hdry, Hsum, Hsynth. split; [reflexivity |].
    unfold AskMilo.run.
    destruct (AskMilo.resolveResume fs commandLineParameters). reflexivity.
Qed.

(** A dry run of the chorus saves a turn all the same: it holds the
    instructions of the expansion, no perspective entry and no synthesis,
    and its token totals are the expansion's.  No participant's answer and
    no synthesis is read. *)
Theorem a_dry_run_saves_a_turn_without_perspectives
    (fs : FileSystem) (commandLineParameters : CommandLineParameters.t) (config : Config.t)
    (originalPrompt : string) (net : Network) (elapsedSeconds : num) (env : Env.t)
    (name : string) (instructions : list Instruction.t) (expandCost : Cost.t) :
  Config.perspectives config ≠ 0 →
  Config.dryRun config = true →
  Config.noSave config = false →
  withoutResume commandLineParameters →
  CommandLineParameters.firstValue "sessionName" commandLineParameters = Some name →
  expandStage config originalPrompt net = Returns (instructions, expandCost) →
  ∃ saved turn expansion total,
    AskMilo.run fs commandLineParameters config originalPrompt
      (stages config originalPrompt net elapsedSeconds) env
    = (<[sessionFilePath name := SessionJson saved]> fs, 0)
    ∧ Session.turns saved = Some [turn]
    ∧ Turn.expansion turn = Some expansion
    ∧ Expansion.instructions expansion = instructions
    ∧ Turn.perspectives turn = Some []
    ∧ Turn.synthesis turn = None
    ∧ Turn.totalCost turn = Some total
    ∧ Cost.inputTokens total = Cost.inputTokens expandCost
    ∧ Cost.outputTokens total = Cost.outputTokens expandCost.
Proof.
  intros Hchorus Hdry Hsave Hfree Hname Hexpand.
  unfold stages. rewrite Hexpand, Hdry.
  destruct (run_saves_this_turn fs commandLineParameters config originalPrompt
              (AskMilo.mkOutputs None None (Some instructions) None (Some expandCost)
                 None None elapsedSeconds)
              env name Hfree Hname Hsave) as (saved & Hrun & Hturns).
  rewrite (thisTurn_chorus _ _ _ _ _ Hchorus) in Hturns.
  eexists. eexists. eexists. eexists. split; [exact Hrun |]. split; [exact Hturns |].
  unfold SessionManager.buildTurnFromResults. simpl.
  split; [reflexivity |]. split.
  - transitivity (id <$> instructions); [| apply list_fmap_id].
    apply list_fmap_ext. intros idx [] _. reflexivity.
  - split_and!; try reflexivity; simpl; lia.
Qed.

(** The synthesis either driver returns is never the empty string, so
    the turn built from it always carries a synthesis field. *)
Lemma synthesizeStage_nonempty config originalPrompt instructions results net synthesis
    synthesisCost :
  synthesizeStage config originalPrompt instructions results net
  = Returns (synthesis, synthesisCost) →
  synthesis ≠ "".
Proof.
  unfold synthesizeStage, Synthesize.synthesizeSdk, Synthesize.synthesizeDirect.
  destruct (sdkDriver config); destruct (Config.mockApi config).
  - intros Heq. inversion Heq. discriminate.
  - match goal with
    | |- context [Synthesize.consume ?acc ?messages] =>
        destruct (Synthesize.consume acc messages) as [[text cost] | e]; [| discriminate]
    end.
    match goal with
    | |- context [SdkStream.failure ?stream] =>
        destruct (SdkStream.failure stream); [discriminate |]
    end.
    destruct (truthy text) eqn:Htext; simpl; [| discriminate].
    intros Heq. inversion Heq; subst. apply truthy_true. exact Htext.
  - intros Heq. inversion Heq. discriminate.
  - match goal with
    | |- context [synthesisApi net ?message] =>
        destruct (synthesisApi net message) as [reason | response]; [discriminate |]
    end.
    intros Heq. inversion Heq; subst.
    destruct (textParts (Response.content response)) as [| first rest] eqn:Hparts;
      [discriminate |].
    apply join_starts_nonempty.
    assert (Hin : first ∈ textParts (Response.content response))
      by (rewrite Hparts; apply list_elem_of_here).
    unfold textParts in Hin. apply list_elem_of_filter in Hin as [Hlen _].
    intros ->. apply Hlen. reflexivity.
Qed.

(** A summarized chorus run whose stages all succeed saves a turn that
    carries the synthesis it was given, at its cost; the synthesis text
    is never empty, with either driver. *)
Theorem a_summarized_turn_carries_its_synthesis
    (fs : FileSystem) (commandLineParameters : CommandLineParameters.t) (config : Config.t)
    (originalPrompt : string) (net : Network) (elapsedSeconds : num) (env : Env.t)
    (name : string) (instructions : list Instruction.t) (expandCost : Cost.t)
    (synthesis : string) (synthesisCost : Cost.t) :
  Config.perspectives config ≠ 0 →
  Config.dryRun config = false →
  Config.summarize config = true →
  Config.noSave config = false →
  withoutResume commandLineParameters →
  CommandLineParameters.firstValue "sessionName" commandLineParameters = Some name →
  expandStage config originalPrompt net = Returns (instructions, expandCost) →
  synthesizeStage config originalPrompt instructions (fanOutStage config instructions net) net
  = Returns (synthesis, synthesisCost) →
  synthesis ≠ ""
  ∧ ∃ saved turn,
      AskMilo.run fs commandLineParameters config originalPrompt
        (stages config originalPrompt net elapsedSeconds) env
      = (<[sessionFilePath name := SessionJson saved]> fs, 0)
      ∧ Session.turns saved = Some [turn]
      ∧ Turn.synthesis turn = Some (Synthesis.mk synthesis synthesisCost).
Proof.
  intros Hchorus Hdry Hsum Hsave Hfree Hname Hexpand Hsynth.
  pose proof (synthesizeStage_nonempty _ _ _ _ _ _ _ Hsynth) as Hnonempty.
  split; [exact Hnonempty |].
  unfold stages. rewrite Hexpand, Hdry, Hsum, Hsynth.
  destruct (run_saves_this_turn fs commandLineParameters config originalPrompt
              (AskMilo.mkOutputs None None (Some instructions)
                 (Some (fanOutStage config instructions net)) (Some expandCost)
                 (Some synthesis) (Some synthesisCost) elapsedSeconds)
              env name Hfree Hname Hsave) as (saved & Hrun & Hturns).
  rewrite (thisTurn_chorus _ _ _ _ _ Hchorus) in Hturns.
  eexists. eexists. split; [exact Hrun |]. split; [exact Hturns |].
  unfold SessionManager.buildTurnFromResults.
  cbn [Turn.synthesis AskMilo.synthesis AskMilo.synthesisCost from_option]. unfold id.
  apply truthy_true in Hnonempty. rewrite Hnonempty. reflexivity.
Qed.

Lemma mocked_tokens config (instructions : list Instruction.t) :
  foldr Z.add 0
    ((λ r, Cost.inputTokens (PerspectiveResult.cost r))
       <$> ((λ instruction, MockApi.mockFanOutAgent instruction config) <$> instructions))
  = 200 * Z.of_nat (length instructions)
  ∧ foldr Z.add 0
      ((λ r, Cost.outputTokens (PerspectiveResult.cost r))
         <$> ((λ instruction, MockApi.mockFanOutAgent instruction config) <$> instructions))
    = 400 * Z.of_nat (length instructions).
Proof.
  induction instructions as [| instruction instructions [IHin IHout]]; [split; reflexivity |].
  rewrite !fmap_cons. cbn [foldr length]. rewrite IHin, IHout. simpl Cost.inputTokens.
  simpl Cost.outputTokens. split; lia.
Qed.

(** A chorus run of N perspectives under the mock, with either driver,
    saves a turn of N perspective entries whose token totals are
    150 + 200 N in and 300 + 400 N out, plus 300 in and 600 out when a
    synthesis was asked for. *)
Theorem a_mocked_chorus_run_costs_by_the_perspective
    (fs : FileSystem) (commandLineParameters : CommandLineParameters.t) (config : Config.t)
    (originalPrompt : string) (net : Network) (elapsedSeconds : num) (env : Env.t)
    (name : string) :
  Config.mockApi config = true →
  0 < Config.perspectives config →
  Config.dryRun config = false →
  Config.noSave config = false →
  withoutResume commandLineParameters →
  CommandLineParameters.firstValue "sessionName" commandLineParameters = Some name →
  ∃ saved turn entries total,
    AskMilo.run fs commandLineParameters config originalPrompt
      (stages config originalPrompt net elapsedSeconds) env
    = (<[sessionFilePath name := SessionJson saved]> fs, 0)
    ∧ Session.turns saved = Some [turn]
    ∧ Turn.perspectives turn = Some entries
    ∧ Z.of_nat (length entries) = Config.perspectives config
    ∧ Turn.totalCost turn = Some total
    ∧ Cost.inputTokens total
      = 150 + 200 * Config.perspectives config
        + (if Config.summarize config then 300 else 0)
    ∧ Cost.outputTokens total
      = 300 + 400 * Config.perspectives config
        + (if Config.summarize config then 600 else 0).
Proof.
  intros Hmock Hmany Hdry Hsave Hfree Hname.
  assert (Hchorus : Config.perspectives config ≠ 0) by lia.
  assert (Hexpand : expandStage config originalPrompt net
                    = Returns (MockApi.mockExpand originalPrompt config)).
  { unfold expandStage, ExpandSdk.expand, ExpandDirect.expand. rewrite Hmock.
    destruct (sdkDriver config); reflexivity. }
  set (instructions :=
         MockApi.mockInstructions originalPrompt 1 (Z.to_nat (Config.perspectives config))).
  assert (Hlength : Z.of_nat (length instructions) = Config.perspectives config).
  { unfold instructions. rewrite mockInstructions_length. lia. }
  assert (Hresults : fanOutStage config instructions net
                     = (λ instruction, MockApi.mockFanOutAgent instruction config)
                         <$> instructions).
  { unfold fanOutStage.
    destruct (mocked_fanOut_entries_both instructions config (agentApi net) (agentSdk net) Hmock)
      as [Hdirect Hsdk].
    destruct (sdkDriver config); assumption. }
  destruct (mocked_tokens config instructions) as [Hin Hout].
  unfold stages. rewrite Hexpand. unfold MockApi.mockExpand. fold instructions.
  rewrite Hdry, Hresults.
  destruct (Config.summarize config) eqn:Hsum.
  - assert (Hsynth : synthesizeStage config originalPrompt instructions
                       ((λ instruction, MockApi.mockFanOutAgent instruction config)
                          <$> instructions) net
                     = Returns (Synthesize.mockSynthesize originalPrompt
                                  ((λ instruction, MockApi.mockFanOutAgent instruction config)
                                     <$> instructions) config)).
    { unfold synthesizeStage, Synthesize.synthesizeSdk, Synthesize.synthesizeDirect.
      rewrite Hmock. destruct (sdkDriver config); reflexivity. }
    rewrite Hsynth. unfold Synthesize.mockSynthesize.
    match goal with
    | |- context [AskMilo.run _ _ _ _ (Returns ?out) _] =>
        destruct (run_saves_this_turn fs commandLineParameters config originalPrompt out
                    env name Hfree Hname Hsave) as (saved & Hrun & Hturns)
    end.
    rewrite (thisTurn_chorus _ _ _ _ _ Hchorus) in Hturns.
    eexists. eexists. eexists. eexists. split; [exact Hrun |]. split; [exact Hturns |].
    unfold SessionManager.buildTurnFromResults.
    cbn [Turn.perspectives Turn.totalCost AskMilo.results AskMilo.expandCost
         AskMilo.synthesisCost from_option fmap option_fmap option_map Cost.inputTokens
         Cost.outputTokens].
    unfold id.
    split; [reflexivity |]. split; [rewrite !length_fmap; exact Hlength |].
    split; [reflexivity |].
    unfold SessionManager.sumInputTokens, SessionManager.sumOutputTokens.
    rewrite !foldl_add_from, Hin, Hout. cbn [Cost.inputTokens Cost.outputTokens].
    split; lia.
  - match goal with
    | |- context [AskMilo.run _ _ _ _ (Returns ?out) _] =>
        destruct (run_saves_this_turn fs commandLineParameters config originalPrompt out
                    env name Hfree Hname Hsave) as (saved & Hrun & Hturns)
    end.
    rewrite (thisTurn_chorus _ _ _ _ _ Hchorus) in Hturns.
    eexists. eexists. eexists. eexists. split; [exact Hrun |]. split; [exact Hturns |].
    unfold SessionManager.buildTurnFromResults.
    cbn [Turn.perspectives Turn.totalCost AskMilo.results AskMilo.expandCost
         AskMilo.synthesisCost from_option fmap option_fmap option_map Cost.inputTokens
         Cost.outputTokens].
    unfold id.
    split; [reflexivity |]. split; [rewrite !length_fmap; exact Hlength |].
    split; [reflexivity |].
    unfold SessionManager.sumInputTokens, SessionManager.sumOutputTokens.
    rewrite !foldl_add_from, Hin, Hout. cbn [Cost.inputTokens Cost.outputTokens].
    split; lia.
Qed.

End PipelineProofs.

Section PipelineExamples.
#[local] Existing Instance Reference.runtime.

Import ChorusPipeline.

Lemma studyNetwork_expands (config : Config.t) :
  Config.mockApi config = false → sdkDriver config = false →
  ∃ cost,
    expandStage config "Compare X and Y" studyNetwork = Returns ([loneInstruction], cost).
Proof.
  intros Hlive Hdirect. unfold expandStage, ExpandDirect.expand. rewrite Hdirect, Hlive.
  eexists. reflexivity.
Qed.

(** One participant, whose request fails: the turn is saved, with the
    failure marker. *)
Lemma chorus_turn_survives_participant_failures_witness :
  ∃ saved turn entries entry,
    AskMilo.run ∅ namedRequest liveChorus "Compare X and Y"
      (stages liveChorus "Compare X and Y" studyNetwork fourMinutes) quietEnv
    = (<[sessionFilePath "calm_brook" := SessionJson saved]> ∅, 0)
    ∧ Session.turns saved = Some [turn]
    ∧ Turn.perspectives turn = Some entries
    ∧ entries !! 0%nat = Some entry
    ∧ PerspectiveEntry.findings entry = "[AGENT FAILED: Error: 529 overloaded]".
Proof.
  destruct (studyNetwork_expands liveChorus eq_refl eq_refl) as [cost Hexpand].
  destruct (chorus_turn_survives_participant_failures ∅ namedRequest liveChorus
              "Compare X and Y" studyNetwork fourMinutes quietEnv "calm_brook"
              [loneInstruction] cost)
    as (saved & turn & entries & Hrun & Hturns & Hentries & _ & Hfailed).
  - discriminate.
  - reflexivity.
  - reflexivity.
  - reflexivity.
  - exact namedRequest_withoutResume.
  - exact namedRequest_sessionName.
  - exact Hexpand.
  - destruct (Hfailed 0%nat "Error: 529 overloaded") as (entry & Hentry & Hfindings & _).
    + reflexivity.
    + reflexivity.
    + simpl. lia.
    + reflexivity.
    + exists saved, turn, entries, entry.
      split_and!; [exact Hrun | exact Hturns | exact Hentries | exact Hentry | exact Hfindings].
Defined.

(** The same study as a dry run. *)
Lemma a_dry_run_saves_a_turn_without_perspectives_witness :
  ∃ saved turn,
    AskMilo.run ∅ namedRequest liveDryRun "Compare X and Y"
      (stages liveDryRun "Compare X and Y" studyNetwork fourMinutes) quietEnv
    = (<[sessionFilePath "calm_brook" := SessionJson saved]> ∅, 0)
    ∧ Session.turns saved = Some [turn]
    ∧ Turn.perspectives turn = Some [].
Proof.
  destruct (studyNetwork_expands liveDryRun eq_refl eq_refl) as [cost Hexpand].
  destruct (a_dry_run_saves_a_turn_without_perspectives ∅ namedRequest liveDryRun
              "Compare X and Y" studyNetwork fourMinutes quietEnv "calm_brook"
              [loneInstruction] cost)
    as (saved & turn & expansion & total & Hrun & Hturns & _ & _ & Hnone & _).
  - discriminate.
  - reflexivity.
  - reflexivity.
  - exact namedRequest_withoutResume.
  - exact namedRequest_sessionName.
  - exact Hexpand.
  - exists saved, turn. split_and!; [exact Hrun | exact Hturns | exact Hnone].
Defined.

Lemma studyNetwork_synthesizes instructions results :
  ∃ cost,
    synthesizeStage liveSummary "Compare X and Y" instructions results studyNetwork
    = Returns ("Both agree.", cost).
Proof. eexists. reflexivity. Qed.

(** The same study, summarized. *)
Lemma a_summarized_turn_carries_its_synthesis_witness :
  ∃ saved turn cost,
    AskMilo.run ∅ namedRequest liveSummary "Compare X and Y"
      (stages liveSummary "Compare X and Y" studyNetwork fourMinutes) quietEnv
    = (<[sessionFilePath "calm_brook" := SessionJson saved]> ∅, 0)
    ∧ Session.turns saved = Some [turn]
    ∧ Turn.synthesis turn = Some (Synthesis.mk "Both agree." cost).
Proof.
  destruct (studyNetwork_expands liveSummary eq_refl eq_refl) as [expandCost Hexpand].
  destruct (studyNetwork_synthesizes [loneInstruction]
              (fanOutStage liveSummary [loneInstruction] studyNetwork)) as [cost Hsynth].
  destruct (a_summarized_turn_carries_its_synthesis ∅ namedRequest liveSummary
              "Compare X and Y" studyNetwork fourMinutes quietEnv "calm_brook"
              [loneInstruction] expandCost "Both agree." cost)
    as (_ & saved & turn & Hrun & Hturns & Hsynthesis).
  - discriminate.
  - reflexivity.
  - reflexivity.
  - reflexivity.
  - exact namedRequest_withoutResume.
  - exact namedRequest_sessionName.
  - exact Hexpand.
  - exact Hsynth.
  - exists saved, turn, cost. split_and!; [exact Hrun | exact Hturns | exact Hsynthesis].
Defined.

(** Two perspectives and a synthesis under the mock: 850 tokens in,
    1700 out. *)
Lemma a_mocked_chorus_run_costs_by_the_perspective_witness :
  ∃ saved turn total,
    AskMilo.run ∅ namedRequest mockedSummary "Compare X and Y"
      (stages mockedSummary "Compare X and Y" studyNetwork fourMinutes) quietEnv
    = (<[sessionFilePath "calm_brook" := SessionJson saved]> ∅, 0)
    ∧ Session.turns saved = Some [turn]
    ∧ Turn.totalCost turn = Some total
    ∧ Cost.inputTokens total = 850
    ∧ Cost.outputTokens total = 1700.
Proof.
  destruct (a_mocked_chorus_run_costs_by_the_perspective ∅ namedRequest mockedSummary
              "Compare X and Y" studyNetwork fourMinutes quietEnv "calm_brook")
    as (saved & turn & entries & total & Hrun & Hturns & _ & _ & Htotal & Hin & Hout).
  - reflexivity.
  - reflexivity.
  - reflexivity.
  - reflexivity.
  - exact namedRequest_withoutResume.
  - exact namedRequest_sessionName.
  - exists saved, turn, total.
    split_and!; [exact Hrun | exact Hturns | exact Htotal | exact Hin | exact Hout].
Defined.

End PipelineExamples.
